(** * RFPlayer gateway: packet codec, identity codec and event router

    A shallow embedding of
      - [custom_components/rfplayer/rflib/rfpparser.py]
      - [custom_components/rfplayer/__init__.py]
    Python dictionaries are insertion-ordered association lists (the order
    in which [packet.items()] is walked decides the order of the emitted
    events), Python exceptions are an error monad, logging and Home
    Assistant side effects are recorded traces.

    Strings are sequences of 8-bit characters, the wire format of the
    gateway being ASCII.  [upper] computes the upper case of an ASCII text
    and leaves a text with a character outside ASCII to the case mapping
    of the interpreter; [lower] is used for one test only, against the
    ASCII word [chacon], which no character outside ASCII can meet. *)

From Stdlib Require Import String Ascii List ZArith Bool Arith Lia.
From Stdlib Require Import Numbers.DecimalString.
Import ListNotations.
Set Warnings "-register-all".
Local Open Scope list_scope.
Local Open Scope string_scope.

(* ===================================================================== *)
(** ** Python values, exceptions and the builtins the code relies on     *)
(* ===================================================================== *)

Module Py.

(** The values a packet ([Dict[str, Any]]) can hold: what [json.loads]
    produces (floats left out) and what the decoders store. *)
Inductive value : Type :=
| VNone
| VBool (b : bool)
| VInt (z : Z)
| VStr (s : string)
| VList (l : list value)
| VDict (d : list (string * value)).

Definition dict : Type := list (string * value).

(** The exceptions raised by the modelled code (all are subclasses of
    [Exception]). *)
Inductive exn : Type :=
| KeyError (key : string)
| IndexError
| TypeError
| AttributeError
| UnboundLocalError (name : string)
| JSONDecodeError
| Exception_ (msg : string).

Inductive result (A : Type) : Type :=
| Ok (a : A)
| Raise (e : exn).
Arguments Ok {A} a.
Arguments Raise {A} e.

Definition bind {A B : Type} (m : result A) (k : A -> result B) : result B :=
  match m with
  | Ok a => k a
  | Raise e => Raise e
  end.

(** [bool(v)] *)
Definition truthy (v : value) : bool :=
  match v with
  | VNone => false
  | VBool b => b
  | VInt z => negb (Z.eqb z 0)
  | VStr s => negb (String.eqb s "")
  | VList l => match l with [] => false | _ => true end
  | VDict d => match d with [] => false | _ => true end
  end.

(** [v == None] *)
Definition is_None (v : value) : bool :=
  match v with VNone => true | _ => false end.

(** *** Dictionaries *)

(** [d.get(k)] as an option; keys are unique, the first binding is it. *)
Section Dict.
Context {V : Type}.

Fixpoint dict_get (k : string) (d : list (string * V)) : option V :=
  match d with
  | [] => None
  | (k', v) :: d' => if String.eqb k k' then Some v else dict_get k d'
  end.

(** [k in d] *)
Definition dict_mem (k : string) (d : list (string * V)) : bool :=
  match dict_get k d with Some _ => true | None => false end.

(** [d.get(k, default)] *)
Definition dict_get_default (k : string) (default : V) (d : list (string * V)) : V :=
  match dict_get k d with Some v => v | None => default end.

(** [d[k]] *)
Definition dict_getitem (k : string) (d : list (string * V)) : result V :=
  match dict_get k d with Some v => Ok v | None => Raise (KeyError k) end.

(** [d[k] = v]: an existing key keeps its place, a new one goes last. *)
Fixpoint dict_set (k : string) (v : V) (d : list (string * V)) : list (string * V) :=
  match d with
  | [] => [(k, v)]
  | (k', v') :: d' =>
      if String.eqb k k' then (k, v) :: d' else (k', v') :: dict_set k v d'
  end.

(** A dict display [{k1: v1, k2: v2, ...}] or comprehension: the items
    are stored from left to right, a repeated key keeps its first place
    and its last value. *)
Definition dict_of_items (items : list (string * V)) : list (string * V) :=
  fold_left (fun d kv => dict_set (fst kv) (snd kv) d) items [].

End Dict.

(** Python's [==] on dictionaries with string values: same keys, same
    values, whatever the order. *)
Definition dict_equiv (d1 d2 : dict) : Prop :=
  forall k, dict_get k d1 = dict_get k d2.

(** [v[k]] for a string subscript [k]: only a dict accepts it. *)
Definition getitem_str (k : string) (v : value) : result value :=
  match v with
  | VDict d => dict_getitem k d
  | _ => Raise TypeError
  end.

(** *** Strings *)

Definition is_upper (c : ascii) : bool :=
  let n := nat_of_ascii c in (65 <=? n)%nat && (n <=? 90)%nat.

Definition is_lower (c : ascii) : bool :=
  let n := nat_of_ascii c in (97 <=? n)%nat && (n <=? 122)%nat.

Definition lower_ascii (c : ascii) : ascii :=
  if is_upper c then ascii_of_nat (nat_of_ascii c + 32) else c.

Definition upper_ascii (c : ascii) : ascii :=
  if is_lower c then ascii_of_nat (nat_of_ascii c - 32) else c.

Fixpoint map_string (f : ascii -> ascii) (s : string) : string :=
  match s with
  | EmptyString => EmptyString
  | String c s' => String (f c) (map_string f s')
  end.

(** [s.lower()], on the ASCII letters.  The code calls it once, for
    [packet_id.lower().startswith("chacon")]: no character outside ASCII
    has one of the letters of that word for lower case, so that the test
    reads the same on every text. *)
Definition lower : string -> string := map_string lower_ascii.

(** [s.isascii()] *)
Definition isascii (s : string) : bool :=
  forallb (fun c => (nat_of_ascii c <? 128)%nat) (list_ascii_of_string s).

Section Upper.

(** [str.upper] of the interpreter on a text that has a character outside
    ASCII: the case mapping of Unicode, which is not made letter by
    letter (the upper case of the sharp s is two letters). *)
Variable unicode_upper : string -> string.

(** [s.upper()] *)
Definition upper (s : string) : string :=
  if isascii s then map_string upper_ascii s else unicode_upper s.

End Upper.

(** [s.startswith(p)] *)
Definition startswith (p s : string) : bool := String.prefix p s.

(** [s[:n]] *)
Definition slice_to (n : nat) (s : string) : string := String.substring 0 n s.

(** [s.replace(old, new)] for a non-empty [old]: the occurrences are
    replaced from left to right, without overlap.  [skip] counts the
    characters of a matched occurrence that are still to be dropped. *)
Fixpoint replace_go (old new : string) (skip : nat) (s : string) : string :=
  match s with
  | EmptyString => EmptyString
  | String c s' =>
      match skip with
      | S k => replace_go old new k s'
      | O =>
          if String.prefix old s
          then new ++ replace_go old new (String.length old - 1) s'
          else String c (replace_go old new 0 s')
      end
  end.

Definition replace (old new s : string) : string := replace_go old new 0 s.

(** [s.split(sep)] for a non-empty [sep]. *)
Fixpoint split_go (sep : string) (skip : nat) (s : string) : list string :=
  match s with
  | EmptyString => [EmptyString]
  | String c s' =>
      match skip with
      | S k => split_go sep k s'
      | O =>
          if String.prefix sep s
          then EmptyString :: split_go sep (String.length sep - 1) s'
          else match split_go sep 0 s' with
               | seg :: rest => String c seg :: rest
               | [] => [String c EmptyString]
               end
      end
  end.

Definition split (sep s : string) : list string := split_go sep 0 s.

(** The strings of a list of values, when all of them are strings. *)
Fixpoint all_str (l : list value) : option (list string) :=
  match l with
  | [] => Some []
  | VStr s :: l' =>
      match all_str l' with Some ss => Some (s :: ss) | None => None end
  | _ :: _ => None
  end.

(** [sep.join(l)]: a [TypeError] when an item is not a string. *)
Definition join (sep : string) (l : list value) : result string :=
  match all_str l with
  | Some ss => Ok (String.concat sep ss)
  | None => Raise TypeError
  end.

(** [l[i]] *)
Definition list_getitem {A : Type} (i : nat) (l : list A) : result A :=
  match nth_error l i with Some a => Ok a | None => Raise IndexError end.

End Py.

Import Py.

Declare Scope py_scope.
Delimit Scope py_scope with py.
Notation "x <- m ;; k" := (bind m (fun x => k))
  (at level 61, m at next level, right associativity) : py_scope.
Local Open Scope py_scope.

(* ===================================================================== *)
(** ** rflib/rfpparser.py                                                *)
(* ===================================================================== *)

Module Rfpparser.

Definition PACKET_ID_SEP : string := "_".

(** *** Identity codec *)

(** [serialize_packet_id]: [filter(None, ...)] drops the absent and the
    falsy entries, [join] wants strings. *)
Definition serialize_packet_id (packet : dict) : result string :=
  join PACKET_ID_SEP
    (filter truthy
       [ dict_get_default "protocol" VNone packet;
         dict_get_default "id" VNone packet;
         dict_get_default "switch" VNone packet ]).

Definition deserialize_packet_id (packet_id : string) : result dict :=
  if String.eqb packet_id "rfplayer" then
    Ok (dict_of_items [("protocol", VStr "unknown")])
  else if String.eqb packet_id "ZIA" then
    Ok (dict_of_items [("protocol", VStr "ZIA++")])
  else if startswith "chacon" (lower packet_id) then
    address <- list_getitem 1 (split PACKET_ID_SEP packet_id) ;;
    Ok (dict_of_items [("protocol", VStr "chacon"); ("address", VStr address)])
  else if startswith "dooya_v4" packet_id then
    id <- list_getitem 0 (split PACKET_ID_SEP (replace "dooya_v4_" "" packet_id)) ;;
    switch <- list_getitem 0 (split PACKET_ID_SEP (replace "dooya_v4_" "" packet_id)) ;;
    Ok (dict_of_items
          [("protocol", VStr "dooya_v4"); ("id", VStr id); ("switch", VStr switch)])
  else
    let packet_id_splited := split PACKET_ID_SEP packet_id in
    protocol <- list_getitem 0 packet_id_splited ;;
    id <- list_getitem 1 packet_id_splited ;;
    let packet := dict_of_items [("protocol", VStr protocol); ("id", VStr id)] in
    if (2 <? List.length packet_id_splited)%nat then
      switch <- list_getitem 2 packet_id_splited ;;
      Ok (dict_set "switch" (VStr switch) packet)
    else Ok packet.

(** *** Field tables *)

(** The dict display of the source, item by item; ["sta"] and ["mod"]
    occur twice, and the later item wins. *)
Definition PACKET_FIELDS_items : list (string * string) :=
  [ ("batl", "battery_level"); ("batv", "battery"); ("cmd", "command");
    ("dtc", "detector"); ("sta", "status"); ("sen", "sensor");
    ("cov", "cover"); ("swi", "switch"); ("temperature", "temperature");
    ("hygrometry", "hygrometry"); ("prs", "pressure"); ("alm", "alarm");
    ("tmr", "tamper"); ("bt1", "button1"); ("bt2", "button2");
    ("bt3", "button3"); ("bt4", "button4"); ("btn", "button");
    ("spd", "speed"); ("dir", "direction"); ("uv", "uv"); ("nrj", "energy");
    ("pow", "Power"); ("P1", "P1"); ("P2", "P2"); ("P3", "P3");
    ("TRN", "TotalRain"); ("Rai", "Rain"); ("fnc", "functionMeaning");
    ("sta", "stateMeaning"); ("mod", "modeMeaning"); ("d0", "d0");
    ("d1", "d1"); ("d2", "d2"); ("d3", "d3"); ("typ", "subType");
    ("dbg", "debug"); ("mod", "model"); ("info", "info");
    ("type", "infoMeaning"); ("confort", "99"); ("eco", "98"); ("HG", "97");
    ("ON", "01"); ("OFF", "02"); ("dim", "dim"); ("hc1", "cnt1");
    ("hp2", "cnt2") ].

Definition PACKET_FIELDS : list (string * string) :=
  Eval vm_compute in dict_of_items PACKET_FIELDS_items.

(** The sort key [(x[1], x[0])] of [packet_events], compared as Python
    compares tuples of strings. *)
Definition field_key_leb (x y : string * string) : bool :=
  match String.compare (snd x) (snd y) with
  | Lt => true
  | Gt => false
  | Eq => String.leb (fst x) (fst y)
  end.

(** [sorted(items, key=..., reverse=True)]: a stable sort, largest key
    first, items of equal key in their original order. *)
Fixpoint insert_desc (x : string * string) (l : list (string * string))
  : list (string * string) :=
  match l with
  | [] => [x]
  | y :: l' => if field_key_leb y x then x :: l else y :: insert_desc x l'
  end.

Definition sorted_desc (l : list (string * string)) : list (string * string) :=
  fold_right insert_desc [] l.

(** [{v: k for k, v in sorted(PACKET_FIELDS.items(), ...)}]: from the
    full field name to its abbreviation. *)
Definition field_abbrev : list (string * string) :=
  Eval vm_compute in
    dict_of_items (map (fun kv => (snd kv, fst kv)) (sorted_desc PACKET_FIELDS)).

(** *** Event extraction *)

(** A generator run to its end: what it yielded, and the exception that
    ended it, if one did. *)
Definition gen (A : Type) : Type := (list A * option exn)%type.

(** [for x in l: yield body(x)] *)
Fixpoint gen_for {A B : Type} (body : A -> result B) (l : list A) : gen B :=
  match l with
  | [] => ([], None)
  | a :: l' =>
      match body a with
      | Ok b => let (bs, e) := gen_for body l' in (b :: bs, e)
      | Raise e => ([], Some e)
      end
  end.

(** One generator after the other. *)
Definition gen_seq {A : Type} (g1 g2 : gen A) : gen A :=
  match g1 with
  | (xs, Some e) => (xs, Some e)
  | (xs, None) => let (ys, e) := g2 in ((xs ++ ys)%list, e)
  end.

(** The local variables set by the loop over [packet.items()]:
    [platform] and [forceid] start as [None], [protocol] starts unbound. *)
Record locals : Type := mkLocals {
  l_platform : value;
  l_protocol : option value;
  l_forceid : value
}.

Definition scan_item (l : locals) (fv : string * value) : locals :=
  let (f, v) := fv in
  let l1 := if String.eqb f "platform"
            then mkLocals v (l_protocol l) (l_forceid l) else l in
  let l2 := if String.eqb f "protocol"
            then mkLocals (l_platform l1) (Some v) (l_forceid l1) else l1 in
  if String.eqb f "forceid"
  then mkLocals (l_platform l2) (l_protocol l2) v else l2.

Definition scan_items (packet : dict) : locals :=
  fold_left scan_item packet (mkLocals VNone None VNone).

(** Reading the local [protocol]. *)
Definition read_protocol (l : locals) : result value :=
  match l_protocol l with
  | Some v => Ok v
  | None => Raise (UnboundLocalError "protocol")
  end.

(** [s + v] for a string [s]. *)
Definition str_add (s : string) (v : value) : result string :=
  match v with
  | VStr t => Ok (s ++ t)
  | _ => Raise TypeError
  end.

(** [v.get(k, default)]: only a dict has [get]. *)
Definition value_get (k : string) (default : value) (v : value) : result value :=
  match v with
  | VDict d => Ok (dict_get_default k default d)
  | _ => Raise AttributeError
  end.

(** The body of the loop over [events.items()]. *)
Definition sensor_event (packet : dict) (packet_id : string) (l : locals)
    (sv : string * value) : result dict :=
  let (sensor, value) := sv in
  let unit := dict_get_default (sensor ++ "_unit") VNone packet in
  id <- (if is_None (l_forceid l) then
           a <- dict_getitem sensor field_abbrev ;;
           b <- dict_getitem sensor field_abbrev ;;
           Ok (VStr (packet_id ++ a ++ PACKET_ID_SEP ++ b))
         else Ok (l_forceid l)) ;;
  protocol <- read_protocol l ;;
  Ok (dict_of_items
        [ ("id", id); (sensor, value); ("value", value); ("unit", unit);
          ("platform", l_platform l); ("protocol", protocol) ]).

(** The body of the loop over [packet.get('elements').items()]; its
    debug record and its unused local [unit] are left out. *)
Definition element_event (packet_id : string) (l : locals)
    (sv : string * value) : result dict :=
  let (sensor, value) := sv in
  id <- (if is_None (l_forceid l) then
           p <- value_get "protocol" (VStr "unknown") value ;;
           s <- str_add packet_id p ;;
           Ok (VStr (s ++ PACKET_ID_SEP ++ sensor))
         else Ok (l_forceid l)) ;;
  v <- value_get "sensor" (VStr "unknown") value ;;
  u <- value_get "sensor_unit" (VStr "") value ;;
  pf <- value_get "platform" (VStr "unknown") value ;;
  pr <- value_get "protocol" (VStr "unknown") value ;;
  Ok (dict_of_items
        [ ("id", id); ("sensor", VStr "sensor"); ("value", v); ("unit", u);
          ("platform", pf); ("protocol", pr) ]).

(** [v.items()]: only a dict has [items]. *)
Definition value_items (v : value) : result dict :=
  match v with
  | VDict d => Ok d
  | _ => Raise AttributeError
  end.

Definition packet_events (packet : dict) : gen dict :=
  match serialize_packet_id packet with
  | Raise e => ([], Some e)
  | Ok packet_id =>
      let events := filter (fun fv => dict_mem (fst fv) field_abbrev) packet in
      let l := scan_items packet in
      gen_seq
        (gen_for (sensor_event packet packet_id l) events)
        (let elements := dict_get_default "elements" VNone packet in
         if truthy elements then
           match value_items elements with
           | Ok items => gen_for (element_event packet_id l) items
           | Raise e => ([], Some e)
           end
         else ([], None))
  end.

(** *** Frame decoding *)

Inductive level : Type := DEBUG | INFO | WARNING | ERROR.

(** An argument of a logging call. *)
Inductive log_arg : Type :=
| LText (s : string)          (** a string *)
| LStrOf (v : value)          (** [str(v)] of a value *)
| LExn (e : exn)              (** [str(e)] of a caught exception *)
| LTrace (e : exn).           (** [traceback.format_exc()] while handling [e] *)

Record log_record : Type := mkLog {
  log_level : level;
  log_format : string;
  log_args : list log_arg
}.

(** The object a decoder returns: the dictionary [data] it was given,
    itself, or another object.  [decode_packet] appends the object to
    [packets_found], not a copy of it: an entry that is [data] shows what
    [data] holds when the list is read, the writes of the later calls
    included. *)
Inductive returned : Type :=
| Data                (** [return data] *)
| Object (v : value). (** an object that no later call writes to *)

(** A protocol decoder [<Protocol>_decode(data, message, node)]: it may
    write to the dictionary [data] it is given, and returns an object or
    raises.  The result holds the contents of [data] after the call, also
    when the call raises. *)
Definition decoder : Type := dict -> value -> string -> dict * result returned.

(** What an entry of [packets_found] shows when [data] holds [data]. *)
Definition packet_of (data : dict) (r : returned) : value :=
  match r with
  | Data => VDict data
  | Object v => v
  end.

(** Packet source identification. *)
Inductive PacketHeader : Type := master | echo | gateway.

Definition PacketHeader_value (h : PacketHeader) : string :=
  match h with master => "10" | echo => "11" | gateway => "20" end.

Definition PacketHeader_name (h : PacketHeader) : string :=
  match h with master => "master" | echo => "echo" | gateway => "gateway" end.

(** [PacketHeader.gateway.name] *)
Definition gateway_name : string := Eval cbv in PacketHeader_name gateway.

(** [valid_packet]: the regular expression [^(ZIA--|ZIA33)]. *)
Definition valid_packet (packet : string) : bool :=
  startswith "ZIA--" packet || startswith "ZIA33" packet.

(** The items of [for x in v]. *)
Definition iterate (v : value) : result (list value) :=
  match v with
  | VDict d => Ok (map (fun kv => VStr (fst kv)) d)
  | VList l => Ok l
  | VStr s => Ok (map (fun c => VStr (String c EmptyString)) (list_ascii_of_string s))
  | _ => Raise TypeError
  end.

Section Decode.

(** [json.loads] of the standard library. *)
Variable json_loads : string -> result value.

(** The decoders among [globals()], by name: those that
    [from .protocols import *] brings into the module. *)
Variable module_globals : string -> option decoder.

(** [globals()["_".join([protocol, "decode"])](data, message, "gateway")] *)
Definition call_decoder (protocol : value) (data : dict) (message : value)
  : dict * result returned :=
  match join "_" [protocol; VStr "decode"] with
  | Raise e => (data, Raise e)
  | Ok name =>
      match module_globals name with
      | None => (data, Raise (KeyError name))
      | Some f => f data message gateway_name
      end
  end.

(** [for protocol in message: packets_found.append(...)]: no handler
    surrounds the calls, the first exception leaves the loop and the
    function.  Every call is given the same [data]; the list is read when
    the loop has ended, with what [data] holds then. *)
Fixpoint decode_batch (message : value) (data : dict) (protocols : list value)
    (packets_found : list returned) : result (list value) :=
  match protocols with
  | [] => Ok (map (packet_of data) packets_found)
  | protocol :: rest =>
      match call_decoder protocol data message with
      | (data', Ok p) => decode_batch message data' rest (packets_found ++ [p])%list
      | (_, Raise e) => Raise e
      end
  end.

(** The ["ZIA--"] case. *)
Definition decode_reply (packet : string) (data : dict) : result (list value) :=
  let frame := replace "ZIA--" "" packet in
  let single (protocol : string) :=
    match call_decoder (VStr protocol) data (VStr frame) with
    | (data', Ok p) => Ok [packet_of data' p]
    | (_, Raise e) => Raise e
    end in
  if startswith "Welcome" frame then single "WELCOME"
  else if startswith "ZIA--" frame then single "Status"
  else if startswith "RECEIVED" frame then single "RECEIVED"
  else if startswith "REPEATED" frame then single "REPEATED"
  else
    message <- json_loads frame ;;
    protocols <- iterate message ;;
    decode_batch message data protocols [].

(** The ["ZIA33"] case: the lookup and the call are inside the [try].
    The handler reads [data["protocol"]] for its first record, after the
    decoder has run: it logs what the key holds then, and raises
    [KeyError] itself, before any record, when the key is gone. *)
Definition decode_json (packet : string) (data : dict)
  : result (list value) * list log_record :=
  match
    (v <- json_loads (replace "ZIA33" "" packet) ;;
     message <- getitem_str "frame" v ;;
     header <- getitem_str "header" message ;;
     protocol <- getitem_str "protocolMeaning" header ;;
     Ok (message, protocol))
  with
  | Raise e => (Raise e, [])
  | Ok (message, protocol) =>
      let data := dict_set "protocol" protocol data in
      match call_decoder protocol data message with
      | (data', Ok p) => (Ok [packet_of data' p], [])
      | (data', Raise e) =>
          match dict_getitem "protocol" data' with
          | Raise e' => (Raise e', [])
          | Ok current =>
              (Ok [],
               [ mkLog ERROR "Protocol %s not implemented : %s" [LStrOf current; LExn e];
                 mkLog DEBUG "Trace : %s" [LTrace e];
                 mkLog DEBUG "Message : %s" [LStrOf message] ])
          end
      end
  end.

(** [decode_packet]: the packets found, or the exception that left the
    function, and what was logged on the way. *)
Definition decode_packet (packet : string) : result (list value) * list log_record :=
  let data : dict := [("node", VStr gateway_name)] in
  let entry := mkLog DEBUG "Packet : %s" [LText packet] in
  let head := slice_to 5 packet in
  if String.eqb head "ZIA--" then (decode_reply packet data, [entry])
  else if String.eqb head "ZIA33" then
    let (r, logs) := decode_json packet data in (r, entry :: logs)
  else (Ok [], [entry]).

End Decode.

(** *** Command encoding *)

(** [str(z)] for an integer. *)
Definition str_of_Z (z : Z) : string := NilEmpty.string_of_int (Z.to_int z).

Section Encode.

(** [str.upper] of the interpreter outside ASCII. *)
Variable unicode_upper : string -> string.

(** [repr] of a list or a dict, by the interpreter. *)
Variable container_repr : value -> string.

(** [str(v)], and what an f-string field [{v}] shows. *)
Definition str (v : value) : string :=
  match v with
  | VNone => "None"
  | VBool true => "True"
  | VBool false => "False"
  | VInt z => str_of_Z z
  | VStr s => s
  | VList _ | VDict _ => container_repr v
  end.

Definition encode_packet (packet : dict) : result string :=
  c <- dict_getitem "command" packet ;;
  let command := upper unicode_upper (str c) in
  p <- dict_getitem "protocol" packet ;;
  let protocol := upper unicode_upper (str p) in
  if dict_mem "id" packet then
    id <- dict_getitem "id" packet ;;
    Ok ("ZIA++" ++ command ++ " " ++ protocol ++ " ID " ++ str id)
  else if dict_mem "address" packet then
    address <- dict_getitem "address" packet ;;
    Ok ("ZIA++" ++ command ++ " " ++ protocol ++ " " ++ str address)
  else Raise (Exception_ "No ID or Address found").

End Encode.

End Rfpparser.

Import Rfpparser.

(* ===================================================================== *)
(** ** __init__.py: event router and connection handling                 *)
(* ===================================================================== *)

Module Rfplayer.

(** *** Dictionary keys *)

(** What a hashable value is as a dictionary key: [True] and [1] are the
    same key, as are [False] and [0]. *)
Inductive key : Type :=
| KNone
| KInt (z : Z)
| KStr (s : string).

(** Hashing a value: lists and dicts are unhashable. *)
Definition hash_key (v : value) : result key :=
  match v with
  | VNone => Ok KNone
  | VBool b => Ok (KInt (if b then 1 else 0))
  | VInt z => Ok (KInt z)
  | VStr s => Ok (KStr s)
  | VList _ | VDict _ => Raise TypeError
  end.

Definition key_eqb (a b : key) : bool :=
  match a, b with
  | KNone, KNone => true
  | KInt x, KInt y => Z.eqb x y
  | KStr x, KStr y => String.eqb x y
  | _, _ => false
  end.

Section KeyMap.
Context {V : Type}.

Definition kmap : Type := list (key * V).

Fixpoint kget (k : key) (m : kmap) : option V :=
  match m with
  | [] => None
  | (k', v) :: m' => if key_eqb k k' then Some v else kget k m'
  end.

Fixpoint kset (k : key) (v : V) (m : kmap) : kmap :=
  match m with
  | [] => [(k, v)]
  | (k', v') :: m' =>
      if key_eqb k k' then (k, v) :: m' else (k', v') :: kset k v m'
  end.

End KeyMap.
Arguments kmap V : clear implicits.

(** *** The state the callbacks work on *)

(** What a platform stored under [DATA_DEVICE_REGISTER]: a function (for
    [inspect.isfunction]), named here, or something else. *)
Inductive registered : Type :=
| Function (name : string)
| NotFunction (v : value).

(** [hass.data[DOMAIN]] *)
Record domain_data : Type := mkData {
  rfplayer_protocol : bool;                 (** [False]: bound to [None] *)
  entity_lookup : kmap (kmap value);        (** of [defaultdict(list)] *)
  device_register : kmap registered
}.

(** [entry.options], by the keys that [connect] reads: [None] for a key
    that is not there. *)
Record options : Type := mkOptions {
  CONF_RECEIVER_DISABLE : option value;
  CONF_REPEATER_DISABLE : option value;
  CONF_TRACE : option value;
  CONF_FORMAT : option value;
  CONF_FREQ_L : option value;
  CONF_FREQ_H : option value;
  CONF_SELECTIVITY_L : option value;
  CONF_SELECTIVITY_H : option value;
  CONF_SENSITIVITY_L : option value;
  CONF_SENSITIVITY_H : option value;
  CONF_DSPTRIGGER_L : option value;
  CONF_DSPTRIGGER_H : option value;
  CONF_RFLINKTRIGGER_L : option value;
  CONF_RFLINKTRIGGER_H : option value;
  CONF_RFLINK : option value;
  CONF_LBT : option value;
  CONF_LEDACTIVITY : option value
}.

Record hass_state : Type := mkHass {
  data_domain : option domain_data;         (** [hass.data[DOMAIN]], if set *)
  stopping : bool;                          (** [hass.state == CoreState.stopping] *)
  entry_devices : option (kmap value);      (** [entry.data[CONF_DEVICES]], if set *)
  reconnect_interval : Z;                   (** [config[CONF_RECONNECT_INTERVAL]] *)
  automatic_add : bool;                     (** [options.get(CONF_AUTOMATIC_ADD, ...) is True] *)
  entry_options : options                   (** [entry.options] *)
}.

Inductive signal : Type :=
| SIGNAL_AVAILABILITY
| SIGNAL_HANDLE_EVENT (entity_id : value).  (** [SIGNAL_HANDLE_EVENT.format(entity_id)] *)

Inductive payload : Type :=
| PBool (b : bool)
| PEvent (event : dict).

(** The errors of the open attempt that [connect] handles. *)
Inductive open_error : Type := SerialException | OSError | TimeoutError.

Inductive task : Type :=
| ConnectTask                                (** [connect()] *)
| FactoryTask (name : string) (event : dict). (** [register[event_type](event)] *)

Inductive effect : Type :=
| Log (l : level) (format : string)
| DispatcherSend (s : signal) (p : payload)          (** [async_dispatcher_send] *)
| UpdateEntry (event_id : key) (event : dict)        (** [async_update_entry] with the device added *)
| CreateTask (t : task)                              (** [hass.async_create_task] *)
| CreateConnection (start_commands : list string)    (** [create_rfplayer_connection] with these [START_COMMANDS] *)
| CallLaterReconnect (delay : Z) (exc : open_error)  (** [hass.loop.call_later(delay, reconnect, exc)] *)
| ListenOnceStop.                                    (** [hass.bus.async_listen_once(EVENT_HOMEASSISTANT_STOP, ...)] *)

(** A callback run to its end: the state it leaves, what it did, and the
    exception that ended it, if one did. *)
Record outcome : Type := mkOutcome {
  final : hass_state;
  effects : list effect;
  raised : option exn
}.

Definition set_data (h : hass_state) (d : domain_data) : hass_state :=
  mkHass (Some d) (stopping h) (entry_devices h) (reconnect_interval h)
    (automatic_add h) (entry_options h).

Definition set_entry_devices (h : hass_state) (m : kmap value) : hass_state :=
  mkHass (data_domain h) (stopping h) (Some m) (reconnect_interval h)
    (automatic_add h) (entry_options h).

Definition set_lookup (d : domain_data) (l : kmap (kmap value)) : domain_data :=
  mkData (rfplayer_protocol d) l (device_register d).

Section Router.

(** Constants of [const.py]. *)
Variables EVENT_KEY_PLATFORM EVENT_KEY_ID : string.
Variables EVENT_KEY_COMMAND EVENT_KEY_SENSOR EVENT_KEY_COVER : string.

(** [repr] of a list or a dict, by the interpreter (for [str]). *)
Variable container_repr : value -> string.

Definition identify_event_type (event : dict) : value :=
  if dict_mem EVENT_KEY_PLATFORM event
  then dict_get_default EVENT_KEY_PLATFORM VNone event
  else VStr "unknown".

(** [table[event_id]] on a [defaultdict(list)]: a missing key is stored
    with an empty list, which is what the subscript returns. *)
Definition defaultdict_getitem (k : key) (table : kmap value) : value * kmap value :=
  match kget k table with
  | Some v => (v, table)
  | None => (VList [], kset k (VList []) table)
  end.

(** [_add_device_to_base_config(event, event_id)] *)
Definition _add_device_to_base_config (h : hass_state) (event : dict) (event_id : key)
  : outcome :=
  match entry_devices h with
  | None => mkOutcome h [] (Some (KeyError "devices"))
  | Some devices =>
      mkOutcome (set_entry_devices h (kset event_id (VDict event) devices))
                [UpdateEntry event_id event] None
  end.

Definition event_callback (h : hass_state) (event : dict) : outcome :=
  let event_type := identify_event_type event in
  match data_domain h with
  | None => mkOutcome h [] (Some (KeyError "rfplayer"))
  | Some d =>
  match hash_key event_type with
  | Raise e => mkOutcome h [] (Some e)
  | Ok kt =>
  match kget kt (entity_lookup d) with
  | None => mkOutcome h [Log DEBUG "unhandled event of type: %s"] None
  | Some table =>
  let event_id := dict_get_default EVENT_KEY_ID VNone event in
  match hash_key event_id with
  | Raise e => mkOutcome h [] (Some e)
  | Ok ki =>
  let (entity_id, table1) := defaultdict_getitem ki table in
  let d1 := set_lookup d (kset kt table1 (entity_lookup d)) in
  let h1 := set_data h d1 in
  if truthy entity_id then
    mkOutcome h1 [DispatcherSend (SIGNAL_HANDLE_EVENT entity_id) (PEvent event)] None
  else
    match kget kt (device_register d1) with
    | Some reg =>
        let d2 := set_lookup d1 (kset kt (kset ki (VDict event) table1) (entity_lookup d1)) in
        let h2 := set_data h1 d2 in
        let added := _add_device_to_base_config h2 event ki in
        let log1 := Log DEBUG "device_id not known, adding new device" in
        match raised added with
        | Some e => mkOutcome (final added) (log1 :: effects added) (Some e)
        | None =>
            match reg with
            | Function name =>
                mkOutcome (final added)
                  (log1 :: effects added ++ [CreateTask (FactoryTask name event)])%list
                  None
            | NotFunction _ =>
                mkOutcome (final added)
                  (log1 :: effects added
                     ++ [Log DEBUG "Impossible to add device - No functions mapped for %s"])%list
                  None
            end
        end
    | None =>
        mkOutcome h1 [Log DEBUG "device_id not known and automatic add disabled"] None
    end
  end end end end.

(** *** Connection handling *)

(** [reconnect(exc)]: no test of the current state comes before the send
    and the new task. *)
Definition reconnect (h : hass_state) : outcome :=
  match data_domain h with
  | None => mkOutcome h [] (Some (KeyError "rfplayer"))
  | Some d =>
      let h1 := set_data h (mkData false (entity_lookup d) (device_register d)) in
      let send := DispatcherSend SIGNAL_AVAILABILITY (PBool false) in
      if stopping h1 then mkOutcome h1 [send] None
      else mkOutcome h1
             [send; Log WARNING "Disconnected from Rfplayer, reconnecting";
              CreateTask ConnectTask] None
  end.

(** How [await connection] under [async_timeout.timeout] ended. *)
Inductive open_result : Type :=
| Opened
| OpenFailed (exc : open_error)    (** one of the three handled errors *)
| OpenRaised (e : exn).            (** any other exception *)

(** [hass.data[DOMAIN]] as [connect] builds it. *)
Definition fresh_data (auto_add : bool) : domain_data :=
  mkData true
    [ (KStr EVENT_KEY_COMMAND, []); (KStr EVENT_KEY_SENSOR, []);
      (KStr EVENT_KEY_COVER, []) ]
    (if auto_add
     then fold_left (fun m device_type => kset (KStr device_type) (NotFunction (VDict [])) m)
            ["sensor"; "command"; "cover"] []
     else []).

(** [options.get(key, default)] *)
Definition get (o : option value) (default : value) : value :=
  match o with Some v => v | None => default end.

(** [v == True] *)
Definition eq_True (v : value) : bool :=
  match v with
  | VBool b => b
  | VInt z => Z.eqb z 1
  | _ => false
  end.

(** [str(int(v == True))] *)
Definition flag (v : value) : string := if eq_True v then "1" else "0".

(** One of the three filter commands: when the option [guard] is there,
    the sign and the items of the option [items], each after a space. *)
Definition filter_command (base sign : string) (guard items : option value)
  : result string :=
  if is_None (get guard VNone) then Ok base
  else
    xs <- iterate (get items VNone) ;;
    Ok (fold_left (fun command x => command ++ " " ++ str container_repr x)
          xs (base ++ sign)).

(** The [START_COMMANDS] of [connect]; the trace command is guarded by
    the repeater option and walks the trace option. *)
Definition start_commands (o : options) : result (list string) :=
  ReceiverCommand <- filter_command "RECEIVER + *" " -"
                       (CONF_RECEIVER_DISABLE o) (CONF_RECEIVER_DISABLE o) ;;
  RepeaterCommand <- filter_command "REPEATER + *" " -"
                       (CONF_REPEATER_DISABLE o) (CONF_REPEATER_DISABLE o) ;;
  TraceCommand <- filter_command "TRACE - *" " +"
                    (CONF_REPEATER_DISABLE o) (CONF_TRACE o) ;;
  let s := str container_repr in
  Ok [ "FORMAT " ++ s (get (CONF_FORMAT o) (VStr "JSON"));
       ReceiverCommand;
       RepeaterCommand;
       TraceCommand;
       "FREQ L " ++ s (get (CONF_FREQ_L o) (VInt 433920));
       "FREQ H " ++ s (get (CONF_FREQ_H o) (VInt 868350));
       "SELECTIVITY L " ++ s (get (CONF_SELECTIVITY_L o) (VInt 0));
       "SELECTIVITY H " ++ s (get (CONF_SELECTIVITY_H o) (VInt 0));
       "SENSITIVITY L " ++ s (get (CONF_SENSITIVITY_L o) (VInt 4));
       "SENSITIVITY H " ++ s (get (CONF_SENSITIVITY_H o) (VInt 4));
       "DSPTRIGGER L " ++ s (get (CONF_DSPTRIGGER_L o) (VInt 8));
       "DSPTRIGGER H " ++ s (get (CONF_DSPTRIGGER_H o) (VInt 6));
       "RFLINKTRIGGER L " ++ s (get (CONF_RFLINKTRIGGER_L o) (VInt 10));
       "RFLINKTRIGGER H " ++ s (get (CONF_RFLINKTRIGGER_H o) (VInt 18));
       "RFLINK " ++ flag (get (CONF_RFLINK o) (VBool true));
       "LBT " ++ s (get (CONF_LBT o) (VInt 16));
       "LEDACTIVITY " ++ flag (get (CONF_LEDACTIVITY o) (VBool true));
       "STATUS JSON" ].

(** [connect()]: [r] is how the open attempt ends.  The port and the
    loop given to [create_rfplayer_connection] are left out. *)
Definition connect (h : hass_state) (r : open_result) : outcome :=
  let log0 := Log INFO "Initiating Rfplayer connection" in
  match start_commands (entry_options h) with
  | Raise e => mkOutcome h [log0] (Some e)
  | Ok commands =>
      let create := CreateConnection commands in
      match r with
      | OpenFailed exc =>
          mkOutcome h
            [ log0; create;
              Log ERROR "Error connecting to Rfplayer, reconnecting in %s";
              DispatcherSend SIGNAL_AVAILABILITY (PBool false);
              CallLaterReconnect (reconnect_interval h) exc ]
            None
      | OpenRaised e => mkOutcome h [log0; create] (Some e)
      | Opened =>
          mkOutcome (set_data h (fresh_data (automatic_add h)))
            [ log0; create;
              DispatcherSend SIGNAL_AVAILABILITY (PBool true);
              ListenOnceStop;
              Log INFO "Connected to Rfplayer" ]
            None
      end
  end.

End Router.

End Rfplayer.

Import Rfplayer.

(* ===================================================================== *)
(** ** Sample data                                                       *)
(* ===================================================================== *)

Module Samples.

(** The double quote of a JSON text. *)
Definition dq : string := String (ascii_of_nat 34) EmptyString.

(** A decoder in the style of the protocol modules: it stores the [id]
    found under [infos] of the message into [data] and returns [data];
    a message without [infos] ends it with a [KeyError]. *)
Definition sample_decode : decoder :=
  fun data message node =>
    match (infos <- getitem_str "infos" message ;; getitem_str "id" infos) with
    | Ok id => (dict_set "id" id data, Ok Data)
    | Raise e => (data, Raise e)
    end.

(** A decoder that reads nothing of the message: it stores its protocol
    into [data] and returns [data]. *)
Definition sample_decode_x2d : decoder :=
  fun data message node =>
    (dict_set "protocol" (VStr "X2D") data, Ok Data).

(** A module namespace with two decoders. *)
Definition sample_globals (name : string) : option decoder :=
  if String.eqb name "OREGON_decode" then Some sample_decode
  else if String.eqb name "X2D_decode" then Some sample_decode_x2d
  else None.

(** [{"frame": {"header": {"protocolMeaning": p}, "infos": {"id": "7"}}}] *)
Definition frame_of (p : string) : value :=
  VDict [("frame",
          VDict [("header", VDict [("protocolMeaning", VStr p)]);
                 ("infos", VDict [("id", VStr "7")])])].

(** [{"frame": {"header": {"protocolMeaning": "OREGON"}}}]: no [infos]. *)
Definition frame_without_infos : value :=
  VDict [("frame", VDict [("header", VDict [("protocolMeaning", VStr "OREGON")])])].

(** [{"X2D": {}, "NOPE": {}}] *)
Definition batch_message : value :=
  VDict [("X2D", VDict []); ("NOPE", VDict [])].

(** A [json.loads] that knows the texts used here, each named by a tag
    in place of its JSON text. *)
Definition sample_json_loads (s : string) : result value :=
  if String.eqb s "<oregon frame>" then Ok (frame_of "OREGON")
  else if String.eqb s "<nope frame>" then Ok (frame_of "NOPE")
  else if String.eqb s "<oregon frame without infos>" then Ok frame_without_infos
  else if String.eqb s "<batch>" then Ok batch_message
  else Raise JSONDecodeError.

Definition no_repr (v : value) : string := "".

(** A case mapping outside ASCII that knows one text. *)
Definition sample_upper (s : string) : string :=
  if String.eqb s "arrête" then "ARRÊTE" else s.

(** Options with nothing set, and options with two receivers disabled. *)
Definition no_options : options :=
  mkOptions None None None None None None None None None None None None
    None None None None None.

Definition sample_options : options :=
  mkOptions (Some (VList [VStr "X10"; VStr "RTS"])) None None None None None
    None None None None None None None None (Some (VBool false)) None None.

(** Options with a repeater disabled and no trace option. *)
Definition sample_options_no_trace : options :=
  mkOptions None (Some (VList [VStr "X10"])) None None None None
    None None None None None None None None None None None.

(** A connected host: one sensor bound to an entity, a factory
    registered for the sensors, none for the covers. *)
Definition sample_hass : hass_state :=
  mkHass
    (Some (mkData true
             [ (KStr "command", []);
               (KStr "sensor", [(KStr "OREGON_1_t", VStr "sensor.oregon_1_t")]);
               (KStr "cover", []) ]
             [ (KStr "sensor", Function "add_new_device");
               (KStr "command", NotFunction (VDict [])) ]))
    false (Some []) 10 true sample_options.

(** The same host once the connection is lost: [reconnect] has unbound
    the protocol and a new [connect] is under way. *)
Definition sample_hass_lost : hass_state :=
  mkHass
    (Some (mkData false
             [ (KStr "command", []);
               (KStr "sensor", [(KStr "OREGON_1_t", VStr "sensor.oregon_1_t")]);
               (KStr "cover", []) ]
             [ (KStr "sensor", Function "add_new_device");
               (KStr "command", NotFunction (VDict [])) ]))
    false (Some []) 10 true sample_options.

(** A host whose first connection has not been made yet. *)
Definition sample_hass_new : hass_state :=
  mkHass None false (Some []) 10 true no_options.

Definition sample_event (platform id : string) : dict :=
  [("id", VStr id); ("value", VStr "21.5"); ("platform", VStr platform)].

End Samples.

(* ===================================================================== *)
(** ** Device identities                                                 *)
(* ===================================================================== *)

Module Identity.

(** A device identity [(protocol, id, optional switch)]. *)
Record identity : Type := mkIdentity {
  i_protocol : string;
  i_id : string;
  i_switch : option string
}.

(** The packet that carries an identity and nothing else. *)
Definition identity_packet (x : identity) : dict :=
  ([("protocol", VStr (i_protocol x)); ("id", VStr (i_id x))]
     ++ match i_switch x with
        | Some s => [("switch", VStr s)]
        | None => []
        end)%list.

(** A string without the separator. *)
Fixpoint sep_free (s : string) : bool :=
  match s with
  | EmptyString => true
  | String c s' => negb (Ascii.eqb c "_") && sep_free s'
  end.

(** A part of an identity that survives the join: not empty, and free of
    the separator. *)
Definition segment (s : string) : bool :=
  negb (String.eqb s "") && sep_free s.

Definition segments (x : identity) : bool :=
  segment (i_protocol x) && segment (i_id x)
  && match i_switch x with Some s => segment s | None => true end.

(** The keys that [deserialize_packet_id] reads as a legacy form, by the
    four tests it makes before the generic case. *)
Definition legacy_key (k : string) : bool :=
  String.eqb k "rfplayer" || String.eqb k "ZIA"
  || startswith "chacon" (lower k) || startswith "dooya_v4" k.

End Identity.

Import Identity.

(* ===================================================================== *)
(** ** Well-typed packets and what their events hold                     *)
(* ===================================================================== *)

Module Events.

(** A field naming one of the known semantic fields. *)
Definition known (fv : string * value) : bool := dict_mem (fst fv) field_abbrev.

(** What [serialize_packet_id] can take: a string, or a value that
    [filter(None, ...)] drops. *)
Definition joinable (v : value) : bool :=
  match v with
  | VStr _ => true
  | _ => negb (truthy v)
  end.

Definition identity_fields_ok (packet : dict) : bool :=
  forallb joinable
    [ dict_get_default "protocol" VNone packet;
      dict_get_default "id" VNone packet;
      dict_get_default "switch" VNone packet ].

(** An element is a mapping, and its protocol, when it goes into the id
    of the event, is a string. *)
Definition element_ok (forceid : value) (sv : string * value) : bool :=
  match snd sv with
  | VDict d =>
      negb (is_None forceid)
      || match dict_get_default "protocol" (VStr "unknown") d with
         | VStr _ => true
         | _ => false
         end
  | _ => false
  end.

(** The items of the [elements] of a packet. *)
Definition elements_items (packet : dict) : dict :=
  match dict_get_default "elements" VNone packet with
  | VDict items => items
  | _ => []
  end.

Definition elements_ok (packet : dict) : bool :=
  let elements := dict_get_default "elements" VNone packet in
  if truthy elements then
    match elements with
    | VDict items =>
        forallb (element_ok (dict_get_default "forceid" VNone packet)) items
    | _ => false
    end
  else true.

(** What the event of a top-level field holds. *)
Definition field_event (packet : dict) (protocol : value)
    (fv : string * value) (ev : dict) : Prop :=
  dict_get "value" ev = Some (snd fv)
  /\ dict_get "protocol" ev = Some protocol
  /\ dict_get "platform" ev = Some (dict_get_default "platform" VNone packet)
  /\ dict_get "unit" ev = Some (dict_get_default (fst fv ++ "_unit") VNone packet).

(** What the event of an element holds. *)
Definition element_event_of (sv : string * value) (ev : dict) : Prop :=
  exists d,
    snd sv = VDict d
    /\ dict_get "value" ev = Some (dict_get_default "sensor" (VStr "unknown") d)
    /\ dict_get "unit" ev = Some (dict_get_default "sensor_unit" (VStr "") d)
    /\ dict_get "platform" ev = Some (dict_get_default "platform" (VStr "unknown") d)
    /\ dict_get "protocol" ev = Some (dict_get_default "protocol" (VStr "unknown") d).

End Events.

Import Events.

(* ===================================================================== *)
(** ** Reading a log                                                     *)
(* ===================================================================== *)

Module Logs.

Definition is_error (r : log_record) : bool :=
  match log_level r with ERROR => true | _ => false end.

(** The records of level [ERROR]. *)
Definition diagnostics (logs : list log_record) : list log_record :=
  filter is_error logs.

(** The record that opens every call of [decode_packet]. *)
Definition entry_record (packet : string) : log_record :=
  mkLog DEBUG "Packet : %s" [LText packet].

(** The three records of the handler of the ["ZIA33"] case. *)
Definition handler_records (protocol message : value) (e : exn) : list log_record :=
  [ mkLog ERROR "Protocol %s not implemented : %s" [LStrOf protocol; LExn e];
    mkLog DEBUG "Trace : %s" [LTrace e];
    mkLog DEBUG "Message : %s" [LStrOf message] ].

(** The frame of a ["ZIA--"] line is none of the four fixed replies. *)
Definition json_reply (frame : string) : bool :=
  negb (startswith "Welcome" frame) && negb (startswith "ZIA--" frame)
  && negb (startswith "RECEIVED" frame) && negb (startswith "REPEATED" frame).

(** What [data] holds after the decoders of the keys have run, each on
    what the one before it left. *)
Fixpoint batch_data (module_globals : string -> option decoder) (message : value)
    (data : dict) (keys : list string) : dict :=
  match keys with
  | [] => data
  | key :: rest =>
      batch_data module_globals message
        (fst (call_decoder module_globals (VStr key) data message)) rest
  end.

End Logs.

Import Logs.

(* ===================================================================== *)
(** ** Runs of the callbacks                                             *)
(* ===================================================================== *)

Module Runs.

(** The consumer bound to an identity: the entry of the table, when it is
    there and truthy (an entry made by a lookup is an empty list). *)
Definition bound_consumer (table : kmap value) (event_id : key) : option value :=
  match kget event_id table with
  | Some v => if truthy v then Some v else None
  | None => None
  end.

(** What the event loop runs, one callback at a time: the rest of
    [connect] once its open attempt has ended, or [reconnect], called by
    the timer that [connect] set or as the disconnect callback of the
    connection. *)
Inductive stimulus : Type :=
| OpenAttemptEnds (r : open_result)
| ReconnectCalled.

Section Run.
Variables EVENT_KEY_COMMAND EVENT_KEY_SENSOR EVENT_KEY_COVER : string.
Variable container_repr : value -> string.

Definition step (h : hass_state) (s : stimulus) : outcome :=
  match s with
  | OpenAttemptEnds r =>
      connect EVENT_KEY_COMMAND EVENT_KEY_SENSOR EVENT_KEY_COVER container_repr h r
  | ReconnectCalled => reconnect h
  end.

(** The effects of a run; an exception ends its callback only. *)
Fixpoint run (h : hass_state) (l : list stimulus) : list effect :=
  match l with
  | [] => []
  | s :: l' => (effects (step h s) ++ run (final (step h s)) l')%list
  end.

End Run.

Definition is_unavailable (e : effect) : bool :=
  match e with
  | DispatcherSend SIGNAL_AVAILABILITY (PBool false) => true
  | _ => false
  end.

Definition is_scheduled (e : effect) : bool :=
  match e with
  | CallLaterReconnect _ _ => true
  | _ => false
  end.

Definition is_attempt (e : effect) : bool :=
  match e with
  | CreateTask ConnectTask => true
  | _ => false
  end.

Definition count (f : effect -> bool) (l : list effect) : nat :=
  List.length (filter f l).

End Runs.

Import Runs.

(* ===================================================================== *)
(** ** __init__.py: the services                                         *)
(* ===================================================================== *)

Module Services.

(** [call.data] of the send-command service, as [SEND_COMMAND_SCHEMA]
    validates it: strings where [cv.string] is asked, a boolean with the
    default [False] for the automatic add, [None] for an optional key
    that is not given. *)
Record command_call : Type := mkCall {
  call_protocol : string;
  call_command : string;
  call_device_address : option string;
  call_device_id : option string;
  call_automatic_add : bool;
  call_entity_type : option string
}.

(** What the services do besides the effects of the callbacks. *)
Inductive service_effect : Type :=
| Core (e : effect)
| SendCommandAck (protocol command : string) (device_address device_id : option string)
                                       (** [send_command_ack], awaited *)
| SendRawCommandAck (command : string) (** [send_raw_command_ack], awaited *)
| AwaitFactory (name : string) (device : dict).
                                       (** [await register[key](device)] *)

Record service_outcome : Type := mkService {
  s_final : hass_state;
  s_effects : list service_effect;
  s_raised : option exn
}.

(** [call.data.get(key)] of an optional string. *)
Definition opt_value (o : option string) : value :=
  match o with Some s => VStr s | None => VNone end.

(** [a or b] of two optional strings. *)
Definition opt_or (a b : option string) : value :=
  if truthy (opt_value a) then opt_value a else opt_value b.

(** [hass.data[DOMAIN][RFPLAYER_PROTOCOL].<method>]: the protocol object,
    when there is one; [None] has no method. *)
Definition protocol_object (h : hass_state) : result unit :=
  match data_domain h with
  | None => Raise (KeyError "rfplayer")
  | Some d => if rfplayer_protocol d then Ok tt else Raise AttributeError
  end.

Section Services.

(** Constants of [const.py]. *)
Variables CONF_DEVICE_ADDRESS CONF_ENTITY_TYPE : string.
Variables EVENT_KEY_ID EVENT_KEY_COMMAND EVENT_KEY_COVER : string.

(** Constants of [homeassistant.const]. *)
Definition CONF_PROTOCOL : string := "protocol".
Definition CONF_DEVICE_ID : string := "device_id".

(** The exception that the factory of that name raises on a device, if
    it raises. *)
Variable factory_raises : string -> dict -> option exn.

(** [await hass.data[DOMAIN][DATA_DEVICE_REGISTER][key](device)] *)
Definition await_register (h : hass_state) (k : string) (device : dict)
  : list service_effect * option exn :=
  match data_domain h with
  | None => ([], Some (KeyError "rfplayer"))
  | Some d =>
      match kget (KStr k) (device_register d) with
      | None => ([], Some (KeyError k))
      | Some (NotFunction _) => ([], Some TypeError)
      | Some (Function name) => ([AwaitFactory name device], factory_raises name device)
      end
  end.

(** The part of [async_send_command] under [call.data[CONF_AUTOMATIC_ADD]
    is True]. *)
Definition add_device (h : hass_state) (call : command_call)
    (sent : list service_effect) : service_outcome :=
  let log := Core (Log DEBUG "Add device for %s") in
  match call_entity_type call with
  | None => mkService h (sent ++ [log])%list (Some (KeyError CONF_ENTITY_TYPE))
  | Some entity_type =>
      match join "_" [ VStr (call_protocol call);
                       opt_or (call_device_id call) (call_device_address call);
                       VStr entity_type ] with
      | Raise e => mkService h (sent ++ [log])%list (Some e)
      | Ok event_id =>
          let common :=
            [ (CONF_PROTOCOL, VStr (call_protocol call));
              (CONF_DEVICE_ADDRESS, opt_value (call_device_address call));
              (CONF_DEVICE_ID, opt_value (call_device_id call));
              (CONF_ENTITY_TYPE, VStr entity_type) ] in
          let cover := String.eqb entity_type "cover" in
          let device :=
            dict_of_items
              (common ++ (if cover then [(EVENT_KEY_COVER, VStr "DOWN")]
                          else [(EVENT_KEY_COMMAND, VBool true)])
                      ++ [(EVENT_KEY_ID, VStr event_id)])%list in
          let (called, e) :=
            await_register h (if cover then EVENT_KEY_COVER else EVENT_KEY_COMMAND)
              device in
          match e with
          | Some e => mkService h (sent ++ log :: called)%list (Some e)
          | None =>
              let added := _add_device_to_base_config h device (KStr event_id) in
              mkService (final added)
                (sent ++ log :: called ++ map Core (effects added))%list
                (raised added)
          end
      end
  end.

(** [async_send_command(call)]; [ack] is what the awaited
    [send_command_ack] returns, or the exception it raises. *)
Definition async_send_command (h : hass_state) (call : command_call)
    (ack : result bool) : service_outcome :=
  let log := Core (Log DEBUG "Rfplayer send command for %s") in
  match protocol_object h with
  | Raise e => mkService h [log] (Some e)
  | Ok _ =>
      let send := SendCommandAck (call_protocol call) (call_command call)
                    (call_device_address call) (call_device_id call) in
      match ack with
      | Raise e => mkService h [log; send] (Some e)
      | Ok acked =>
          let sent :=
            if acked then [log; send]
            else [log; send; Core (Log ERROR "Failed Rfplayer command")] in
          if call_automatic_add call then add_device h call sent
          else mkService h sent None
      end
  end.

(** [async_send_raw_command(call)] *)
Definition async_send_raw_command (h : hass_state) (command : string)
    (ack : result bool) : service_outcome :=
  let log := Core (Log DEBUG "Rfplayer send command for %s") in
  match protocol_object h with
  | Raise e => mkService h [log] (Some e)
  | Ok _ =>
      let send := SendRawCommandAck command in
      match ack with
      | Raise e => mkService h [log; send] (Some e)
      | Ok acked =>
          mkService h
            (if acked then [log; send]
             else [log; send; Core (Log ERROR "Failed Rfplayer command")])
            None
      end
  end.

End Services.

Definition is_send (e : service_effect) : bool :=
  match e with
  | SendCommandAck _ _ _ _ | SendRawCommandAck _ => true
  | _ => false
  end.

Definition is_persist (e : service_effect) : bool :=
  match e with
  | Core (UpdateEntry _ _) => true
  | _ => false
  end.

End Services.

Import Services.

(* ===================================================================== *)
(** ** More sample data                                                  *)
(* ===================================================================== *)

Module Samples2.

(** A decoder that stores its protocol into [data] and returns [data],
    as [sample_decode_x2d] does. *)
Definition sample_decode_rts : decoder :=
  fun data message node =>
    (dict_set "protocol" (VStr "RTS") data, Ok Data).

(** A decoder that returns an object of its own and leaves [data] as it
    is. *)
Definition sample_decode_own : decoder :=
  fun data message node => (data, Ok (Object (VDict [("protocol", VStr "OWN")]))).

(** A decoder that writes another protocol into [data] and raises. *)
Definition sample_decode_rewrite : decoder :=
  fun data message node =>
    (dict_set "protocol" (VStr "OTHER") data, Raise (KeyError "infos")).

(** A decoder that removes the protocol from [data] and raises. *)
Definition sample_decode_forget : decoder :=
  fun data message node =>
    (filter (fun kv => negb (String.eqb (fst kv) "protocol")) data,
     Raise (KeyError "infos")).

(** The module namespace of the samples, with these decoders too. *)
Definition sample_globals (name : string) : option decoder :=
  if String.eqb name "RTS_decode" then Some sample_decode_rts
  else if String.eqb name "OWN_decode" then Some sample_decode_own
  else if String.eqb name "REWRITE_decode" then Some sample_decode_rewrite
  else if String.eqb name "FORGET_decode" then Some sample_decode_forget
  else Samples.sample_globals name.

(** A [json.loads] that knows more texts: [{"X2D": {}}],
    [{"X2D": {}, "OWN": {}, "RTS": {}}], [{"X2D": {}, "RTS": {}}] and two
    frames. *)
Definition sample_json_loads (s : string) : result value :=
  if String.eqb s "<x2d>" then Ok (VDict [("X2D", VDict [])])
  else if String.eqb s "<x2d own rts>" then
    Ok (VDict [("X2D", VDict []); ("OWN", VDict []); ("RTS", VDict [])])
  else if String.eqb s "<x2d rts>" then
    Ok (VDict [("X2D", VDict []); ("RTS", VDict [])])
  else if String.eqb s "<rewrite frame>" then Ok (Samples.frame_of "REWRITE")
  else if String.eqb s "<forget frame>" then Ok (Samples.frame_of "FORGET")
  else Samples.sample_json_loads s.

(** A host with factories for the commands and the covers. *)
Definition sample_hass : hass_state :=
  mkHass
    (Some (mkData true
             [ (KStr "command", []); (KStr "sensor", []); (KStr "cover", []) ]
             [ (KStr "command", Function "add_command");
               (KStr "cover", Function "add_cover") ]))
    false (Some []) 10 true Samples.no_options.

(** A host whose stop has begun. *)
Definition sample_hass_stopping : hass_state :=
  mkHass (data_domain Samples.sample_hass) true (Some []) 10 true Samples.no_options.

Definition no_factory_raises (name : string) (device : dict) : option exn := None.

Definition sample_call (automatic_add : bool) (entity_type : option string)
  : command_call :=
  mkCall "RTS" "on" None (Some "12") automatic_add entity_type.

End Samples2.

(* ===================================================================== *)
(** ** Reading the effects of the router                                 *)
(* ===================================================================== *)

Module Effects.

(** An event sent on to a consumer. *)
Definition is_forward (e : effect) : bool :=
  match e with
  | DispatcherSend (SIGNAL_HANDLE_EVENT _) _ => true
  | _ => false
  end.

(** A task that calls a factory. *)
Definition is_factory_task (e : effect) : bool :=
  match e with
  | CreateTask (FactoryTask _ _) => true
  | _ => false
  end.

End Effects.

Import Effects.

(* ===================================================================== *)
(** ** __init__.py: RfplayerDevice                                       *)
(* ===================================================================== *)

Module Device.

(** The attributes of an [RfplayerDevice] that its callbacks read and
    write. *)
Record rfplayer_device : Type := mkDevice {
  _protocol : value;
  _device_id : value;
  _device_address : value;
  _initial_event : value;
  _available : value;
  entity_id : string
}.

Inductive device_effect : Type :=
| WriteState                                   (** [async_write_ha_state()] *)
| BusFire (entity_id : string) (state : value) (** [bus.async_fire(EVENT_BUTTON_PRESSED, ...)] *)
| DeviceLog (l : level) (format : string).

Record device_outcome : Type := mkDeviceOutcome {
  dev_final : rfplayer_device;
  dev_effects : list device_effect;
  dev_raised : option exn
}.

(** The property [available]: [bool(self._protocol)]. *)
Definition available (self : rfplayer_device) : bool := truthy (_protocol self).

(** [_availability_callback(availability)] *)
Definition _availability_callback (self : rfplayer_device) (availability : value)
  : device_outcome :=
  mkDeviceOutcome
    (mkDevice (_protocol self) (_device_id self) (_device_address self)
       (_initial_event self) availability (entity_id self))
    [WriteState] None.

Section Device.

(** Constants of [const.py]. *)
Variables EVENT_KEY_PLATFORM EVENT_KEY_COMMAND : string.

(** [_handle_event] of the platform: the base class raises
    [NotImplementedError]. *)
Variable _handle_event : rfplayer_device -> dict -> result rfplayer_device.

Definition handle_event_callback (self : rfplayer_device) (event : dict)
  : device_outcome :=
  match _handle_event self event with
  | Raise e => mkDeviceOutcome self [] (Some e)
  | Ok self' =>
      match identify_event_type EVENT_KEY_PLATFORM event with
      | VStr event_type =>
          if String.eqb event_type EVENT_KEY_COMMAND then
            match dict_get EVENT_KEY_COMMAND event with
            | None => mkDeviceOutcome self' [WriteState] (Some (KeyError EVENT_KEY_COMMAND))
            | Some state =>
                mkDeviceOutcome self'
                  [ WriteState; BusFire (entity_id self') state;
                    DeviceLog DEBUG "Fired bus event for %s: %s" ]
                  None
            end
          else mkDeviceOutcome self' [WriteState] None
      | _ => mkDeviceOutcome self' [WriteState] None
      end
  end.

End Device.

Definition is_bus_fire (e : device_effect) : bool :=
  match e with BusFire _ _ => true | _ => false end.

(** A platform handler that stores the event and never raises. *)
Definition sample_handle_event (self : rfplayer_device) (event : dict)
  : result rfplayer_device := Ok self.

Definition sample_device : rfplayer_device :=
  mkDevice (VStr "RTS") (VStr "12") VNone VNone (VBool true) "command.rts_12".

End Device.

Import Device.

(* ===================================================================== *)
(** ** Properties                                                        *)
(* ===================================================================== *)

(** *** Frames with another header *)

(** [valid_packet] reads the first five characters, as [decode_packet]
    does. *)
Lemma valid_packet_slice packet :
  valid_packet packet = true
  <-> slice_to 5 packet = "ZIA--" \/ slice_to 5 packet = "ZIA33".
Proof.
  unfold valid_packet, startswith, slice_to. rewrite orb_true_iff.
  split; (intros [H|H]; [left|right]).
  - now apply String.prefix_correct in H.
  - now apply String.prefix_correct in H.
  - now apply String.prefix_correct.
  - now apply String.prefix_correct.
Qed.

(** C10: a string whose first five characters are neither ["ZIA--"] nor
    ["ZIA33"] (shorter strings and the empty one included) decodes to the
    empty list, without an exception, whatever the JSON parser and the
    decoders are. *)
Theorem decode_packet_other_header :
  forall json_loads module_globals packet,
    slice_to 5 packet <> "ZIA--" ->
    slice_to 5 packet <> "ZIA33" ->
    fst (decode_packet json_loads module_globals packet) = Ok [].
Proof.
  intros jl mg packet H1 H2. unfold decode_packet.
  apply String.eqb_neq in H1, H2. rewrite H1, H2. reflexivity.
Qed.

Lemma decode_packet_other_header_witness :
  fst (decode_packet Samples.sample_json_loads Samples.sample_globals "") = Ok []
  /\ fst (decode_packet Samples.sample_json_loads Samples.sample_globals "ZIA") = Ok []
  /\ fst (decode_packet Samples.sample_json_loads Samples.sample_globals "ZIA++ON X1 ID 42") = Ok [].
Proof.
  split; [|split].
  - apply (decode_packet_other_header _ _ ""); vm_compute; discriminate.
  - apply (decode_packet_other_header _ _ "ZIA"); vm_compute; discriminate.
  - apply (decode_packet_other_header _ _ "ZIA++ON X1 ID 42");
      vm_compute; discriminate.
Defined.

(** *** Command encoding *)

(** C5: the command line of [{protocol: "X1", command: "on", id: "42"}]
    is ["ZIA++ON X1 ID 42"], and so for every packet with an id: the line
    is ["ZIA++<COMMAND> <PROTOCOL> ID <id>"]; a packet with an address
    and no id gives ["ZIA++<COMMAND> <PROTOCOL> <address>"]; command and
    protocol are in upper case in both; a packet with neither an id nor
    an address raises. *)
Theorem encode_packet_spec :
  forall unicode_upper container_repr,
    encode_packet unicode_upper container_repr
      [("protocol", VStr "X1"); ("command", VStr "on"); ("id", VStr "42")]
    = Ok "ZIA++ON X1 ID 42"
    /\ (forall packet command protocol id,
          dict_get "command" packet = Some command ->
          dict_get "protocol" packet = Some protocol ->
          dict_get "id" packet = Some id ->
          encode_packet unicode_upper container_repr packet
          = Ok ("ZIA++" ++ upper unicode_upper (str container_repr command) ++ " "
                  ++ upper unicode_upper (str container_repr protocol) ++ " ID "
                  ++ str container_repr id))
    /\ (forall packet command protocol address,
          dict_get "command" packet = Some command ->
          dict_get "protocol" packet = Some protocol ->
          dict_get "id" packet = None ->
          dict_get "address" packet = Some address ->
          encode_packet unicode_upper container_repr packet
          = Ok ("ZIA++" ++ upper unicode_upper (str container_repr command) ++ " "
                  ++ upper unicode_upper (str container_repr protocol) ++ " "
                  ++ str container_repr address))
    /\ (forall packet,
          dict_get "id" packet = None ->
          dict_get "address" packet = None ->
          exists e, encode_packet unicode_upper container_repr packet = Raise e).
Proof.
  intros uu cr. split; [reflexivity | split; [|split]].
  - intros packet c p i Hc Hp Hi.
    unfold encode_packet, dict_getitem, dict_mem.
    rewrite Hc, Hp, Hi. reflexivity.
  - intros packet c p a Hc Hp Hi Ha.
    unfold encode_packet, dict_getitem, dict_mem.
    rewrite Hc, Hp, Hi, Ha. reflexivity.
  - intros packet Hi Ha.
    unfold encode_packet, dict_getitem, dict_mem. rewrite Hi, Ha.
    destruct (dict_get "command" packet); [ | eexists; reflexivity ].
    destruct (dict_get "protocol" packet); eexists; reflexivity.
Qed.

Lemma encode_packet_spec_witness :
  encode_packet Samples.sample_upper Samples.no_repr
    [("protocol", VStr "rts"); ("command", VStr "Off"); ("id", VInt 17);
     ("address", VStr "A1")]
  = Ok "ZIA++OFF RTS ID 17"
  /\ encode_packet Samples.sample_upper Samples.no_repr
       [("protocol", VStr "rts"); ("command", VStr "arrête"); ("address", VInt 17)]
     = Ok "ZIA++ARRÊTE RTS 17"
  /\ exists e,
       encode_packet Samples.sample_upper Samples.no_repr
         [("protocol", VStr "X1"); ("command", VStr "on")] = Raise e.
Proof.
  split; [|split].
  - apply (proj1 (proj2 (encode_packet_spec Samples.sample_upper Samples.no_repr))
             [("protocol", VStr "rts"); ("command", VStr "Off"); ("id", VInt 17);
              ("address", VStr "A1")]
             (VStr "Off") (VStr "rts") (VInt 17)); reflexivity.
  - apply (proj1 (proj2 (proj2 (encode_packet_spec Samples.sample_upper Samples.no_repr)))
             [("protocol", VStr "rts"); ("command", VStr "arrête"); ("address", VInt 17)]
             (VStr "arrête") (VStr "rts") (VInt 17)); reflexivity.
  - apply (proj2 (proj2 (proj2 (encode_packet_spec Samples.sample_upper Samples.no_repr))));
      reflexivity.
Defined.

(** *** Strings and the separator *)

Lemma append_assoc (a b c : string) : (a ++ b) ++ c = a ++ (b ++ c).
Proof. induction a as [|x a IH]; simpl; [reflexivity | now rewrite IH]. Qed.

Lemma split_go_nonempty sep skip s : split_go sep skip s <> [].
Proof.
  revert skip. induction s as [|c s IH]; intros skip; [easy|].
  destruct skip as [|k]; [|apply IH].
  cbn [split_go].
  destruct (String.prefix sep (String c s)); [easy|].
  destruct (split_go sep 0 s); easy.
Qed.

Lemma prefix_sep c s : String.prefix "_" (String c s) = Ascii.eqb c "_".
Proof.
  cbn [String.prefix]. destruct (ascii_dec "_" c) as [<-|Hne].
  - now destruct s.
  - symmetry. apply Ascii.eqb_neq. congruence.
Qed.

(** Splitting on ["_"], one character at a time. *)
Lemma split_sep_cons c s :
  split "_" (String c s)
  = if Ascii.eqb c "_" then "" :: split "_" s
    else match split "_" s with
         | seg :: rest => String c seg :: rest
         | [] => [String c ""]
         end.
Proof.
  unfold split. cbn [split_go]. rewrite prefix_sep.
  destruct (Ascii.eqb c "_"); reflexivity.
Qed.

Lemma split_sep_free s : sep_free s = true -> split "_" s = [s].
Proof.
  induction s as [|c s IH]; [reflexivity|].
  simpl. intros H. apply andb_true_iff in H as [Hc Hs].
  rewrite split_sep_cons. apply negb_true_iff in Hc. rewrite Hc.
  now rewrite (IH Hs).
Qed.

Lemma split_segment_app a rest :
  sep_free a = true -> split "_" (a ++ "_" ++ rest) = a :: split "_" rest.
Proof.
  induction a as [|c a IH]; intros H.
  - simpl. now rewrite split_sep_cons.
  - simpl in H. apply andb_true_iff in H as [Hc Ha].
    change ((String c a ++ "_" ++ rest)) with (String c (a ++ "_" ++ rest)).
    rewrite split_sep_cons. apply negb_true_iff in Hc. rewrite Hc.
    now rewrite (IH Ha).
Qed.

(** [split] undoes [join] on separator-free parts. *)
Lemma split_concat seg segs :
  sep_free seg = true -> forallb sep_free segs = true ->
  split "_" (String.concat "_" (seg :: segs)) = seg :: segs.
Proof.
  revert seg. induction segs as [|s segs IH]; intros seg Hseg Hsegs.
  - simpl. now apply split_sep_free.
  - simpl in Hsegs. apply andb_true_iff in Hsegs as [Hs Hsegs].
    change (String.concat "_" (seg :: s :: segs))
      with (seg ++ "_" ++ String.concat "_" (s :: segs)).
    rewrite split_segment_app by assumption.
    now rewrite IH.
Qed.

Lemma segment_truthy s : segment s = true -> truthy (VStr s) = true.
Proof. unfold segment. intros H. now apply andb_true_iff in H as [H _]. Qed.

Lemma segment_sep_free s : segment s = true -> sep_free s = true.
Proof. unfold segment. intros H. now apply andb_true_iff in H as [_ H]. Qed.

(** *** Identity codec *)

(** A key that is no legacy form fails the four tests. *)
Lemma legacy_key_false k :
  legacy_key k = false ->
  String.eqb k "rfplayer" = false /\ String.eqb k "ZIA" = false
  /\ startswith "chacon" (lower k) = false /\ startswith "dooya_v4" k = false.
Proof.
  unfold legacy_key. intros H.
  apply orb_false_iff in H as [H Hd].
  apply orb_false_iff in H as [H Hc].
  apply orb_false_iff in H as [Hr Hz]. auto.
Qed.

(** The generic case, for a key that is no legacy form. *)
Lemma deserialize_generic k :
  legacy_key k = false ->
  deserialize_packet_id k
  = (let packet_id_splited := split "_" k in
     protocol <- list_getitem 0 packet_id_splited ;;
     id <- list_getitem 1 packet_id_splited ;;
     let packet := [("protocol", VStr protocol); ("id", VStr id)] in
     if (2 <? List.length packet_id_splited)%nat then
       switch <- list_getitem 2 packet_id_splited ;;
       Ok (dict_set "switch" (VStr switch) packet)
     else Ok packet).
Proof.
  intros H. destruct (legacy_key_false k H) as (Hr & Hz & Hc & Hd).
  unfold deserialize_packet_id. now rewrite Hr, Hz, Hc, Hd.
Qed.

Lemma serialize_identity (x : identity) :
  segments x = true ->
  serialize_packet_id (identity_packet x)
  = Ok (String.concat "_"
          (i_protocol x :: i_id x
             :: match i_switch x with Some s => [s] | None => [] end)).
Proof.
  destruct x as [p i sw]. unfold segments. cbn [i_protocol i_id i_switch].
  intros H. apply andb_true_iff in H as [H Hsw].
  apply andb_true_iff in H as [Hp Hi].
  unfold serialize_packet_id, identity_packet. cbn [i_protocol i_id i_switch].
  destruct sw as [s|]; cbn [dict_get_default dict_get app String.eqb Ascii.eqb
    Bool.eqb filter];
    rewrite ?(segment_truthy _ Hp), ?(segment_truthy _ Hi),
            ?(segment_truthy _ Hsw); reflexivity.
Qed.

(** C1, amended: an identity whose parts are not empty and hold no
    separator serializes to a key, and unless that key is one of the
    legacy forms (["rfplayer"], ["ZIA"], a key that starts with [chacon]
    in any case, or with [dooya_v4]) the key deserializes to the identity
    it came from. *)
Theorem deserialize_serialize :
  forall x : identity,
    segments x = true ->
    exists key,
      serialize_packet_id (identity_packet x) = Ok key
      /\ (legacy_key key = false ->
          deserialize_packet_id key = Ok (identity_packet x)).
Proof.
  intros x Hx. eexists. split; [apply serialize_identity, Hx|].
  destruct x as [p i sw]. unfold segments in Hx. cbn [i_protocol i_id i_switch] in *.
  apply andb_true_iff in Hx as [Hx Hsw].
  apply andb_true_iff in Hx as [Hp Hi].
  apply segment_sep_free in Hp, Hi.
  intros Hl. rewrite (deserialize_generic _ Hl). cbv zeta.
  destruct sw as [s|].
  - apply segment_sep_free in Hsw.
    rewrite split_concat
      by first [assumption | simpl; rewrite Hi, Hsw; reflexivity].
    reflexivity.
  - rewrite split_concat
      by first [assumption | simpl; rewrite Hi; reflexivity].
    reflexivity.
Qed.

Lemma deserialize_serialize_witness :
  segments (mkIdentity "oregon" "12345" (Some "1")) = true
  /\ legacy_key "oregon_12345_1" = false
  /\ deserialize_packet_id "oregon_12345_1"
     = Ok (identity_packet (mkIdentity "oregon" "12345" (Some "1"))).
Proof.
  split; [reflexivity|]. split; [reflexivity|].
  destruct (deserialize_serialize (mkIdentity "oregon" "12345" (Some "1")) eq_refl)
    as [key [Hs Hd]].
  assert (E : key = "oregon_12345_1")
    by (vm_compute in Hs; injection Hs as <-; reflexivity).
  rewrite <- E. apply Hd. rewrite E. reflexivity.
Defined.

(** C1 as written fails: the identity [("a_b", "c")] is no legacy form,
    its key is ["a_b_c"], and that key reads back as protocol ["a"],
    id ["b"], switch ["c"]. *)
Lemma deserialize_serialize_counterexample :
  serialize_packet_id (identity_packet (mkIdentity "a_b" "c" None)) = Ok "a_b_c"
  /\ legacy_key "a_b_c" = false
  /\ deserialize_packet_id "a_b_c"
     = Ok [("protocol", VStr "a"); ("id", VStr "b"); ("switch", VStr "c")]
  /\ dict_get "protocol" (identity_packet (mkIdentity "a_b" "c" None))
     = Some (VStr "a_b")
  /\ ~ dict_equiv
         [("protocol", VStr "a"); ("id", VStr "b"); ("switch", VStr "c")]
         (identity_packet (mkIdentity "a_b" "c" None)).
Proof.
  repeat split; try reflexivity.
  intros H. specialize (H "protocol"). discriminate H.
Qed.

Lemma prefix_app a s : String.prefix a (a ++ s) = true.
Proof.
  induction a as [|c a IH]; simpl; [now destruct s|].
  destruct (ascii_dec c c); [exact IH | congruence].
Qed.

Lemma replace_go_skip old new a s :
  replace_go old new (String.length a) (a ++ s) = replace_go old new 0 s.
Proof. induction a as [|c a IH]; simpl; [reflexivity | exact IH]. Qed.

(** An occurrence at the head is replaced, and the scan goes on behind it. *)
Lemma replace_head c old new s :
  replace (String c old) new (String c old ++ s)
  = new ++ replace (String c old) new s.
Proof.
  unfold replace.
  change (String c old ++ s) with (String c (old ++ s)).
  cbn [replace_go].
  change (String c (old ++ s)) with (String c old ++ s).
  rewrite prefix_app.
  replace (String.length (String c old) - 1) with (String.length old)
    by (cbn [String.length]; lia).
  now rewrite replace_go_skip.
Qed.

(** A key of two segments or more is none of the literal keys. *)
Lemma concat_not_sep_free a b rest lit :
  sep_free a = true -> forallb sep_free (b :: rest) = true ->
  sep_free lit = true ->
  String.eqb (String.concat "_" (a :: b :: rest)) lit = false.
Proof.
  intros Ha Hr Hl. apply String.eqb_neq. intros E.
  pose proof (split_concat a (b :: rest) Ha Hr) as Hs.
  rewrite E, (split_sep_free lit Hl) in Hs. discriminate Hs.
Qed.




(** *** Event extraction *)

(** The table of abbreviations is the one the source computes. *)
Lemma field_abbrev_computed :
  field_abbrev
  = dict_of_items (map (fun kv => (snd kv, fst kv)) (sorted_desc PACKET_FIELDS))
  /\ PACKET_FIELDS = dict_of_items PACKET_FIELDS_items.
Proof. split; vm_compute; reflexivity. Qed.

Lemma serialize_protocol_id x y :
  x <> "" -> y <> "" ->
  serialize_packet_id [("detector", VStr "closed"); ("protocol", VStr x); ("id", VStr y)]
  = Ok (x ++ "_" ++ y).
Proof.
  intros Hx Hy. apply String.eqb_neq in Hx, Hy.
  unfold serialize_packet_id.
  cbn [dict_get_default dict_get String.eqb Ascii.eqb Bool.eqb filter truthy].
  rewrite Hx, Hy. reflexivity.
Qed.

(** C2, amended: the events are keyed by the full field names, and the
    identity of an event is the serialized identity of the packet
    followed, with no separator in between, by the abbreviation of the
    field, the separator, and the abbreviation again.  A packet with the
    field [detector] of value ["closed"], protocol [x] and id [y] yields
    exactly one event, of id [x_ydtc_dtc] and value ["closed"]. *)
Theorem packet_events_detector :
  forall x y,
    x <> "" -> y <> "" ->
    packet_events [("detector", VStr "closed"); ("protocol", VStr x); ("id", VStr y)]
    = ([ [ ("id", VStr (x ++ "_" ++ y ++ "dtc" ++ "_" ++ "dtc"));
           ("detector", VStr "closed"); ("value", VStr "closed");
           ("unit", VNone); ("platform", VNone); ("protocol", VStr x) ] ],
       None).
Proof.
  intros x y Hx Hy. unfold packet_events.
  rewrite (serialize_protocol_id x y Hx Hy).
  cbn. rewrite !append_assoc. reflexivity.
Qed.

Lemma packet_events_detector_witness :
  packet_events [("detector", VStr "closed"); ("protocol", VStr "X"); ("id", VStr "Y")]
  = ([ [ ("id", VStr "X_Ydtc_dtc");
         ("detector", VStr "closed"); ("value", VStr "closed");
         ("unit", VNone); ("platform", VNone); ("protocol", VStr "X") ] ],
     None).
Proof. apply (packet_events_detector "X" "Y"); discriminate. Defined.

(** C2 as written fails: ["sta"] is an abbreviation (of [stateMeaning],
    the later of its two entries), not a key of the table by full names,
    and a packet with the field [sta] yields no event. *)
Lemma packet_events_sta_counterexample :
  packet_events [("sta", VStr "closed"); ("protocol", VStr "X"); ("id", VStr "Y")]
  = ([], None)
  /\ dict_get "sta" PACKET_FIELDS = Some "stateMeaning"
  /\ dict_mem "sta" field_abbrev = false
  /\ dict_get "detector" field_abbrev = Some "dtc".
Proof. repeat split; reflexivity. Qed.

Lemma dict_get_not_in {V : Type} k (d : list (string * V)) :
  ~ In k (map fst d) -> dict_get k d = None.
Proof.
  induction d as [|[k' v] d IH]; simpl; intros H; [reflexivity|].
  destruct (String.eqb_spec k k') as [->|Hne]; [tauto|].
  apply IH. tauto.
Qed.

Lemma dict_mem_in {V : Type} k (d : list (string * V)) :
  dict_mem k d = true -> In k (map fst d).
Proof.
  unfold dict_mem. induction d as [|[k' v] d IH]; simpl; [discriminate|].
  destruct (String.eqb_spec k k') as [->|Hne]; [now left|].
  intros H. right. now apply IH.
Qed.

(** The loop over the items leaves in each local the value of its field,
    and its initial state when the field is absent. *)
Lemma scan_items_from packet : forall l0,
  NoDup (map fst packet) ->
  l_platform (fold_left scan_item packet l0)
  = match dict_get "platform" packet with Some v => v | None => l_platform l0 end
  /\ l_protocol (fold_left scan_item packet l0)
     = match dict_get "protocol" packet with Some v => Some v | None => l_protocol l0 end
  /\ l_forceid (fold_left scan_item packet l0)
     = match dict_get "forceid" packet with Some v => v | None => l_forceid l0 end.
Proof.
  induction packet as [|[f v] packet IH]; intros l0 Hnd; [now repeat split|].
  simpl in Hnd. inversion Hnd as [|? ? Hf Hnd']; subst.
  cbn [fold_left]. destruct (IH (scan_item l0 (f, v)) Hnd') as (H1 & H2 & H3).
  rewrite H1, H2, H3. clear H1 H2 H3 IH.
  cbn [dict_get scan_item].
  rewrite (String.eqb_sym "platform" f), (String.eqb_sym "protocol" f),
          (String.eqb_sym "forceid" f).
  repeat split.
  - destruct (String.eqb_spec f "platform") as [->|_].
    + rewrite (dict_get_not_in _ _ Hf). reflexivity.
    + destruct (dict_get "platform" packet); [reflexivity|].
      destruct (String.eqb f "protocol"), (String.eqb f "forceid"); reflexivity.
  - destruct (String.eqb_spec f "protocol") as [->|_].
    + rewrite (dict_get_not_in _ _ Hf). reflexivity.
    + destruct (dict_get "protocol" packet); [reflexivity|].
      destruct (String.eqb f "platform"), (String.eqb f "forceid"); reflexivity.
  - destruct (String.eqb_spec f "forceid") as [->|_].
    + rewrite (dict_get_not_in _ _ Hf). reflexivity.
    + destruct (dict_get "forceid" packet); [reflexivity|].
      destruct (String.eqb f "platform"), (String.eqb f "protocol"); reflexivity.
Qed.

Lemma scan_items_spec packet :
  NoDup (map fst packet) ->
  l_platform (scan_items packet) = dict_get_default "platform" VNone packet
  /\ l_protocol (scan_items packet) = dict_get "protocol" packet
  /\ l_forceid (scan_items packet) = dict_get_default "forceid" VNone packet.
Proof.
  intros Hnd. unfold scan_items, dict_get_default.
  destruct (scan_items_from packet (mkLocals VNone None VNone) Hnd) as (H1 & H2 & H3).
  rewrite H1, H2, H3. cbn [l_platform l_protocol l_forceid].
  repeat split. now destruct (dict_get "protocol" packet).
Qed.

(** A loop whose body never raises yields one item per turn. *)
Lemma gen_for_total {A B : Type} (body : A -> result B) (P : A -> B -> Prop) l :
  (forall a, In a l -> exists b, body a = Ok b /\ P a b) ->
  exists bs, gen_for body l = (bs, None) /\ Forall2 P l bs.
Proof.
  induction l as [|a l IH]; intros H.
  - exists []. split; [reflexivity | constructor].
  - destruct (H a (or_introl eq_refl)) as (b & Hb & HP).
    destruct IH as (bs & Hbs & HF); [intros a' Ha'; apply H; now right|].
    exists (b :: bs). cbn [gen_for]. rewrite Hb, Hbs.
    split; [reflexivity | now constructor].
Qed.

Lemma serialize_total packet :
  identity_fields_ok packet = true ->
  exists packet_id, serialize_packet_id packet = Ok packet_id.
Proof.
  unfold identity_fields_ok, serialize_packet_id, join.
  generalize [dict_get_default "protocol" VNone packet;
              dict_get_default "id" VNone packet;
              dict_get_default "switch" VNone packet].
  intros l Hl.
  assert (exists ss, all_str (filter truthy l) = Some ss) as [ss ->];
    [|eexists; reflexivity].
  induction l as [|v l IH]; [now exists []|].
  cbn [forallb] in Hl. apply andb_true_iff in Hl as [Hv Hl].
  destruct (IH Hl) as [ss Hss]. cbn [filter].
  destruct v as [|b|z|s| |]; cbn [joinable] in Hv;
    try (apply negb_true_iff in Hv; rewrite Hv; now exists ss).
  destruct (truthy (VStr s)); [|now exists ss].
  cbn [all_str]. rewrite Hss. now exists (s :: ss).
Qed.

(** A known field is none of the fixed keys of an event. *)
Lemma sensor_event_total packet packet_id l sensor value protocol :
  dict_mem sensor field_abbrev = true ->
  l_protocol l = Some protocol ->
  exists ev,
    sensor_event packet packet_id l (sensor, value) = Ok ev
    /\ dict_get "value" ev = Some value
    /\ dict_get "protocol" ev = Some protocol
    /\ dict_get "platform" ev = Some (l_platform l)
    /\ dict_get "unit" ev = Some (dict_get_default (sensor ++ "_unit") VNone packet).
Proof.
  intros Hk Hp. apply dict_mem_in in Hk.
  unfold sensor_event, read_protocol. rewrite Hp.
  cbn [map fst field_abbrev In] in Hk.
  repeat (destruct Hk as [<-|Hk];
          [destruct (is_None (l_forceid l));
           (eexists; split; [reflexivity | repeat split]) |]).
  contradiction.
Qed.

Lemma element_event_total packet_id l sensor value :
  element_ok (l_forceid l) (sensor, value) = true ->
  exists ev,
    element_event packet_id l (sensor, value) = Ok ev
    /\ element_event_of (sensor, value) ev.
Proof.
  unfold element_ok, element_event, element_event_of. cbn [snd].
  destruct value as [| | | | |d]; try discriminate.
  intros H. cbn [value_get bind].
  destruct (is_None (l_forceid l)).
  - cbn [negb orb] in H.
    destruct (dict_get_default "protocol" (VStr "unknown") d) eqn:E;
      try discriminate.
    eexists. split; [reflexivity|]. exists d. rewrite E. repeat split.
  - eexists. split; [reflexivity|]. exists d. repeat split.
Qed.

(** A known field has its abbreviation. *)
Lemma known_getitem sensor :
  dict_mem sensor field_abbrev = true ->
  exists abbrev, dict_getitem sensor field_abbrev = Ok abbrev.
Proof.
  unfold dict_mem, dict_getitem.
  destruct (dict_get sensor field_abbrev) as [a|]; [|discriminate].
  intros _. now exists a.
Qed.

(** What [packet_events] does for a packet that has a protocol field,
    whose protocol, id and switch are strings (or values that the join
    drops) and whose elements, when it has some, are mappings (with a
    string for protocol where the id of the event is built from it): it
    does not raise.  The event of a known field carries the value of the
    field, the protocol of the packet, the platform of the packet or
    [None] when the packet has none, and the unit of the field or [None]
    when the packet has none.  The event of an element carries the sensor
    value, the platform and the protocol of the element, each ["unknown"]
    when the element has none, and its unit, the empty string when it has
    none. *)
Lemma packet_events_with_protocol :
  forall packet protocol,
    NoDup (map fst packet) ->
    dict_get "protocol" packet = Some protocol ->
    identity_fields_ok packet = true ->
    elements_ok packet = true ->
    exists top elems,
      packet_events packet = ((top ++ elems)%list, None)
      /\ Forall2 (field_event packet protocol) (filter known packet) top
      /\ Forall2 element_event_of (elements_items packet) elems.
Proof.
  intros packet protocol Hnd Hp Hid Hel.
  destruct (serialize_total packet Hid) as [packet_id Hs].
  destruct (scan_items_spec packet Hnd) as (Hpf & Hpr & Hfo).
  unfold packet_events. rewrite Hs.
  destruct (gen_for_total (sensor_event packet packet_id (scan_items packet))
              (field_event packet protocol) (filter known packet))
    as (top & Htop & HF).
  { intros [sensor value] Hin. apply filter_In in Hin as [_ Hk].
    destruct (sensor_event_total packet packet_id (scan_items packet)
                sensor value protocol Hk) as (ev & Hev & H1 & H2 & H3 & H4).
    - now rewrite Hpr.
    - exists ev. split; [exact Hev|]. unfold field_event. cbn [fst snd].
      rewrite <- Hpf. auto. }
  fold known. rewrite Htop. exists top.
  unfold elements_ok in Hel. unfold elements_items.
  destruct (truthy (dict_get_default "elements" VNone packet)) eqn:Ht.
  - destruct (dict_get_default "elements" VNone packet) as [| | | | |items];
      try discriminate.
    destruct (gen_for_total (element_event packet_id (scan_items packet))
                element_event_of items) as (elems & Helems & HE).
    { intros [sensor value] Hin.
      apply element_event_total. rewrite Hfo.
      rewrite forallb_forall in Hel. exact (Hel _ Hin). }
    exists elems. cbn [value_items gen_seq]. rewrite Helems. auto.
  - exists []. cbn [gen_seq]. rewrite app_nil_r. repeat split; [exact HF|].
    destruct (dict_get_default "elements" VNone packet) as [| | | | |items];
      try constructor.
    destruct items; [constructor | discriminate].
Qed.

(** The event of a packet without a platform field carries [None] for
    the platform, which is what the local is initialised to. *)
Lemma packet_events_platform_none :
  dict_get "platform"
    [("detector", VStr "closed"); ("protocol", VStr "X"); ("id", VStr "Y")] = None
  /\ exists ev,
       packet_events
         [("detector", VStr "closed"); ("protocol", VStr "X"); ("id", VStr "Y")]
       = ([ev], None)
       /\ dict_get "platform" ev = Some VNone
       /\ dict_get "platform" ev <> Some (VStr "unknown").
Proof.
  split; [reflexivity|]. eexists. split; [reflexivity|].
  split; [reflexivity | discriminate].
Qed.

(** C6, as the code has it: the local [protocol] of [packet_events] is
    bound by the loop over the items only, where [platform] and [forceid]
    are initialised before it.  A packet that lacks the protocol field
    and has a known field ends the generator with [UnboundLocalError]
    before its first event: no event carries ["unknown"] for the
    protocol.  The loop over the elements does take ["unknown"] for a
    protocol that is absent: a packet that lacks the protocol field and
    has no known field yields the events of its elements and ends
    normally. *)
Theorem packet_events_defaults :
  forall packet,
    NoDup (map fst packet) ->
    identity_fields_ok packet = true ->
    elements_ok packet = true ->
    dict_get "protocol" packet = None ->
    (filter known packet <> [] ->
     packet_events packet = ([], Some (UnboundLocalError "protocol")))
    /\ (filter known packet = [] ->
        exists elems,
          packet_events packet = (elems, None)
          /\ Forall2 element_event_of (elements_items packet) elems).
Proof.
  intros packet Hnd Hid Hel Hp.
  destruct (serialize_total packet Hid) as [packet_id Hs].
  destruct (scan_items_spec packet Hnd) as (_ & Hpr & Hfo).
  rewrite Hp in Hpr.
  unfold packet_events. rewrite Hs. fold known. split.
  - intros Hne.
    destruct (filter known packet) as [|[sensor value] rest] eqn:E; [congruence|].
    assert (Hk : known (sensor, value) = true).
    { assert (Hin : In (sensor, value) (filter known packet))
        by (rewrite E; now left).
      now apply filter_In in Hin as [_ Hk]. }
    destruct (known_getitem sensor Hk) as [abbrev Ha].
    cbn [gen_for]. unfold sensor_event, read_protocol.
    rewrite Hpr, Ha.
    destruct (is_None (l_forceid (scan_items packet))); reflexivity.
  - intros Hnil. rewrite Hnil. cbn [gen_for gen_seq].
    unfold elements_ok in Hel. unfold elements_items.
    destruct (truthy (dict_get_default "elements" VNone packet)) eqn:Ht.
    + destruct (dict_get_default "elements" VNone packet) as [| | | | |items];
        try discriminate.
      destruct (gen_for_total (element_event packet_id (scan_items packet))
                  element_event_of items) as (elems & Helems & HE).
      { intros [sensor value] Hin.
        apply element_event_total. rewrite Hfo.
        rewrite forallb_forall in Hel. exact (Hel _ Hin). }
      exists elems. cbn [value_items]. rewrite Helems. auto.
    + exists []. split; [reflexivity|].
      destruct (dict_get_default "elements" VNone packet) as [| | | | |items];
        try constructor.
      destruct items; [constructor | discriminate].
Qed.

Lemma packet_events_defaults_witness :
  packet_events [("detector", VStr "closed"); ("id", VStr "Y")]
  = ([], Some (UnboundLocalError "protocol"))
  /\ exists elems,
       packet_events [("id", VStr "Y"); ("elements", VDict [("t", VDict [])])]
       = (elems, None)
       /\ List.length elems = 1%nat.
Proof.
  split.
  - apply (packet_events_defaults [("detector", VStr "closed"); ("id", VStr "Y")]);
      try reflexivity.
    + repeat constructor; simpl; intuition discriminate.
    + discriminate.
  - destruct (packet_events_defaults
                [("id", VStr "Y"); ("elements", VDict [("t", VDict [])])])
      as [_ H]; try reflexivity.
    + repeat constructor; simpl; intuition discriminate.
    + destruct (H eq_refl) as (elems & He & HF).
      exists elems. split; [exact He|].
      apply Forall2_length in HF. now rewrite <- HF.
Defined.

(** *** Frame decoding *)

Lemma call_decoder_unknown module_globals protocol data message :
  module_globals (protocol ++ "_decode") = None ->
  call_decoder module_globals (VStr protocol) data message
  = (data, Raise (KeyError (protocol ++ "_decode"))).
Proof.
  intros H. unfold call_decoder, join. cbn [all_str String.concat].
  change (protocol ++ "_" ++ "decode") with (protocol ++ "_decode").
  now rewrite H.
Qed.

Lemma call_decoder_known module_globals protocol data message f :
  module_globals (protocol ++ "_decode") = Some f ->
  call_decoder module_globals (VStr protocol) data message
  = f data message gateway_name.
Proof.
  intros H. unfold call_decoder, join. cbn [all_str String.concat].
  change (protocol ++ "_" ++ "decode") with (protocol ++ "_decode").
  now rewrite H.
Qed.

(** One key without a decoder ends the loop over the keys with an
    exception, wherever the key stands. *)
Lemma decode_batch_aborts module_globals message protocol :
  module_globals (protocol ++ "_decode") = None ->
  forall items data packets_found,
    In protocol (map fst items) ->
    exists e,
      decode_batch module_globals message data
        (map (fun kv : string * value => VStr (fst kv)) items) packets_found
      = Raise e.
Proof.
  intros Hnone. induction items as [|[k v] items IH]; intros data found Hin.
  - destruct Hin.
  - cbn [map fst decode_batch].
    destruct Hin as [Hk|Hin].
    + cbn [fst] in Hk. subst k. rewrite (call_decoder_unknown _ _ _ _ Hnone).
      eexists; reflexivity.
    + destruct (call_decoder module_globals (VStr k) data message) as [data' [p|e]].
      * apply IH, Hin.
      * eexists; reflexivity.
Qed.

(** C3, as the code has it: in the JSON case of a ["ZIA--"] line no
    handler surrounds the calls of the decoders.  A top-level key without
    a decoder makes [decode_packet] raise: no packet of a sibling key is
    returned and nothing but the opening record is logged. *)
Theorem decode_packet_batch_aborts :
  forall json_loads module_globals packet items protocol,
    slice_to 5 packet = "ZIA--" ->
    json_reply (replace "ZIA--" "" packet) = true ->
    json_loads (replace "ZIA--" "" packet) = Ok (VDict items) ->
    In protocol (map fst items) ->
    module_globals (protocol ++ "_decode") = None ->
    exists e,
      decode_packet json_loads module_globals packet
      = (Raise e, [entry_record packet]).
Proof.
  intros jl mg packet items protocol Hh Hf Hj Hin Hnone.
  unfold decode_packet. rewrite Hh. cbn [String.eqb Ascii.eqb Bool.eqb].
  unfold json_reply in Hf.
  apply andb_true_iff in Hf as [Hf H4]. apply andb_true_iff in Hf as [Hf H3].
  apply andb_true_iff in Hf as [H1 H2].
  apply negb_true_iff in H1, H2, H3, H4.
  unfold decode_reply. rewrite H1, H2, H3, H4, Hj. cbn [bind iterate].
  destruct (decode_batch_aborts mg (VDict items) protocol Hnone items
              [("node", VStr gateway_name)] [] Hin) as [e He].
  rewrite He. exists e. reflexivity.
Qed.

Lemma decode_packet_batch_aborts_witness :
  exists e,
    decode_packet Samples.sample_json_loads Samples.sample_globals "ZIA--<batch>"
    = (Raise e, [entry_record "ZIA--<batch>"]).
Proof.
  apply (decode_packet_batch_aborts Samples.sample_json_loads Samples.sample_globals
           "ZIA--<batch>" [("X2D", VDict []); ("NOPE", VDict [])] "NOPE");
    try reflexivity.
  right; left; reflexivity.
Defined.

(** The same batch, evaluated: the decoder of ["X2D"] has run and its
    packet is lost with the [KeyError] of ["NOPE"]. *)
Lemma decode_packet_batch_sample :
  decode_packet Samples.sample_json_loads Samples.sample_globals "ZIA--<batch>"
  = (Raise (KeyError "NOPE_decode"), [entry_record "ZIA--<batch>"])
  /\ Samples.sample_globals "X2D_decode" = Some Samples.sample_decode_x2d.
Proof. split; reflexivity. Qed.

(** C4, amended: a ["ZIA33"] frame whose [frame.header.protocolMeaning]
    names a decoder that returns for it yields exactly one packet, the
    object the decoder returned; a frame whose decoder is missing, or
    raises and leaves [data["protocol"]] in place, yields no packet, and
    [decode_packet] returns normally after one record of level [ERROR]
    (followed by two of level [DEBUG], the trace and the message).  The
    record names what [data["protocol"]] holds when the handler runs. *)
Theorem decode_packet_json_frame :
  forall json_loads module_globals packet document message header name,
    slice_to 5 packet = "ZIA33" ->
    json_loads (replace "ZIA33" "" packet) = Ok document ->
    getitem_str "frame" document = Ok message ->
    getitem_str "header" message = Ok header ->
    getitem_str "protocolMeaning" header = Ok (VStr name) ->
    let data := [("node", VStr gateway_name); ("protocol", VStr name)] in
    (forall f data' p,
        module_globals (name ++ "_decode") = Some f ->
        f data message gateway_name = (data', Ok p) ->
        decode_packet json_loads module_globals packet
        = (Ok [packet_of data' p], [entry_record packet]))
    /\ (module_globals (name ++ "_decode") = None ->
        exists e,
          decode_packet json_loads module_globals packet
          = (Ok [], entry_record packet :: handler_records (VStr name) message e)
          /\ List.length
               (diagnostics (entry_record packet
                               :: handler_records (VStr name) message e)) = 1%nat)
    /\ (forall f data' e current,
        module_globals (name ++ "_decode") = Some f ->
        f data message gateway_name = (data', Raise e) ->
        dict_get "protocol" data' = Some current ->
        decode_packet json_loads module_globals packet
        = (Ok [], entry_record packet :: handler_records current message e)
        /\ List.length
             (diagnostics (entry_record packet
                             :: handler_records current message e)) = 1%nat).
Proof.
  intros jl mg packet document message header name Hh Hj Hf Hhd Hpm data.
  assert (Hhead : forall r logs,
    decode_json jl mg packet [("node", VStr gateway_name)] = (r, logs) ->
    decode_packet jl mg packet = (r, entry_record packet :: logs)).
  { intros r logs E. unfold decode_packet. rewrite Hh.
    cbn [String.eqb Ascii.eqb Bool.eqb]. now rewrite E. }
  assert (Hbody : decode_json jl mg packet [("node", VStr gateway_name)]
    = match call_decoder mg (VStr name) data message with
      | (data', Ok p) => (Ok [packet_of data' p], [])
      | (data', Raise e) =>
          match dict_getitem "protocol" data' with
          | Raise e' => (Raise e', [])
          | Ok current => (Ok [], handler_records current message e)
          end
      end).
  { unfold decode_json. rewrite Hj. cbn [bind]. rewrite Hf. cbn [bind].
    rewrite Hhd. cbn [bind]. rewrite Hpm. reflexivity. }
  split; [|split].
  - intros f data' p Hg Hr. apply Hhead. rewrite Hbody.
    rewrite (call_decoder_known _ _ _ _ _ Hg), Hr. reflexivity.
  - intros Hg. exists (KeyError (name ++ "_decode")).
    split; [|reflexivity]. apply Hhead. rewrite Hbody.
    now rewrite (call_decoder_unknown _ _ _ _ Hg).
  - intros f data' e current Hg Hr Hc. split; [|reflexivity].
    apply Hhead. rewrite Hbody.
    rewrite (call_decoder_known _ _ _ _ _ Hg), Hr.
    unfold dict_getitem. rewrite Hc. reflexivity.
Qed.

Lemma decode_packet_json_frame_witness :
  decode_packet Samples.sample_json_loads Samples.sample_globals "ZIA33<oregon frame>"
  = (Ok [VDict [("node", VStr "gateway"); ("protocol", VStr "OREGON"); ("id", VStr "7")]],
     [entry_record "ZIA33<oregon frame>"])
  /\ (exists e,
        decode_packet Samples.sample_json_loads Samples.sample_globals "ZIA33<nope frame>"
        = (Ok [],
           entry_record "ZIA33<nope frame>"
             :: handler_records (VStr "NOPE")
                  (VDict [("header", VDict [("protocolMeaning", VStr "NOPE")]);
                          ("infos", VDict [("id", VStr "7")])]) e))
  /\ decode_packet Samples2.sample_json_loads Samples2.sample_globals
       "ZIA33<rewrite frame>"
     = (Ok [],
        entry_record "ZIA33<rewrite frame>"
          :: handler_records (VStr "OTHER")
               (VDict [("header", VDict [("protocolMeaning", VStr "REWRITE")]);
                       ("infos", VDict [("id", VStr "7")])])
               (KeyError "infos")).
Proof.
  split; [|split].
  - refine (proj1 (decode_packet_json_frame
             Samples.sample_json_loads Samples.sample_globals "ZIA33<oregon frame>"
             (Samples.frame_of "OREGON") _ _ "OREGON"
             eq_refl eq_refl eq_refl eq_refl eq_refl)
             Samples.sample_decode _ Data eq_refl eq_refl).
  - destruct (proj1 (proj2 (decode_packet_json_frame
             Samples.sample_json_loads Samples.sample_globals "ZIA33<nope frame>"
             (Samples.frame_of "NOPE") _ _ "NOPE"
             eq_refl eq_refl eq_refl eq_refl eq_refl)) eq_refl) as [e [He _]].
    exists e. exact He.
  - refine (proj1 (proj2 (proj2 (decode_packet_json_frame
             Samples2.sample_json_loads Samples2.sample_globals
             "ZIA33<rewrite frame>"
             (Samples.frame_of "REWRITE") _ _ "REWRITE"
             eq_refl eq_refl eq_refl eq_refl eq_refl))
             Samples2.sample_decode_rewrite _ (KeyError "infos") (VStr "OTHER")
             eq_refl eq_refl eq_refl)).
Defined.

(** C4 as written fails: the decoder of ["OREGON"] is there, it raises on
    a frame without [infos], and the frame yields no packet. *)
Lemma decode_packet_json_frame_counterexample :
  Samples.sample_json_loads "<oregon frame without infos>"
  = Ok (VDict [("frame", VDict [("header", VDict [("protocolMeaning", VStr "OREGON")])])])
  /\ Samples.sample_globals "OREGON_decode" = Some Samples.sample_decode
  /\ decode_packet Samples.sample_json_loads Samples.sample_globals
       "ZIA33<oregon frame without infos>"
     = (Ok [],
        entry_record "ZIA33<oregon frame without infos>"
          :: handler_records (VStr "OREGON")
               (VDict [("header", VDict [("protocolMeaning", VStr "OREGON")])])
               (KeyError "infos")).
Proof. repeat split; reflexivity. Qed.

(** The handler of the ["ZIA33"] case can raise itself: a decoder that
    removes the key [protocol] from [data] before it raises makes the
    handler end with [KeyError], before its first record, and the
    exception leaves [decode_packet]. *)
Lemma decode_packet_json_handler_raises :
  forall json_loads module_globals packet document message header name f data' e,
    slice_to 5 packet = "ZIA33" ->
    json_loads (replace "ZIA33" "" packet) = Ok document ->
    getitem_str "frame" document = Ok message ->
    getitem_str "header" message = Ok header ->
    getitem_str "protocolMeaning" header = Ok (VStr name) ->
    module_globals (name ++ "_decode") = Some f ->
    f [("node", VStr gateway_name); ("protocol", VStr name)] message gateway_name
    = (data', Raise e) ->
    dict_get "protocol" data' = None ->
    decode_packet json_loads module_globals packet
    = (Raise (KeyError "protocol"), [entry_record packet]).
Proof.
  intros jl mg packet document message header name f data' e
    Hh Hj Hf Hhd Hpm Hg Hr Hc.
  unfold decode_packet. rewrite Hh. cbn [String.eqb Ascii.eqb Bool.eqb].
  unfold decode_json. rewrite Hj. cbn [bind]. rewrite Hf. cbn [bind].
  rewrite Hhd. cbn [bind]. rewrite Hpm. cbn [bind dict_set String.eqb Ascii.eqb Bool.eqb].
  rewrite (call_decoder_known _ _ _ _ _ Hg), Hr.
  unfold dict_getitem. rewrite Hc. reflexivity.
Qed.

Lemma decode_packet_json_handler_sample :
  decode_packet Samples2.sample_json_loads Samples2.sample_globals "ZIA33<forget frame>"
  = (Raise (KeyError "protocol"), [entry_record "ZIA33<forget frame>"]).
Proof. reflexivity. Qed.

(** *** Event router *)

Lemma key_eqb_refl k : key_eqb k k = true.
Proof.
  destruct k; simpl; [reflexivity | apply Z.eqb_refl | apply String.eqb_refl].
Qed.

Lemma kget_kset {V : Type} k (v : V) m : kget k (kset k v m) = Some v.
Proof.
  induction m as [|[k' v'] m IH]; simpl.
  - now rewrite key_eqb_refl.
  - destruct (key_eqb k k') eqn:E; simpl; rewrite ?key_eqb_refl, ?E; auto.
Qed.

(** C9: the type of an event is its platform field, ["unknown"] when it
    has none.  On a host with its tables set: an event whose type has no
    table is dropped with a debug record, the state untouched; an event
    whose id is bound in the table of its type is sent to the bound
    consumer; an event whose id is not bound, when a factory is
    registered for its type, has its identity stored in the table and
    its descriptor in the devices of the config entry, and a task is
    created that calls the factory with the event. *)
Theorem event_callback_routes :
  forall EVENT_KEY_PLATFORM EVENT_KEY_ID h d event,
    data_domain h = Some d ->
    let event_type := identify_event_type EVENT_KEY_PLATFORM event in
    let event_id := dict_get_default EVENT_KEY_ID VNone event in
    let o := event_callback EVENT_KEY_PLATFORM EVENT_KEY_ID h event in
    event_type = match dict_get EVENT_KEY_PLATFORM event with
                 | Some v => v
                 | None => VStr "unknown"
                 end
    /\ (forall kt,
          hash_key event_type = Ok kt ->
          kget kt (entity_lookup d) = None ->
          o = mkOutcome h [Log DEBUG "unhandled event of type: %s"] None)
    /\ (forall kt table ki entity_id,
          hash_key event_type = Ok kt ->
          kget kt (entity_lookup d) = Some table ->
          hash_key event_id = Ok ki ->
          bound_consumer table ki = Some entity_id ->
          effects o = [DispatcherSend (SIGNAL_HANDLE_EVENT entity_id) (PEvent event)]
          /\ raised o = None)
    /\ (forall kt table ki name devices,
          hash_key event_type = Ok kt ->
          kget kt (entity_lookup d) = Some table ->
          hash_key event_id = Ok ki ->
          bound_consumer table ki = None ->
          kget kt (device_register d) = Some (Function name) ->
          entry_devices h = Some devices ->
          effects o = [ Log DEBUG "device_id not known, adding new device";
                        UpdateEntry ki event;
                        CreateTask (FactoryTask name event) ]
          /\ raised o = None
          /\ entry_devices (final o) = Some (kset ki (VDict event) devices)
          /\ exists d' table',
               data_domain (final o) = Some d'
               /\ kget kt (entity_lookup d') = Some table'
               /\ kget ki table' = Some (VDict event)).
Proof.
  intros KP KI h d event Hd event_type event_id o.
  split; [|split; [|split]].
  - unfold event_type, identify_event_type, dict_mem, dict_get_default.
    now destruct (dict_get KP event).
  - intros kt Hkt Hnone. unfold o, event_callback.
    fold event_type. now rewrite Hd, Hkt, Hnone.
  - intros kt table ki entity_id Hkt Htab Hki Hb.
    unfold o, event_callback. fold event_type. fold event_id.
    rewrite Hd, Hkt, Htab, Hki.
    unfold bound_consumer in Hb. unfold defaultdict_getitem.
    destruct (kget ki table) as [v|]; [|discriminate].
    destruct (truthy v) eqn:Hv; [|discriminate].
    injection Hb as <-. split; reflexivity.
  - intros kt table ki name devices Hkt Htab Hki Hb Hreg Hdev.
    unfold o, event_callback. fold event_type. fold event_id.
    rewrite Hd, Hkt, Htab, Hki.
    unfold bound_consumer in Hb. unfold defaultdict_getitem.
    assert (exists v table1,
      match kget ki table with
      | Some v => (v, table)
      | None => (VList [], kset ki (VList []) table)
      end = (v, table1) /\ truthy v = false) as (v & table1 & Heq & Hv).
    { destruct (kget ki table) as [v|].
      - destruct (truthy v) eqn:Hv; [discriminate|]. now exists v, table.
      - now exists (VList []), (kset ki (VList []) table). }
    rewrite Heq. cbv beta iota zeta. rewrite Hv.
    cbn [set_lookup device_register]. rewrite Hreg.
    unfold _add_device_to_base_config.
    cbn [set_data entry_devices data_domain]. rewrite Hdev.
    cbn [raised final effects set_entry_devices entry_devices data_domain app].
    repeat split.
    eexists _, _. split; [reflexivity|].
    cbn [entity_lookup set_lookup]. split; [apply kget_kset | apply kget_kset].
Qed.

Lemma event_callback_routes_witness :
  event_callback "platform" "id" Samples.sample_hass
    [("id", VStr "1"); ("value", VStr "on")]
  = mkOutcome Samples.sample_hass [Log DEBUG "unhandled event of type: %s"] None
  /\ effects (event_callback "platform" "id" Samples.sample_hass
                (Samples.sample_event "sensor" "OREGON_1_t"))
     = [ DispatcherSend (SIGNAL_HANDLE_EVENT (VStr "sensor.oregon_1_t"))
           (PEvent (Samples.sample_event "sensor" "OREGON_1_t")) ]
  /\ effects (event_callback "platform" "id" Samples.sample_hass
                (Samples.sample_event "sensor" "OREGON_2_t"))
     = [ Log DEBUG "device_id not known, adding new device";
         UpdateEntry (KStr "OREGON_2_t") (Samples.sample_event "sensor" "OREGON_2_t");
         CreateTask (FactoryTask "add_new_device"
                       (Samples.sample_event "sensor" "OREGON_2_t")) ].
Proof.
  split; [|split].
  - apply (proj1 (proj2 (event_callback_routes "platform" "id" Samples.sample_hass
             _ [("id", VStr "1"); ("value", VStr "on")] eq_refl)) (KStr "unknown"));
      reflexivity.
  - apply (proj1 (proj2 (proj2 (event_callback_routes "platform" "id"
             Samples.sample_hass _ (Samples.sample_event "sensor" "OREGON_1_t") eq_refl)))
             (KStr "sensor") [(KStr "OREGON_1_t", VStr "sensor.oregon_1_t")]
             (KStr "OREGON_1_t") (VStr "sensor.oregon_1_t")); reflexivity.
  - apply (proj2 (proj2 (proj2 (event_callback_routes "platform" "id"
             Samples.sample_hass _ (Samples.sample_event "sensor" "OREGON_2_t") eq_refl)))
             (KStr "sensor") [(KStr "OREGON_1_t", VStr "sensor.oregon_1_t")]
             (KStr "OREGON_2_t") "add_new_device" []); reflexivity.
Defined.

(** *** Connection handling *)

Lemma reconnect_connected h d :
  data_domain h = Some d -> stopping h = false ->
  effects (reconnect h)
  = [ DispatcherSend SIGNAL_AVAILABILITY (PBool false);
      Log WARNING "Disconnected from Rfplayer, reconnecting";
      CreateTask ConnectTask ]
  /\ raised (reconnect h) = None
  /\ stopping (final (reconnect h)) = false
  /\ reconnect_interval (final (reconnect h)) = reconnect_interval h
  /\ exists d', data_domain (final (reconnect h)) = Some d'.
Proof.
  intros Hd Hs. unfold reconnect. rewrite Hd.
  cbn [set_data stopping]. rewrite Hs.
  cbn [effects raised final stopping reconnect_interval data_domain].
  repeat split; try assumption. eexists; reflexivity.
Qed.

(** Every call of [reconnect] on a connected host that is not stopping
    sends one more unavailability and starts one more attempt. *)
Lemma reconnect_repeated K1 K2 K3 cr n : forall h d,
  data_domain h = Some d -> stopping h = false ->
  count is_unavailable (run K1 K2 K3 cr h (repeat ReconnectCalled n)) = n
  /\ count is_attempt (run K1 K2 K3 cr h (repeat ReconnectCalled n)) = n.
Proof.
  induction n as [|n IH]; intros h d Hd Hs; [split; reflexivity|].
  destruct (reconnect_connected h d Hd Hs) as (He & _ & Hs' & _ & d' & Hd').
  destruct (IH _ _ Hd' Hs') as [IH1 IH2].
  cbn [repeat run step]. rewrite He. unfold count in *.
  cbn [app filter is_unavailable is_attempt List.length].
  now rewrite IH1, IH2.
Qed.

(** C8, amended: when the open attempt fails with a timeout or an I/O
    error, [connect] sends the unavailability once and sets one timer for
    [reconnect], after the configured interval (the same at every
    failure), and starts no attempt itself.  [reconnect] has no test of
    the state it is called in: on a connected host that is not stopping,
    each of [n] calls, by the timer or by a disconnect signal, sends the
    unavailability once more and starts one more attempt. *)
Theorem connect_failure_reconnects :
  forall EVENT_KEY_COMMAND EVENT_KEY_SENSOR EVENT_KEY_COVER container_repr
         h exc commands,
    start_commands container_repr (entry_options h) = Ok commands ->
    let o := connect EVENT_KEY_COMMAND EVENT_KEY_SENSOR EVENT_KEY_COVER
               container_repr h (OpenFailed exc) in
    final o = h
    /\ raised o = None
    /\ filter is_unavailable (effects o)
       = [DispatcherSend SIGNAL_AVAILABILITY (PBool false)]
    /\ filter is_scheduled (effects o)
       = [CallLaterReconnect (reconnect_interval h) exc]
    /\ filter is_attempt (effects o) = []
    /\ (forall d n,
          data_domain h = Some d -> stopping h = false ->
          count is_unavailable
            (run EVENT_KEY_COMMAND EVENT_KEY_SENSOR EVENT_KEY_COVER container_repr
               h (repeat ReconnectCalled n)) = n
          /\ count is_attempt
               (run EVENT_KEY_COMMAND EVENT_KEY_SENSOR EVENT_KEY_COVER container_repr
                  h (repeat ReconnectCalled n)) = n).
Proof.
  intros K1 K2 K3 cr h exc commands Hc o.
  unfold o, connect. rewrite Hc.
  cbn [final raised effects filter is_unavailable is_scheduled is_attempt].
  repeat split; try reflexivity.
  all: intros; eapply reconnect_repeated; eassumption.
Qed.

Lemma connect_failure_reconnects_witness :
  filter is_scheduled
    (effects (connect "command" "sensor" "cover" Samples.no_repr
                Samples.sample_hass_lost (OpenFailed TimeoutError)))
  = [CallLaterReconnect 10 TimeoutError]
  /\ count is_unavailable
       (run "command" "sensor" "cover" Samples.no_repr Samples.sample_hass_lost
          (repeat ReconnectCalled 2))
     = 2%nat
  /\ count is_attempt
       (run "command" "sensor" "cover" Samples.no_repr Samples.sample_hass_lost
          (repeat ReconnectCalled 2))
     = 2%nat.
Proof.
  destruct (connect_failure_reconnects "command" "sensor" "cover" Samples.no_repr
              Samples.sample_hass_lost TimeoutError _ eq_refl)
    as (_ & _ & _ & Hs & _ & Hn).
  split; [exact Hs|]. exact (Hn _ 2%nat eq_refl eq_refl).
Defined.

(** C8 as written fails: the open attempt times out, then the disconnect
    callback is called twice, for the read loop and for an outside
    signal.  Two attempts are started while the timer of the failure is
    still set, and the unavailability has been sent three times; with the
    timer alone, it is sent twice for the one failure. *)
Lemma connect_failure_counterexample :
  count is_attempt
    (run "command" "sensor" "cover" Samples.no_repr Samples.sample_hass_lost
       [OpenAttemptEnds (OpenFailed TimeoutError); ReconnectCalled; ReconnectCalled])
  = 2%nat
  /\ count is_scheduled
       (run "command" "sensor" "cover" Samples.no_repr Samples.sample_hass_lost
          [OpenAttemptEnds (OpenFailed TimeoutError); ReconnectCalled; ReconnectCalled])
     = 1%nat
  /\ count is_unavailable
       (run "command" "sensor" "cover" Samples.no_repr Samples.sample_hass_lost
          [OpenAttemptEnds (OpenFailed TimeoutError); ReconnectCalled; ReconnectCalled])
     = 3%nat
  /\ count is_unavailable
       (run "command" "sensor" "cover" Samples.no_repr Samples.sample_hass_lost
          [OpenAttemptEnds (OpenFailed TimeoutError); ReconnectCalled])
     = 2%nat.
Proof. repeat split; reflexivity. Qed.

(** Before the first connection [hass.data[DOMAIN]] is not set, and
    [reconnect] ends with a [KeyError] before it sends or starts
    anything. *)
Lemma reconnect_before_first_connection :
  reconnect Samples.sample_hass_new
  = mkOutcome Samples.sample_hass_new [] (Some (KeyError "rfplayer")).
Proof. reflexivity. Qed.

(** The start commands of the sample options; and with a repeater
    disabled and no trace option, [connect] raises before its open
    attempt. *)
Lemma start_commands_samples :
  start_commands Samples.no_repr Samples.sample_options
  = Ok [ "FORMAT JSON"; "RECEIVER + * - X10 RTS"; "REPEATER + *"; "TRACE - *";
         "FREQ L 433920"; "FREQ H 868350"; "SELECTIVITY L 0"; "SELECTIVITY H 0";
         "SENSITIVITY L 4"; "SENSITIVITY H 4"; "DSPTRIGGER L 8"; "DSPTRIGGER H 6";
         "RFLINKTRIGGER L 10"; "RFLINKTRIGGER H 18"; "RFLINK 0"; "LBT 16";
         "LEDACTIVITY 1"; "STATUS JSON" ]
  /\ start_commands Samples.no_repr Samples.sample_options_no_trace
     = Raise TypeError.
Proof. split; reflexivity. Qed.

(* ===================================================================== *)
(** ** Further properties of the identity codec                          *)
(* ===================================================================== *)

Lemma dict_get_set_other {V : Type} k k' (v : V) d :
  k' <> k -> dict_get k' (dict_set k v d) = dict_get k' d.
Proof.
  intros Hne. induction d as [|[k0 v0] d IH]; simpl.
  - apply String.eqb_neq in Hne. now rewrite Hne.
  - destruct (String.eqb_spec k k0) as [->|Hk]; simpl.
    + apply String.eqb_neq in Hne. now rewrite Hne.
    + now rewrite IH.
Qed.

Lemma dict_get_set_same {V : Type} k (v : V) d :
  dict_get k (dict_set k v d) = Some v.
Proof.
  induction d as [|[k0 v0] d IH]; simpl.
  - now rewrite String.eqb_refl.
  - destruct (String.eqb_spec k k0) as [->|Hk]; simpl.
    + now rewrite String.eqb_refl.
    + apply String.eqb_neq in Hk. now rewrite Hk.
Qed.

Lemma forallb_segment_sep_free l :
  forallb segment l = true -> forallb sep_free l = true.
Proof.
  induction l as [|s l IH]; simpl; [reflexivity|].
  intros H. apply andb_true_iff in H as [Hs Hl].
  now rewrite (segment_sep_free _ Hs), IH.
Qed.

(** X1: a key of two segments or more, none of them empty, that is no
    legacy form deserializes to an identity that serializes to the first
    three segments of the key: to the key itself when it has two or three
    segments, and to a shorter key, the fourth segment and the later ones
    lost, when it has more. *)
Theorem serialize_deserialize :
  forall protocol id rest,
    segment protocol = true -> segment id = true ->
    forallb segment rest = true ->
    legacy_key (String.concat "_" (protocol :: id :: rest)) = false ->
    exists d,
      deserialize_packet_id (String.concat "_" (protocol :: id :: rest)) = Ok d
      /\ serialize_packet_id d
         = Ok (String.concat "_" (protocol :: id :: firstn 1 rest))
      /\ ((List.length rest <= 1)%nat ->
          serialize_packet_id d
          = Ok (String.concat "_" (protocol :: id :: rest))).
Proof.
  intros p i rest Hp Hi Hrest Hl.
  assert (Hall : forallb sep_free (i :: rest) = true).
  { simpl. rewrite (segment_sep_free _ Hi).
    now rewrite (forallb_segment_sep_free _ Hrest). }
  rewrite (deserialize_generic _ Hl). cbv zeta.
  rewrite (split_concat p (i :: rest) (segment_sep_free _ Hp) Hall).
  apply segment_truthy in Hp, Hi.
  destruct rest as [|s rest].
  - eexists. split; [reflexivity|].
    unfold serialize_packet_id.
    cbn [dict_get_default dict_get String.eqb Ascii.eqb Bool.eqb filter firstn].
    rewrite Hp, Hi. split; reflexivity.
  - cbn [forallb] in Hrest. apply andb_true_iff in Hrest as [Hs _].
    apply segment_truthy in Hs.
    eexists. split; [reflexivity|].
    unfold serialize_packet_id.
    cbn [dict_get_default dict_get dict_set String.eqb Ascii.eqb Bool.eqb
         filter firstn].
    rewrite Hp, Hi, Hs. split; [reflexivity|].
    intros Hlen. destruct rest; [reflexivity | simpl in Hlen; lia].
Qed.

Lemma serialize_deserialize_witness :
  (exists d,
     deserialize_packet_id "oregon_12345_1" = Ok d
     /\ serialize_packet_id d = Ok "oregon_12345_1")
  /\ (exists d,
        deserialize_packet_id "x2d_7_on_extra" = Ok d
        /\ serialize_packet_id d = Ok "x2d_7_on").
Proof.
  split.
  - destruct (serialize_deserialize "oregon" "12345" ["1"]
                eq_refl eq_refl eq_refl eq_refl) as (d & Hd & _ & Hs).
    exists d. split; [exact Hd|]. apply Hs. simpl. lia.
  - destruct (serialize_deserialize "x2d" "7" ["on"; "extra"]
                eq_refl eq_refl eq_refl eq_refl) as (d & Hd & Hs & _).
    exists d. split; [exact Hd | exact Hs].
Defined.

(** The chacon case, for a key of two segments or more. *)
Lemma deserialize_chacon head address rest :
  sep_free head = true -> sep_free address = true ->
  forallb sep_free rest = true ->
  startswith "chacon" (lower (String.concat "_" (head :: address :: rest))) = true ->
  deserialize_packet_id (String.concat "_" (head :: address :: rest))
  = Ok [("protocol", VStr "chacon"); ("address", VStr address)].
Proof.
  intros Hh Ha Hr Hc.
  assert (Hall : forallb sep_free (address :: rest) = true)
    by (simpl; now rewrite Ha, Hr).
  unfold deserialize_packet_id.
  rewrite (concat_not_sep_free head address rest "rfplayer" Hh Hall eq_refl).
  rewrite (concat_not_sep_free head address rest "ZIA" Hh Hall eq_refl).
  rewrite Hc. unfold PACKET_ID_SEP.
  rewrite (split_concat head (address :: rest) Hh Hall). reflexivity.
Qed.

(** X2: the chacon form is an alias in one direction only.  Whatever its
    address, a key that starts with [chacon] deserializes to an identity
    that has no id, and that identity serializes to ["chacon"]: the
    address is not part of the key of the identity read. *)
Theorem chacon_alias_one_way :
  forall head address rest,
    sep_free head = true -> sep_free address = true ->
    forallb sep_free rest = true ->
    startswith "chacon" (lower (String.concat "_" (head :: address :: rest))) = true ->
    exists d,
      deserialize_packet_id (String.concat "_" (head :: address :: rest)) = Ok d
      /\ dict_get "id" d = None
      /\ dict_get "address" d = Some (VStr address)
      /\ serialize_packet_id d = Ok "chacon".
Proof.
  intros head address rest Hh Ha Hr Hc.
  rewrite (deserialize_chacon head address rest Hh Ha Hr Hc).
  eexists. repeat split.
Qed.

Lemma chacon_alias_one_way_witness :
  exists d,
    deserialize_packet_id "Chacon_A1_switch" = Ok d
    /\ dict_get "id" d = None
    /\ dict_get "address" d = Some (VStr "A1")
    /\ serialize_packet_id d = Ok "chacon".
Proof.
  apply (chacon_alias_one_way "Chacon" "A1" ["switch"]); reflexivity.
Defined.

(** X3: the dooya_v4 form does not come back either.  A key
    ["dooya_v4_" ++ r], with or without further segments, deserializes to
    an identity whose id and switch are both [r], and that identity
    serializes to ["dooya_v4_" ++ r ++ "_" ++ r]. *)
Theorem dooya_alias_one_way :
  forall r rest,
    segment r = true -> forallb sep_free rest = true ->
    replace "dooya_v4_" "" (String.concat "_" (r :: rest))
    = String.concat "_" (r :: rest) ->
    exists d,
      deserialize_packet_id ("dooya_v4_" ++ String.concat "_" (r :: rest)) = Ok d
      /\ serialize_packet_id d = Ok ("dooya_v4_" ++ r ++ "_" ++ r).
Proof.
  intros r rest Hr Hrest Hno.
  set (tail := String.concat "_" (r :: rest)) in *.
  unfold deserialize_packet_id.
  assert (String.eqb ("dooya_v4_" ++ tail) "rfplayer" = false) as -> by reflexivity.
  assert (String.eqb ("dooya_v4_" ++ tail) "ZIA" = false) as -> by reflexivity.
  assert (startswith "chacon" (lower ("dooya_v4_" ++ tail)) = false) as ->
    by reflexivity.
  assert (startswith "dooya_v4" ("dooya_v4_" ++ tail) = true) as ->
    by (unfold startswith; simpl; now destruct tail).
  rewrite (replace_head "d" "ooya_v4_" "" tail). cbn [append].
  rewrite Hno. unfold PACKET_ID_SEP, tail.
  rewrite (split_concat r rest (segment_sep_free _ Hr) Hrest).
  eexists. split; [reflexivity|].
  unfold serialize_packet_id.
  cbn [dict_of_items fold_left fst snd dict_set dict_get_default dict_get
       String.eqb Ascii.eqb Bool.eqb filter].
  rewrite (segment_truthy _ Hr). reflexivity.
Qed.

Lemma dooya_alias_one_way_witness :
  exists d,
    deserialize_packet_id "dooya_v4_6d5f8e00_3f" = Ok d
    /\ serialize_packet_id d = Ok "dooya_v4_6d5f8e00_6d5f8e00".
Proof.
  apply (dooya_alias_one_way "6d5f8e00" ["3f"]); reflexivity.
Defined.

(** X4: the key of a packet depends on its fields [protocol], [id] and
    [switch] only: storing any other field leaves it as it was. *)
Theorem serialize_packet_id_other_field :
  forall packet field value,
    field <> "protocol" -> field <> "id" -> field <> "switch" ->
    serialize_packet_id (dict_set field value packet) = serialize_packet_id packet.
Proof.
  intros packet field value Hp Hi Hs.
  unfold serialize_packet_id, dict_get_default.
  rewrite !dict_get_set_other by congruence. reflexivity.
Qed.

Lemma serialize_packet_id_other_field_witness :
  serialize_packet_id
    (dict_set "temperature" (VStr "21.5") [("protocol", VStr "OREGON"); ("id", VStr "1")])
  = serialize_packet_id [("protocol", VStr "OREGON"); ("id", VStr "1")].
Proof.
  apply serialize_packet_id_other_field; discriminate.
Defined.

(* ===================================================================== *)
(** ** Further properties of the event extraction                        *)
(* ===================================================================== *)

(** Case analysis over the 46 known fields. *)
Ltac each_field hyp tac :=
  repeat (destruct hyp as [<-|hyp]; [tac|]); try contradiction.

Lemma dict_get_mem {V : Type} k (d : list (string * V)) v :
  dict_get k d = Some v -> dict_mem k d = true.
Proof. unfold dict_mem. now intros ->. Qed.

(** X5: the table of [packet_events] is the table of fields turned
    around, and nothing is lost in the turn: a full name has the
    abbreviation [a] exactly when [a] stands for that full name in
    [PACKET_FIELDS]. *)
Theorem field_abbrev_inverse :
  forall full abbrev,
    dict_get full field_abbrev = Some abbrev
    <-> dict_get abbrev PACKET_FIELDS = Some full.
Proof.
  intros full abbrev. split; intros H.
  - pose proof (dict_mem_in _ _ (dict_get_mem _ _ _ H)) as Hin.
    cbn [map fst field_abbrev In] in Hin.
    each_field Hin ltac:(vm_compute in H; injection H as <-; reflexivity).
  - pose proof (dict_mem_in _ _ (dict_get_mem _ _ _ H)) as Hin.
    cbn [map fst PACKET_FIELDS In] in Hin.
    each_field Hin ltac:(vm_compute in H; injection H as <-; reflexivity).
Qed.

Lemma Forall2_filter_impl {A B : Type} (f : A -> bool) (R R' : A -> B -> Prop) l :
  (forall a b, f a = true -> R a b -> R' a b) ->
  forall l', Forall2 R (filter f l) l' -> Forall2 R' (filter f l) l'.
Proof.
  intros Himp. induction l as [|a l IH]; intros l' H.
  - simpl in *. inversion H. constructor.
  - simpl in *. destruct (f a) eqn:Ha; [|now apply IH].
    inversion H as [|? b ? l'' Hab Hrest]; subst.
    constructor; [now apply Himp | now apply IH].
Qed.

(** The events of a well-typed packet, each as the result of the body
    of its loop. *)
Lemma packet_events_decompose packet protocol :
  NoDup (map fst packet) ->
  dict_get "protocol" packet = Some protocol ->
  identity_fields_ok packet = true ->
  elements_ok packet = true ->
  exists packet_id top elems,
    serialize_packet_id packet = Ok packet_id
    /\ packet_events packet = ((top ++ elems)%list, None)
    /\ Forall2 (fun fv ev =>
                  sensor_event packet packet_id (scan_items packet) fv = Ok ev)
         (filter known packet) top
    /\ Forall2 (fun sv ev => element_event packet_id (scan_items packet) sv = Ok ev)
         (elements_items packet) elems.
Proof.
  intros Hnd Hp Hid Hel.
  destruct (serialize_total packet Hid) as [packet_id Hs].
  destruct (scan_items_spec packet Hnd) as (Hpf & Hpr & Hfo).
  exists packet_id. unfold packet_events. rewrite Hs.
  destruct (gen_for_total (sensor_event packet packet_id (scan_items packet))
              (fun fv ev => sensor_event packet packet_id (scan_items packet) fv = Ok ev)
              (filter known packet)) as (top & Htop & HF).
  { intros [sensor value] Hin. apply filter_In in Hin as [_ Hk].
    destruct (sensor_event_total packet packet_id (scan_items packet)
                sensor value protocol Hk) as (ev & Hev & _);
      [now rewrite Hpr | now exists ev]. }
  fold known. rewrite Htop. exists top.
  unfold elements_ok in Hel. unfold elements_items.
  destruct (truthy (dict_get_default "elements" VNone packet)) eqn:Ht.
  - destruct (dict_get_default "elements" VNone packet) as [| | | | |items];
      try discriminate.
    destruct (gen_for_total (element_event packet_id (scan_items packet))
                (fun sv ev => element_event packet_id (scan_items packet) sv = Ok ev)
                items) as (elems & Helems & HE).
    { intros [sensor value] Hin.
      destruct (element_event_total packet_id (scan_items packet) sensor value)
        as (ev & Hev & _); [|now exists ev].
      rewrite Hfo. rewrite forallb_forall in Hel. exact (Hel _ Hin). }
    exists elems. cbn [value_items gen_seq]. rewrite Helems. auto.
  - exists []. cbn [gen_seq]. rewrite app_nil_r. repeat split; [exact HF|].
    destruct (dict_get_default "elements" VNone packet) as [| | | | |items];
      try constructor.
    destruct items; [constructor | discriminate].
Qed.

(** What the event of a known field holds under [id] and under the name
    of the field. *)
Lemma sensor_event_id packet packet_id l sensor value ev :
  dict_mem sensor field_abbrev = true ->
  sensor_event packet packet_id l (sensor, value) = Ok ev ->
  exists abbrev,
    dict_get abbrev PACKET_FIELDS = Some sensor
    /\ dict_get "id" ev
       = Some (if is_None (l_forceid l)
               then VStr (packet_id ++ abbrev ++ "_" ++ abbrev)
               else l_forceid l)
    /\ dict_get sensor ev = Some value.
Proof.
  intros Hk H. apply dict_mem_in in Hk.
  unfold sensor_event, read_protocol in H.
  cbn [map fst field_abbrev In] in Hk.
  destruct (l_protocol l) as [p|].
  - each_field Hk
      ltac:(match goal with
            | |- exists _, dict_get _ PACKET_FIELDS = Some ?s /\ _ =>
                let a := eval vm_compute in (dict_get_default s "" field_abbrev) in
                exists a
            end;
            destruct (is_None (l_forceid l)); cbn in H; injection H as <-;
            (split; [|split]); reflexivity).
  - each_field Hk ltac:(destruct (is_None (l_forceid l)); discriminate H).
Qed.

Lemma element_event_id packet_id l sensor value ev :
  element_event packet_id l (sensor, value) = Ok ev ->
  exists d,
    value = VDict d
    /\ (is_None (l_forceid l) = false -> dict_get "id" ev = Some (l_forceid l))
    /\ (is_None (l_forceid l) = true ->
        exists p,
          dict_get_default "protocol" (VStr "unknown") d = VStr p
          /\ dict_get "id" ev = Some (VStr (packet_id ++ p ++ "_" ++ sensor))).
Proof.
  unfold element_event. intros H.
  destruct value as [| | | | |d];
    try (destruct (is_None (l_forceid l)); discriminate H).
  exists d. split; [reflexivity|].
  cbn [value_get bind] in H.
  destruct (is_None (l_forceid l)).
  - split; [discriminate|]. intros _.
    destruct (dict_get_default "protocol" (VStr "unknown") d) as [| | |p| |] eqn:E;
      try discriminate H.
    exists p. split; [reflexivity|].
    cbn in H. injection H as <-. rewrite <- append_assoc. reflexivity.
  - split; [|discriminate]. intros _. cbn in H. injection H as <-. reflexivity.
Qed.

Lemma Forall2_in_right {A B : Type} (R : A -> B -> Prop) l l' b :
  Forall2 R l l' -> In b l' -> exists a, In a l /\ R a b.
Proof.
  induction 1 as [|a b' l l' Hab _ IH]; intros Hin; [destruct Hin|].
  destruct Hin as [<-|Hin].
  - exists a. split; [now left | assumption].
  - destruct (IH Hin) as (a' & Ha' & HR). exists a'. split; [now right | assumption].
Qed.

(** X6: how the ids of the events are built when the packet has no
    [forceid].  The event of a known field has the id
    [packet_id ++ a ++ "_" ++ a], where [a] is the abbreviation of the
    field in [PACKET_FIELDS], and holds the value under the name of the
    field too; the event of the element [k] has the id
    [packet_id ++ p ++ "_" ++ k], where [p] is the protocol of the
    element, ["unknown"] when it has none.  No separator follows
    [packet_id]. *)
Theorem packet_events_ids :
  forall packet protocol,
    NoDup (map fst packet) ->
    dict_get "protocol" packet = Some protocol ->
    identity_fields_ok packet = true ->
    elements_ok packet = true ->
    dict_get_default "forceid" VNone packet = VNone ->
    exists packet_id top elems,
      serialize_packet_id packet = Ok packet_id
      /\ packet_events packet = ((top ++ elems)%list, None)
      /\ Forall2
           (fun fv ev =>
              exists abbrev,
                dict_get abbrev PACKET_FIELDS = Some (fst fv)
                /\ dict_get "id" ev = Some (VStr (packet_id ++ abbrev ++ "_" ++ abbrev))
                /\ dict_get (fst fv) ev = Some (snd fv))
           (filter known packet) top
      /\ Forall2
           (fun sv ev =>
              exists d p,
                snd sv = VDict d
                /\ dict_get_default "protocol" (VStr "unknown") d = VStr p
                /\ dict_get "id" ev = Some (VStr (packet_id ++ p ++ "_" ++ fst sv)))
           (elements_items packet) elems.
Proof.
  intros packet protocol Hnd Hp Hid Hel Hforce.
  destruct (packet_events_decompose packet protocol Hnd Hp Hid Hel)
    as (packet_id & top & elems & Hs & He & Ht & Hl).
  destruct (scan_items_spec packet Hnd) as (_ & _ & Hfo).
  rewrite Hforce in Hfo.
  exists packet_id, top, elems. repeat split; try assumption.
  - revert Ht. apply Forall2_filter_impl.
    intros [sensor value] ev Hk Hev.
    destruct (sensor_event_id _ _ _ _ _ _ Hk Hev) as (abbrev & Ha & Hi & Hv).
    rewrite Hfo in Hi. exists abbrev. auto.
  - revert Hl. apply Forall2_impl.
    intros [sensor value] ev Hev.
    destruct (element_event_id _ _ _ _ _ Hev) as (d & -> & _ & Hi).
    rewrite Hfo in Hi. destruct (Hi eq_refl) as (p & Hpr & Hid').
    exists d, p. auto.
Qed.

Lemma packet_events_ids_witness :
  exists packet_id top elems,
    serialize_packet_id
      [ ("protocol", VStr "OREGON"); ("id", VStr "1");
        ("temperature", VStr "21.5");
        ("elements", VDict [("t", VDict [("protocol", VStr "TIC")])]) ]
    = Ok packet_id
    /\ packet_events
         [ ("protocol", VStr "OREGON"); ("id", VStr "1");
           ("temperature", VStr "21.5");
           ("elements", VDict [("t", VDict [("protocol", VStr "TIC")])]) ]
       = ((top ++ elems)%list, None)
    /\ List.length top = 1%nat /\ List.length elems = 1%nat.
Proof.
  destruct (packet_events_ids
    [ ("protocol", VStr "OREGON"); ("id", VStr "1");
      ("temperature", VStr "21.5");
      ("elements", VDict [("t", VDict [("protocol", VStr "TIC")])]) ]
    (VStr "OREGON")) as (pid & top & elems & Hs & He & Ht & Hl).
  - repeat constructor; simpl; intuition discriminate.
  - reflexivity.
  - reflexivity.
  - reflexivity.
  - reflexivity.
  - exists pid, top, elems. split; [exact Hs|]. split; [exact He|].
    apply Forall2_length in Ht, Hl. split; symmetry; assumption.
Defined.

(** X7: a packet that carries a [forceid] other than [None] gives that
    value, as it is, for id to every event it yields, those of its fields
    and those of its elements alike. *)
Theorem packet_events_forceid :
  forall packet protocol forceid,
    NoDup (map fst packet) ->
    dict_get "protocol" packet = Some protocol ->
    identity_fields_ok packet = true ->
    elements_ok packet = true ->
    dict_get "forceid" packet = Some forceid ->
    is_None forceid = false ->
    snd (packet_events packet) = None
    /\ forall ev, In ev (fst (packet_events packet)) ->
                  dict_get "id" ev = Some forceid.
Proof.
  intros packet protocol forceid Hnd Hp Hid Hel Hforce Hnone.
  destruct (packet_events_decompose packet protocol Hnd Hp Hid Hel)
    as (packet_id & top & elems & Hs & He & Ht & Hl).
  destruct (scan_items_spec packet Hnd) as (_ & _ & Hfo).
  unfold dict_get_default in Hfo. rewrite Hforce in Hfo.
  rewrite He. cbn [fst snd]. split; [reflexivity|].
  intros ev Hin. apply in_app_or in Hin as [Hin|Hin].
  - destruct (Forall2_in_right _ _ _ _ Ht Hin) as ([sensor value] & Ha & Hev).
    apply filter_In in Ha as [_ Hk].
    destruct (sensor_event_id _ _ _ _ _ _ Hk Hev) as (abbrev & _ & Hi & _).
    now rewrite Hfo, Hnone in Hi.
  - destruct (Forall2_in_right _ _ _ _ Hl Hin) as ([sensor value] & _ & Hev).
    destruct (element_event_id _ _ _ _ _ Hev) as (d & _ & Hi & _).
    rewrite Hfo in Hi. exact (Hi Hnone).
Qed.

Lemma packet_events_forceid_witness :
  snd (packet_events
         [ ("protocol", VStr "OREGON"); ("id", VStr "1");
           ("forceid", VStr "my_sensor"); ("temperature", VStr "21.5");
           ("elements", VDict [("t", VDict [("protocol", VInt 3)])]) ]) = None
  /\ Forall (fun ev => dict_get "id" ev = Some (VStr "my_sensor"))
       (fst (packet_events
               [ ("protocol", VStr "OREGON"); ("id", VStr "1");
                 ("forceid", VStr "my_sensor"); ("temperature", VStr "21.5");
                 ("elements", VDict [("t", VDict [("protocol", VInt 3)])]) ])).
Proof.
  destruct (packet_events_forceid
    [ ("protocol", VStr "OREGON"); ("id", VStr "1");
      ("forceid", VStr "my_sensor"); ("temperature", VStr "21.5");
      ("elements", VDict [("t", VDict [("protocol", VInt 3)])]) ]
    (VStr "OREGON") (VStr "my_sensor")) as [Hn Hall]; try reflexivity.
  - repeat constructor; simpl; intuition discriminate.
  - split; [exact Hn|]. apply Forall_forall. exact Hall.
Defined.

(** X8: the events of the known fields need the field [protocol]: a
    packet that has a known field and no [protocol] ends the generator
    with [UnboundLocalError] before its first event, whatever else it
    holds; a packet without known field and without elements yields
    nothing and ends normally, with or without [protocol]. *)
Theorem packet_events_needs_protocol :
  forall packet,
    NoDup (map fst packet) ->
    identity_fields_ok packet = true ->
    dict_get "protocol" packet = None ->
    (filter known packet <> [] ->
     packet_events packet = ([], Some (UnboundLocalError "protocol")))
    /\ (filter known packet = [] ->
        truthy (dict_get_default "elements" VNone packet) = false ->
        packet_events packet = ([], None)).
Proof.
  intros packet Hnd Hid Hp.
  destruct (serialize_total packet Hid) as [packet_id Hs].
  destruct (scan_items_spec packet Hnd) as (_ & Hpr & _).
  rewrite Hp in Hpr.
  unfold packet_events. rewrite Hs. fold known. split.
  - intros Hne.
    destruct (filter known packet) as [|[sensor value] rest] eqn:E; [congruence|].
    assert (Hk : known (sensor, value) = true).
    { assert (Hin : In (sensor, value) (filter known packet))
        by (rewrite E; now left).
      now apply filter_In in Hin as [_ Hk]. }
    destruct (known_getitem sensor Hk) as [abbrev Ha].
    cbn [gen_for]. unfold sensor_event, read_protocol.
    rewrite Hpr, Ha.
    destruct (is_None (l_forceid (scan_items packet))); reflexivity.
  - intros Hnil Hfalsy. rewrite Hnil, Hfalsy. reflexivity.
Qed.

Lemma packet_events_needs_protocol_witness :
  packet_events [("id", VStr "7"); ("battery", VStr "low"); ("elements", VDict [])]
  = ([], Some (UnboundLocalError "protocol"))
  /\ packet_events [("id", VStr "7"); ("node", VStr "gateway")] = ([], None).
Proof.
  split.
  - apply (packet_events_needs_protocol
             [("id", VStr "7"); ("battery", VStr "low"); ("elements", VDict [])]);
      try reflexivity.
    + repeat constructor; simpl; intuition discriminate.
    + discriminate.
  - apply (packet_events_needs_protocol [("id", VStr "7"); ("node", VStr "gateway")]);
      try reflexivity.
    repeat constructor; simpl; intuition discriminate.
Defined.

Lemma all_str_not_joinable l :
  forallb joinable l = false -> all_str (filter truthy l) = None.
Proof.
  induction l as [|v l IH]; [discriminate|].
  cbn [forallb filter]. intros H. apply andb_false_iff in H.
  destruct (joinable v) eqn:Hj.
  - destruct H as [H|H]; [discriminate|]. specialize (IH H).
    destruct (truthy v) eqn:Ht; [|exact IH].
    destruct v; cbn [joinable] in Hj; rewrite ?Ht in Hj; try discriminate.
    cbn [all_str]. now rewrite IH.
  - destruct v; cbn [joinable] in Hj; try discriminate;
      apply negb_false_iff in Hj; rewrite Hj; reflexivity.
Qed.

(** X9: the key of a packet can be built exactly when each of
    [protocol], [id] and [switch] is a string or a value that counts as
    false ([None], [0], [False], an empty container).  With any other
    value in one of the three, for instance a number for id,
    [serialize_packet_id] raises [TypeError], and [packet_events] ends
    with it before its first event. *)
Theorem serialize_packet_id_type_error :
  forall packet,
    (identity_fields_ok packet = true ->
     exists packet_id, serialize_packet_id packet = Ok packet_id)
    /\ (identity_fields_ok packet = false ->
        serialize_packet_id packet = Raise TypeError
        /\ packet_events packet = ([], Some TypeError)).
Proof.
  intros packet. split; [apply serialize_total|].
  intros H.
  assert (Hs : serialize_packet_id packet = Raise TypeError).
  { unfold serialize_packet_id, join.
    unfold identity_fields_ok in H. now rewrite (all_str_not_joinable _ H). }
  split; [exact Hs|]. unfold packet_events. now rewrite Hs.
Qed.

Lemma serialize_packet_id_type_error_witness :
  serialize_packet_id [("protocol", VStr "X2D"); ("id", VInt 42)] = Raise TypeError
  /\ packet_events [("protocol", VStr "X2D"); ("id", VInt 42); ("battery", VStr "ok")]
     = ([], Some TypeError)
  /\ exists packet_id,
       serialize_packet_id [("protocol", VStr "X2D"); ("id", VInt 0)] = Ok packet_id.
Proof.
  split; [|split].
  - apply (proj2 (serialize_packet_id_type_error
                    [("protocol", VStr "X2D"); ("id", VInt 42)])). reflexivity.
  - apply (proj2 (serialize_packet_id_type_error
                    [("protocol", VStr "X2D"); ("id", VInt 42); ("battery", VStr "ok")])).
    reflexivity.
  - apply (proj1 (serialize_packet_id_type_error
                    [("protocol", VStr "X2D"); ("id", VInt 0)])). reflexivity.
Defined.

(* ===================================================================== *)
(** ** Further properties of the frame codec                             *)
(* ===================================================================== *)

(** X10: a frame that [valid_packet] refuses decodes to the empty list:
    [decode_packet] calls neither the JSON parser nor a decoder for it
    and logs its opening record only. *)
Theorem invalid_packet_decodes_to_nothing :
  forall json_loads module_globals packet,
    valid_packet packet = false ->
    decode_packet json_loads module_globals packet = (Ok [], [entry_record packet]).
Proof.
  intros jl mg packet H. unfold decode_packet.
  destruct (String.eqb_spec (slice_to 5 packet) "ZIA--") as [E|_].
  - assert (valid_packet packet = true) by (apply valid_packet_slice; now left).
    congruence.
  - destruct (String.eqb_spec (slice_to 5 packet) "ZIA33") as [E|_]; [|reflexivity].
    assert (valid_packet packet = true) by (apply valid_packet_slice; now right).
    congruence.
Qed.

Lemma invalid_packet_decodes_to_nothing_witness :
  decode_packet Samples.sample_json_loads Samples.sample_globals "ZIA-<batch>"
  = (Ok [], [entry_record "ZIA-<batch>"]).
Proof.
  apply invalid_packet_decodes_to_nothing. reflexivity.
Defined.

(** X11: a command line made by [encode_packet] is no incoming frame:
    [valid_packet] refuses it and [decode_packet] gives the empty list
    for it. *)
Theorem encoded_command_is_no_packet :
  forall unicode_upper container_repr json_loads module_globals packet line,
    encode_packet unicode_upper container_repr packet = Ok line ->
    valid_packet line = false
    /\ decode_packet json_loads module_globals line = (Ok [], [entry_record line]).
Proof.
  intros uu cr jl mg packet line H.
  assert (Hline : exists rest, line = "ZIA++" ++ rest).
  { unfold encode_packet, dict_getitem in H.
    destruct (dict_get "command" packet); [|discriminate].
    destruct (dict_get "protocol" packet); [|discriminate].
    cbn [bind] in H.
    destruct (dict_mem "id" packet).
    - destruct (dict_get "id" packet); [|discriminate].
      injection H as <-. eexists; reflexivity.
    - destruct (dict_mem "address" packet); [|discriminate].
      destruct (dict_get "address" packet); [|discriminate].
      injection H as <-. eexists; reflexivity. }
  destruct Hline as [rest ->]. split; reflexivity.
Qed.

Lemma encoded_command_is_no_packet_witness :
  valid_packet "ZIA++ON X1 ID 42" = false
  /\ decode_packet Samples.sample_json_loads Samples.sample_globals "ZIA++ON X1 ID 42"
     = (Ok [], [entry_record "ZIA++ON X1 ID 42"]).
Proof.
  apply (encoded_command_is_no_packet Samples.sample_upper Samples.no_repr _ _
           [("protocol", VStr "X1"); ("command", VStr "on"); ("id", VStr "42")]).
  reflexivity.
Defined.

(** X12: the id comes first.  For a packet that has an id, the address
    is not read: storing an address, or another one, leaves the result
    of [encode_packet] as it is.  And command and protocol are read
    before either: a packet without command raises [KeyError] for it,
    and one with a command and no protocol raises [KeyError] for the
    protocol, whatever its id and address are. *)
Theorem encode_packet_prefers_id :
  forall unicode_upper container_repr packet,
    (forall address,
        dict_mem "id" packet = true ->
        encode_packet unicode_upper container_repr (dict_set "address" address packet)
        = encode_packet unicode_upper container_repr packet)
    /\ (dict_get "command" packet = None ->
        encode_packet unicode_upper container_repr packet = Raise (KeyError "command"))
    /\ (forall command,
        dict_get "command" packet = Some command ->
        dict_get "protocol" packet = None ->
        encode_packet unicode_upper container_repr packet = Raise (KeyError "protocol")).
Proof.
  intros uu cr packet. split; [|split].
  - intros address Hid. unfold encode_packet, dict_getitem, dict_mem in *.
    rewrite !(dict_get_set_other "address" _ address) by discriminate.
    destruct (dict_get "command" packet); [|reflexivity].
    destruct (dict_get "protocol" packet); [|reflexivity].
    cbn [bind]. destruct (dict_get "id" packet); [reflexivity | discriminate].
  - intros Hc. unfold encode_packet, dict_getitem. now rewrite Hc.
  - intros c Hc Hp. unfold encode_packet, dict_getitem. now rewrite Hc, Hp.
Qed.

Lemma encode_packet_prefers_id_witness :
  encode_packet Samples.sample_upper Samples.no_repr
    [("protocol", VStr "rts"); ("command", VStr "Off"); ("id", VInt 17);
     ("address", VStr "A1")]
  = encode_packet Samples.sample_upper Samples.no_repr
      [("protocol", VStr "rts"); ("command", VStr "Off"); ("id", VInt 17)]
  /\ encode_packet Samples.sample_upper Samples.no_repr
       [("protocol", VStr "rts"); ("id", VInt 17)]
     = Raise (KeyError "command")
  /\ encode_packet Samples.sample_upper Samples.no_repr
       [("command", VStr "on"); ("id", VInt 17)]
     = Raise (KeyError "protocol").
Proof.
  split; [|split].
  - apply (proj1 (encode_packet_prefers_id Samples.sample_upper Samples.no_repr
             [("protocol", VStr "rts"); ("command", VStr "Off"); ("id", VInt 17)])
             (VStr "A1")); reflexivity.
  - apply (proj1 (proj2 (encode_packet_prefers_id Samples.sample_upper Samples.no_repr
             [("protocol", VStr "rts"); ("id", VInt 17)]))); reflexivity.
  - apply (proj2 (proj2 (encode_packet_prefers_id Samples.sample_upper Samples.no_repr
             [("command", VStr "on"); ("id", VInt 17)])) (VStr "on")); reflexivity.
Defined.

(** X13: what is wrong with the JSON text of a frame is not handled in
    [decode_packet].  For a ["ZIA33"] frame the [try] starts after the
    parsing: an error of the parser, and a document without [frame],
    leave [decode_packet] as an exception.  For a ["ZIA--"] line that is
    none of the four fixed replies, an error of the parser and a JSON
    value that cannot be walked (a number, [true], [null]) do so too. *)
Theorem decode_packet_json_errors :
  forall json_loads module_globals packet,
    (slice_to 5 packet = "ZIA33" ->
     (forall e,
         json_loads (replace "ZIA33" "" packet) = Raise e ->
         decode_packet json_loads module_globals packet
         = (Raise e, [entry_record packet]))
     /\ (forall d,
         json_loads (replace "ZIA33" "" packet) = Ok (VDict d) ->
         dict_get "frame" d = None ->
         decode_packet json_loads module_globals packet
         = (Raise (KeyError "frame"), [entry_record packet])))
    /\ (slice_to 5 packet = "ZIA--" ->
        json_reply (replace "ZIA--" "" packet) = true ->
        (forall e,
            json_loads (replace "ZIA--" "" packet) = Raise e ->
            decode_packet json_loads module_globals packet
            = (Raise e, [entry_record packet]))
        /\ (forall v e,
            json_loads (replace "ZIA--" "" packet) = Ok v ->
            iterate v = Raise e ->
            decode_packet json_loads module_globals packet
            = (Raise e, [entry_record packet]))).
Proof.
  intros jl mg packet. split.
  - intros Hh. split.
    + intros e Hj. unfold decode_packet, decode_json. rewrite Hh, Hj. reflexivity.
    + intros d Hj Hf. unfold decode_packet, decode_json. rewrite Hh, Hj.
      cbn [String.eqb Ascii.eqb Bool.eqb bind getitem_str].
      unfold dict_getitem. rewrite Hf. reflexivity.
  - intros Hh Hf. unfold json_reply in Hf.
    apply andb_true_iff in Hf as [Hf H4]. apply andb_true_iff in Hf as [Hf H3].
    apply andb_true_iff in Hf as [H1 H2].
    apply negb_true_iff in H1, H2, H3, H4.
    split.
    + intros e Hj. unfold decode_packet, decode_reply.
      rewrite Hh, H1, H2, H3, H4, Hj. reflexivity.
    + intros v e Hj Hi. unfold decode_packet, decode_reply.
      rewrite Hh, H1, H2, H3, H4, Hj. cbn [bind String.eqb Ascii.eqb Bool.eqb].
      rewrite Hi. reflexivity.
Qed.

Lemma decode_packet_json_errors_witness :
  decode_packet Samples.sample_json_loads Samples.sample_globals "ZIA33{not json"
  = (Raise JSONDecodeError, [entry_record "ZIA33{not json"])
  /\ decode_packet Samples.sample_json_loads Samples.sample_globals "ZIA33<batch>"
     = (Raise (KeyError "frame"), [entry_record "ZIA33<batch>"])
  /\ decode_packet Samples.sample_json_loads Samples.sample_globals "ZIA--{not json"
     = (Raise JSONDecodeError, [entry_record "ZIA--{not json"]).
Proof.
  split; [|split].
  - apply (proj1 (proj1 (decode_packet_json_errors Samples.sample_json_loads
             Samples.sample_globals "ZIA33{not json") eq_refl)); reflexivity.
  - apply (proj2 (proj1 (decode_packet_json_errors Samples.sample_json_loads
             Samples.sample_globals "ZIA33<batch>") eq_refl)
             [("X2D", VDict []); ("NOPE", VDict [])]); reflexivity.
  - apply (proj1 (proj2 (decode_packet_json_errors Samples.sample_json_loads
             Samples.sample_globals "ZIA--{not json") eq_refl eq_refl)); reflexivity.
Defined.

(** With a decoder that returns for every key, the loop over the keys
    appends one object per key, in the order of the keys, and the list is
    read with what the last call left in [data]. *)
Lemma decode_batch_all module_globals message items :
  (forall key, In key (map fst items) ->
     exists f, module_globals (key ++ "_decode") = Some f
               /\ forall data, exists data' r,
                    f data message gateway_name = (data', Ok r)) ->
  forall data packets_found,
    exists returns,
      decode_batch module_globals message data
        (map (fun kv : string * value => VStr (fst kv)) items) packets_found
      = Ok (map (packet_of (batch_data module_globals message data (map fst items)))
              (packets_found ++ returns)%list)
      /\ Forall2 (fun kv r =>
                    exists f data0 data1,
                      module_globals (fst kv ++ "_decode") = Some f
                      /\ f data0 message gateway_name = (data1, Ok r))
           items returns.
Proof.
  induction items as [|[k v] items IH]; intros Hall data found.
  - exists []. rewrite app_nil_r. split; [reflexivity | constructor].
  - destruct (Hall k (or_introl eq_refl)) as (f & Hf & Hret).
    destruct (Hret data) as (data' & r & Hr).
    destruct (IH (fun key Hin => Hall key (or_intror Hin)) data' (found ++ [r])%list)
      as (returns & Hb & HF).
    exists (r :: returns). cbn [map fst decode_batch batch_data].
    rewrite (call_decoder_known _ _ _ _ _ Hf), Hr, Hb. cbn [fst].
    rewrite <- app_assoc. split; [reflexivity|].
    constructor; [|exact HF]. exists f, data, data'. auto.
Qed.

(** When every decoder returns the [data] it was given, the entries of
    the list are all that one dictionary. *)
Lemma returns_all_data module_globals message final items returns :
  Forall2 (fun (kv : string * value) r =>
             exists (f : decoder) data0 data1,
               module_globals (fst kv ++ "_decode") = Some f
               /\ f data0 message gateway_name = (data1, Ok r))
    items returns ->
  (forall kv (f : decoder) data,
      In kv items ->
      module_globals (fst kv ++ "_decode") = Some f ->
      snd (f data message gateway_name) = Ok Data) ->
  map (packet_of final) returns = repeat (VDict final) (List.length items).
Proof.
  induction 1 as [|kv r items returns (f & d0 & d1 & Hg & Hr) HF IH];
    intros Hdata; [reflexivity|].
  cbn [map repeat List.length].
  assert (Er : r = Data).
  { specialize (Hdata kv f d0 (or_introl eq_refl) Hg).
    rewrite Hr in Hdata. cbn [snd] in Hdata. congruence. }
  rewrite Er. cbn [packet_of]. f_equal.
  apply IH. intros kv' f' data Hin. apply Hdata. now right.
Qed.

(** X14: a ["ZIA--"] line that holds a JSON object, each key of which
    names a decoder that returns, decodes to one packet per key, in the
    order of the keys, each packet the object that the decoder of its key
    returned.  The decoders are given one and the same [data]: a packet
    that is [data] shows what the last decoder left in it, and when every
    decoder returns [data] all the packets of the batch are that one
    dictionary.  The empty object decodes to no packet. *)
Theorem decode_packet_batch_all :
  forall json_loads module_globals packet items,
    slice_to 5 packet = "ZIA--" ->
    json_reply (replace "ZIA--" "" packet) = true ->
    json_loads (replace "ZIA--" "" packet) = Ok (VDict items) ->
    (forall key, In key (map fst items) ->
       exists f, module_globals (key ++ "_decode") = Some f
                 /\ forall data, exists data' r,
                      f data (VDict items) gateway_name = (data', Ok r)) ->
    let final :=
      batch_data module_globals (VDict items) [("node", VStr gateway_name)]
        (map fst items) in
    exists returns,
      decode_packet json_loads module_globals packet
      = (Ok (map (packet_of final) returns), [entry_record packet])
      /\ Forall2 (fun kv r =>
                    exists f data0 data1,
                      module_globals (fst kv ++ "_decode") = Some f
                      /\ f data0 (VDict items) gateway_name = (data1, Ok r))
           items returns
      /\ ((forall key f data,
             In key (map fst items) ->
             module_globals (key ++ "_decode") = Some f ->
             snd (f data (VDict items) gateway_name) = Ok Data) ->
          decode_packet json_loads module_globals packet
          = (Ok (repeat (VDict final) (List.length items)), [entry_record packet])).
Proof.
  intros jl mg packet items Hh Hf Hj Hall final.
  unfold json_reply in Hf.
  apply andb_true_iff in Hf as [Hf H4]. apply andb_true_iff in Hf as [Hf H3].
  apply andb_true_iff in Hf as [H1 H2].
  apply negb_true_iff in H1, H2, H3, H4.
  destruct (decode_batch_all mg (VDict items) items Hall
              [("node", VStr gateway_name)] []) as (returns & Hb & HF).
  assert (Hd : decode_packet jl mg packet
               = (Ok (map (packet_of final) returns), [entry_record packet])).
  { unfold decode_packet, decode_reply.
    rewrite Hh, H1, H2, H3, H4, Hj.
    cbn [bind iterate String.eqb Ascii.eqb Bool.eqb].
    now rewrite Hb. }
  exists returns. split; [exact Hd|]. split; [exact HF|].
  intros Hdata. rewrite Hd. f_equal. f_equal.
  apply (returns_all_data mg (VDict items) final items returns HF).
  intros kv f data Hin Hg. apply (Hdata (fst kv)); [now apply in_map | exact Hg].
Qed.

(** X14's samples: in [{"X2D": {}, "OWN": {}, "RTS": {}}] the first and
    the last decoder return [data], and both packets show the protocol
    that the last one stored; in [{"X2D": {}, "RTS": {}}] the two packets
    are the same. *)
Lemma decode_packet_batch_all_witness :
  (exists returns,
     decode_packet Samples2.sample_json_loads Samples2.sample_globals
       "ZIA--<x2d own rts>"
     = (Ok (map (packet_of [("node", VStr "gateway"); ("protocol", VStr "RTS")])
              returns),
        [entry_record "ZIA--<x2d own rts>"])
     /\ List.length returns = 3%nat)
  /\ decode_packet Samples2.sample_json_loads Samples2.sample_globals "ZIA--<x2d rts>"
     = (Ok [ VDict [("node", VStr "gateway"); ("protocol", VStr "RTS")];
             VDict [("node", VStr "gateway"); ("protocol", VStr "RTS")] ],
        [entry_record "ZIA--<x2d rts>"]).
Proof.
  split.
  - destruct (decode_packet_batch_all Samples2.sample_json_loads
                Samples2.sample_globals "ZIA--<x2d own rts>"
                [("X2D", VDict []); ("OWN", VDict []); ("RTS", VDict [])]
                eq_refl eq_refl eq_refl)
      as (returns & Hp & HF & _).
    + intros key [<-|[<-|[<-|[]]]];
        (eexists; split; [reflexivity|]; intros data; eexists _, _; reflexivity).
    + exists returns. split; [exact Hp|].
      apply Forall2_length in HF. now rewrite <- HF.
  - destruct (decode_packet_batch_all Samples2.sample_json_loads
                Samples2.sample_globals "ZIA--<x2d rts>"
                [("X2D", VDict []); ("RTS", VDict [])]
                eq_refl eq_refl eq_refl)
      as (returns & _ & _ & Hall).
    + intros key [<-|[<-|[]]];
        (eexists; split; [reflexivity|]; intros data; eexists _, _; reflexivity).
    + apply Hall.
      intros key f data [<-|[<-|[]]] Hg; vm_compute in Hg;
        injection Hg as <-; reflexivity.
Defined.

(* ===================================================================== *)
(** ** Further properties of the event router                            *)
(* ===================================================================== *)

Lemma key_eqb_eq a b : key_eqb a b = true -> a = b.
Proof.
  destruct a, b; simpl; try discriminate; intros H.
  - reflexivity.
  - apply Z.eqb_eq in H. now subst.
  - apply String.eqb_eq in H. now subst.
Qed.

Lemma kget_kset_other {V : Type} k k' (v : V) m :
  key_eqb k' k = false -> kget k' (kset k v m) = kget k' m.
Proof.
  intros Hne. induction m as [|[k0 v0] m IH]; simpl.
  - now rewrite Hne.
  - destruct (key_eqb k k0) eqn:E; simpl.
    + apply key_eqb_eq in E. subst k0. now rewrite Hne.
    + now rewrite IH.
Qed.

(** The state after [event_callback], for an event whose type has a
    table: the table of the type is the only one written. *)
Lemma event_callback_final KP KI h d event kt table ki :
  data_domain h = Some d ->
  hash_key (identify_event_type KP event) = Ok kt ->
  kget kt (entity_lookup d) = Some table ->
  hash_key (dict_get_default KI VNone event) = Ok ki ->
  exists d' table',
    data_domain (final (event_callback KP KI h event)) = Some d'
    /\ kget kt (entity_lookup d') = Some table'
    /\ device_register d' = device_register d
    /\ (forall kt', key_eqb kt' kt = false ->
                    kget kt' (entity_lookup d') = kget kt' (entity_lookup d))
    /\ (forall ki', key_eqb ki' ki = false -> kget ki' table' = kget ki' table)
    /\ (forall v, bound_consumer table ki = Some v -> kget ki table' = Some v).
Proof.
  intros Hd Hkt Htab Hki. unfold event_callback.
  rewrite Hd, Hkt, Htab, Hki. unfold defaultdict_getitem, bound_consumer.
  destruct (kget ki table) as [v|] eqn:Ev.
  - destruct (truthy v) eqn:Hv.
    + cbn [final data_domain set_data]. eexists _, table.
      split; [reflexivity|]. cbn [entity_lookup set_lookup device_register].
      split; [apply kget_kset|]. split; [reflexivity|].
      split; [intros; now apply kget_kset_other|].
      split; [reflexivity|]. intros v' E. now injection E as <-.
    + cbn [set_lookup device_register].
      destruct (kget kt (device_register d)) as [reg|].
      * unfold _add_device_to_base_config.
        cbn [set_data entry_devices data_domain].
        destruct (entry_devices h) as [devices|];
          [destruct reg|];
          (cbn [raised final effects set_entry_devices set_data data_domain];
           eexists _, (kset ki (VDict event) table);
           split; [reflexivity|]; cbn [entity_lookup set_lookup device_register];
           split; [apply kget_kset|]; split; [reflexivity|];
           split; [intros; now rewrite !kget_kset_other|];
           split; [intros; now apply kget_kset_other | discriminate]).
      * cbn [final data_domain set_data]. eexists _, table.
        split; [reflexivity|]. cbn [entity_lookup set_lookup device_register].
        split; [apply kget_kset|]. split; [reflexivity|].
        split; [intros; now apply kget_kset_other|].
        split; [reflexivity | discriminate].
  - cbn [truthy set_lookup device_register].
    destruct (kget kt (device_register d)) as [reg|].
    + unfold _add_device_to_base_config.
      cbn [set_data entry_devices data_domain].
      destruct (entry_devices h) as [devices|];
        [destruct reg|];
        (cbn [raised final effects set_entry_devices set_data data_domain];
         eexists _, (kset ki (VDict event) (kset ki (VList []) table));
         split; [reflexivity|]; cbn [entity_lookup set_lookup device_register];
         split; [apply kget_kset|]; split; [reflexivity|];
         split; [intros; now rewrite !kget_kset_other|];
         split; [intros; now rewrite !kget_kset_other | discriminate]).
    + cbn [final data_domain set_data]. eexists _, (kset ki (VList []) table).
      split; [reflexivity|]. cbn [entity_lookup set_lookup device_register].
      split; [apply kget_kset|]. split; [reflexivity|].
      split; [intros; now apply kget_kset_other|].
      split; [intros; now apply kget_kset_other | discriminate].
Qed.

(** X15: [event_callback] never unbinds and never rebinds a consumer,
    and never touches the factories: whatever the event, an identity
    that was bound to a consumer, for any type, is bound to the same
    consumer afterwards, and the register of factories is the same. *)
Theorem event_callback_keeps_bindings :
  forall EVENT_KEY_PLATFORM EVENT_KEY_ID h d event,
    data_domain h = Some d ->
    exists d',
      data_domain (final (event_callback EVENT_KEY_PLATFORM EVENT_KEY_ID h event))
      = Some d'
      /\ device_register d' = device_register d
      /\ forall event_type table event_id consumer,
           kget event_type (entity_lookup d) = Some table ->
           bound_consumer table event_id = Some consumer ->
           exists table',
             kget event_type (entity_lookup d') = Some table'
             /\ bound_consumer table' event_id = Some consumer.
Proof.
  intros KP KI h d event Hd.
  assert (Hsame : final (event_callback KP KI h event) = h ->
    exists d', data_domain (final (event_callback KP KI h event)) = Some d'
      /\ device_register d' = device_register d
      /\ forall event_type table event_id consumer,
           kget event_type (entity_lookup d) = Some table ->
           bound_consumer table event_id = Some consumer ->
           exists table',
             kget event_type (entity_lookup d') = Some table'
             /\ bound_consumer table' event_id = Some consumer).
  { intros ->. exists d. split; [exact Hd|]. split; [reflexivity|].
    intros kt' t' ki' c Ht Hb. now exists t'. }
  destruct (hash_key (identify_event_type KP event)) as [kt|e] eqn:Hkt;
    [|apply Hsame; unfold event_callback; now rewrite Hd, Hkt].
  destruct (kget kt (entity_lookup d)) as [table|] eqn:Htab;
    [|apply Hsame; unfold event_callback; now rewrite Hd, Hkt, Htab].
  destruct (hash_key (dict_get_default KI VNone event)) as [ki|e] eqn:Hki;
    [|apply Hsame; unfold event_callback; now rewrite Hd, Hkt, Htab, Hki].
  clear Hsame.
  destruct (event_callback_final KP KI h d event kt table ki Hd Hkt Htab Hki)
    as (d' & table' & Hd' & Ht' & Hreg & Hother & Hids & Hbound).
  exists d'. split; [exact Hd'|]. split; [exact Hreg|].
  intros kt' t' ki' c Ht Hb.
  destruct (key_eqb kt' kt) eqn:Ekt.
  - apply key_eqb_eq in Ekt. subst kt'. rewrite Htab in Ht. injection Ht as <-.
    exists table'. split; [exact Ht'|].
    destruct (key_eqb ki' ki) eqn:Eki.
    + apply key_eqb_eq in Eki. subst ki'.
      unfold bound_consumer. rewrite (Hbound _ Hb).
      unfold bound_consumer in Hb.
      destruct (kget ki table) as [v|]; [|discriminate].
      destruct (truthy v) eqn:Hv; [|discriminate].
      injection Hb as <-. now rewrite Hv.
    + unfold bound_consumer in *. now rewrite (Hids _ Eki).
  - exists t'. split; [|exact Hb]. now rewrite (Hother _ Ekt).
Qed.

Lemma event_callback_keeps_bindings_witness :
  exists d',
    data_domain (final (event_callback "platform" "id" Samples.sample_hass
                          (Samples.sample_event "sensor" "OREGON_2_t")))
    = Some d'
    /\ exists table',
         kget (KStr "sensor") (entity_lookup d') = Some table'
         /\ bound_consumer table' (KStr "OREGON_1_t")
            = Some (VStr "sensor.oregon_1_t").
Proof.
  edestruct (event_callback_keeps_bindings "platform" "id" Samples.sample_hass)
    with (event := Samples.sample_event "sensor" "OREGON_2_t")
    as (d' & Hd' & _ & Hkeep); [reflexivity|].
  exists d'. split; [exact Hd'|].
  apply (Hkeep (KStr "sensor") [(KStr "OREGON_1_t", VStr "sensor.oregon_1_t")]);
    reflexivity.
Defined.

(** X16: an event whose id is not bound, for a type without factory, is
    dropped with a debug record: nothing is sent, nothing is written to
    the config entry, no task is created.  When what is registered for
    the type is no function (the empty dict that [connect] stores), the
    identity is stored in the config entry all the same, and no task is
    created for it. *)
Theorem event_callback_without_factory :
  forall EVENT_KEY_PLATFORM EVENT_KEY_ID h d event kt table ki,
    data_domain h = Some d ->
    hash_key (identify_event_type EVENT_KEY_PLATFORM event) = Ok kt ->
    kget kt (entity_lookup d) = Some table ->
    hash_key (dict_get_default EVENT_KEY_ID VNone event) = Ok ki ->
    bound_consumer table ki = None ->
    let o := event_callback EVENT_KEY_PLATFORM EVENT_KEY_ID h event in
    (kget kt (device_register d) = None ->
     effects o = [Log DEBUG "device_id not known and automatic add disabled"]
     /\ raised o = None
     /\ entry_devices (final o) = entry_devices h)
    /\ (forall v devices,
          kget kt (device_register d) = Some (NotFunction v) ->
          entry_devices h = Some devices ->
          effects o
          = [ Log DEBUG "device_id not known, adding new device";
              UpdateEntry ki event;
              Log DEBUG "Impossible to add device - No functions mapped for %s" ]
          /\ raised o = None
          /\ entry_devices (final o) = Some (kset ki (VDict event) devices)).
Proof.
  intros KP KI h d event kt table ki Hd Hkt Htab Hki Hb o.
  assert (Hfalsy : exists v table1,
    defaultdict_getitem ki table = (v, table1) /\ truthy v = false).
  { unfold defaultdict_getitem. unfold bound_consumer in Hb.
    destruct (kget ki table) as [v|].
    - destruct (truthy v) eqn:Hv; [discriminate|]. now exists v, table.
    - now exists (VList []), (kset ki (VList []) table). }
  destruct Hfalsy as (v0 & table1 & Hget & Hv0).
  unfold o, event_callback. rewrite Hd, Hkt, Htab, Hki, Hget.
  cbv beta iota zeta. rewrite Hv0. cbn [set_lookup device_register].
  split.
  - intros Hreg. rewrite Hreg. repeat split.
  - intros v devices Hreg Hdev. rewrite Hreg.
    unfold _add_device_to_base_config.
    cbn [set_data entry_devices data_domain]. rewrite Hdev. repeat split.
Qed.

Lemma event_callback_without_factory_witness :
  effects (event_callback "platform" "id" Samples.sample_hass
             (Samples.sample_event "cover" "RTS_1"))
  = [Log DEBUG "device_id not known and automatic add disabled"]
  /\ effects (event_callback "platform" "id" Samples.sample_hass
                (Samples.sample_event "command" "X2D_1"))
     = [ Log DEBUG "device_id not known, adding new device";
         UpdateEntry (KStr "X2D_1") (Samples.sample_event "command" "X2D_1");
         Log DEBUG "Impossible to add device - No functions mapped for %s" ].
Proof.
  split.
  - apply (proj1 (event_callback_without_factory "platform" "id" Samples.sample_hass
             _ (Samples.sample_event "cover" "RTS_1") (KStr "cover") [] (KStr "RTS_1")
             eq_refl eq_refl eq_refl eq_refl eq_refl)); reflexivity.
  - apply (proj2 (event_callback_without_factory "platform" "id" Samples.sample_hass
             _ (Samples.sample_event "command" "X2D_1") (KStr "command") []
             (KStr "X2D_1") eq_refl eq_refl eq_refl eq_refl eq_refl) (VDict []) []);
      reflexivity.
Defined.

(** The state after an event was added. *)
Lemma event_callback_added KP KI h d event kt table ki reg devices :
  data_domain h = Some d ->
  hash_key (identify_event_type KP event) = Ok kt ->
  kget kt (entity_lookup d) = Some table ->
  hash_key (dict_get_default KI VNone event) = Ok ki ->
  bound_consumer table ki = None ->
  kget kt (device_register d) = Some reg ->
  entry_devices h = Some devices ->
  exists d' table',
    data_domain (final (event_callback KP KI h event)) = Some d'
    /\ kget kt (entity_lookup d') = Some table'
    /\ kget ki table' = Some (VDict event).
Proof.
  intros Hd Hkt Htab Hki Hb Hreg Hdev.
  assert (Hfalsy : exists v table1,
    defaultdict_getitem ki table = (v, table1) /\ truthy v = false).
  { unfold defaultdict_getitem. unfold bound_consumer in Hb.
    destruct (kget ki table) as [v|].
    - destruct (truthy v) eqn:Hv; [discriminate|]. now exists v, table.
    - now exists (VList []), (kset ki (VList []) table). }
  destruct Hfalsy as (v0 & table1 & Hget & Hv0).
  unfold event_callback. rewrite Hd, Hkt, Htab, Hki, Hget.
  cbv beta iota zeta. rewrite Hv0. cbn [set_lookup device_register].
  rewrite Hreg. unfold _add_device_to_base_config.
  cbn [set_data entry_devices data_domain]. rewrite Hdev.
  destruct reg;
    (cbn [raised final effects set_entry_devices set_data data_domain];
     eexists _, _; split; [reflexivity|];
     cbn [entity_lookup set_lookup]; split; apply kget_kset).
Qed.

(** X17: a new identity is added once.  After an event (not the empty
    dict) whose id was not bound has been added, a second event of the
    same type and id is sent on, and neither written to the config entry
    nor given to the factory again.  The consumer it is sent to is the
    first event itself, which is what the table holds for the identity
    until a platform stores an entity id there. *)
Theorem event_callback_adds_once :
  forall EVENT_KEY_PLATFORM EVENT_KEY_ID h d event1 event2 kt table ki reg devices,
    data_domain h = Some d ->
    hash_key (identify_event_type EVENT_KEY_PLATFORM event1) = Ok kt ->
    kget kt (entity_lookup d) = Some table ->
    hash_key (dict_get_default EVENT_KEY_ID VNone event1) = Ok ki ->
    bound_consumer table ki = None ->
    kget kt (device_register d) = Some reg ->
    entry_devices h = Some devices ->
    event1 <> [] ->
    hash_key (identify_event_type EVENT_KEY_PLATFORM event2) = Ok kt ->
    hash_key (dict_get_default EVENT_KEY_ID VNone event2) = Ok ki ->
    effects (event_callback EVENT_KEY_PLATFORM EVENT_KEY_ID
               (final (event_callback EVENT_KEY_PLATFORM EVENT_KEY_ID h event1))
               event2)
    = [DispatcherSend (SIGNAL_HANDLE_EVENT (VDict event1)) (PEvent event2)].
Proof.
  intros KP KI h d e1 e2 kt table ki reg devices
         Hd Hkt Htab Hki Hb Hreg Hdev Hne Hkt2 Hki2.
  destruct (event_callback_added KP KI h d e1 kt table ki reg devices
              Hd Hkt Htab Hki Hb Hreg Hdev) as (d' & table' & Hd' & Ht' & Hi').
  unfold event_callback at 1. rewrite Hd', Hkt2, Ht', Hki2.
  unfold defaultdict_getitem. rewrite Hi'. cbv beta iota zeta.
  destruct e1 as [|x e1]; [congruence|]. reflexivity.
Qed.

Lemma event_callback_adds_once_witness :
  effects (event_callback "platform" "id"
             (final (event_callback "platform" "id" Samples.sample_hass
                       (Samples.sample_event "sensor" "OREGON_2_t")))
             [("id", VStr "OREGON_2_t"); ("value", VStr "22"); ("platform", VStr "sensor")])
  = [ DispatcherSend
        (SIGNAL_HANDLE_EVENT (VDict (Samples.sample_event "sensor" "OREGON_2_t")))
        (PEvent [("id", VStr "OREGON_2_t"); ("value", VStr "22");
                 ("platform", VStr "sensor")]) ].
Proof.
  eapply (event_callback_adds_once "platform" "id" Samples.sample_hass)
    with (kt := KStr "sensor") (ki := KStr "OREGON_2_t")
         (table := [(KStr "OREGON_1_t", VStr "sensor.oregon_1_t")])
         (reg := Function "add_new_device") (devices := []);
    [reflexivity | reflexivity | reflexivity | reflexivity | reflexivity
    | reflexivity | reflexivity | discriminate | reflexivity | reflexivity].
Defined.

(** X18: where [event_callback] raises.  Before the first connection
    there is no [hass.data[DOMAIN]] and it raises [KeyError]; with a list
    or a dict for platform, or for id when the type has a table, it
    raises [TypeError]; in these cases nothing is sent and the state is
    as it was.  When a factory is registered and the config entry holds
    no devices, it raises [KeyError] after it has stored the identity in
    the table of the type: nothing is written to the config entry, no
    task is created, and the id is bound from then on. *)
Theorem event_callback_errors :
  forall EVENT_KEY_PLATFORM EVENT_KEY_ID h event,
    let o := event_callback EVENT_KEY_PLATFORM EVENT_KEY_ID h event in
    (data_domain h = None -> o = mkOutcome h [] (Some (KeyError "rfplayer")))
    /\ (forall d,
          data_domain h = Some d ->
          hash_key (identify_event_type EVENT_KEY_PLATFORM event) = Raise TypeError ->
          o = mkOutcome h [] (Some TypeError))
    /\ (forall d kt table,
          data_domain h = Some d ->
          hash_key (identify_event_type EVENT_KEY_PLATFORM event) = Ok kt ->
          kget kt (entity_lookup d) = Some table ->
          hash_key (dict_get_default EVENT_KEY_ID VNone event) = Raise TypeError ->
          o = mkOutcome h [] (Some TypeError))
    /\ (forall d kt table ki reg,
          data_domain h = Some d ->
          hash_key (identify_event_type EVENT_KEY_PLATFORM event) = Ok kt ->
          kget kt (entity_lookup d) = Some table ->
          hash_key (dict_get_default EVENT_KEY_ID VNone event) = Ok ki ->
          bound_consumer table ki = None ->
          kget kt (device_register d) = Some reg ->
          entry_devices h = None ->
          raised o = Some (KeyError "devices")
          /\ effects o = [Log DEBUG "device_id not known, adding new device"]
          /\ entry_devices (final o) = None
          /\ exists d' table',
               data_domain (final o) = Some d'
               /\ kget kt (entity_lookup d') = Some table'
               /\ kget ki table' = Some (VDict event)).
Proof.
  intros KP KI h event o. split; [|split; [|split]].
  - intros Hd. unfold o, event_callback. now rewrite Hd.
  - intros d Hd Hkt. unfold o, event_callback. now rewrite Hd, Hkt.
  - intros d kt table Hd Hkt Htab Hki. unfold o, event_callback.
    now rewrite Hd, Hkt, Htab, Hki.
  - intros d kt table ki reg Hd Hkt Htab Hki Hb Hreg Hdev.
    assert (Hfalsy : exists v table1,
      defaultdict_getitem ki table = (v, table1) /\ truthy v = false).
    { unfold defaultdict_getitem. unfold bound_consumer in Hb.
      destruct (kget ki table) as [v|].
      - destruct (truthy v) eqn:Hv; [discriminate|]. now exists v, table.
      - now exists (VList []), (kset ki (VList []) table). }
    destruct Hfalsy as (v0 & table1 & Hget & Hv0).
    unfold o, event_callback. rewrite Hd, Hkt, Htab, Hki, Hget.
    cbv beta iota zeta. rewrite Hv0. cbn [set_lookup device_register].
    rewrite Hreg. unfold _add_device_to_base_config.
    cbn [set_data entry_devices data_domain]. rewrite Hdev.
    cbn [raised final effects set_data data_domain entry_devices].
    repeat split; [exact Hdev|]. eexists _, _. split; [reflexivity|].
    cbn [entity_lookup set_lookup]. split; apply kget_kset.
Qed.

Lemma event_callback_errors_witness :
  event_callback "platform" "id" Samples.sample_hass_new
    (Samples.sample_event "sensor" "OREGON_1_t")
  = mkOutcome Samples.sample_hass_new [] (Some (KeyError "rfplayer"))
  /\ event_callback "platform" "id" Samples.sample_hass
       [("id", VStr "1"); ("platform", VList [VStr "sensor"])]
     = mkOutcome Samples.sample_hass [] (Some TypeError)
  /\ event_callback "platform" "id" Samples.sample_hass
       [("id", VDict []); ("platform", VStr "sensor")]
     = mkOutcome Samples.sample_hass [] (Some TypeError).
Proof.
  split; [|split].
  - apply (proj1 (event_callback_errors "platform" "id" Samples.sample_hass_new
             (Samples.sample_event "sensor" "OREGON_1_t"))). reflexivity.
  - eapply (proj1 (proj2 (event_callback_errors "platform" "id" Samples.sample_hass
             [("id", VStr "1"); ("platform", VList [VStr "sensor"])])));
      reflexivity.
  - pose proof (proj1 (proj2 (proj2 (event_callback_errors "platform" "id"
             Samples.sample_hass [("id", VDict []); ("platform", VStr "sensor")]))))
      as H.
    eapply H with (kt := KStr "sensor"); reflexivity.
Defined.

(* ===================================================================== *)
(** ** Further properties of the connection handling                     *)
(* ===================================================================== *)

(** X19: [reconnect] unbinds the protocol and sends the unavailability
    once, whatever the state of the host; the tables of consumers and the
    factories stay as they are.  While the host is stopping it starts no
    new attempt. *)
Theorem reconnect_effects :
  forall h d,
    data_domain h = Some d ->
    data_domain (final (reconnect h))
    = Some (mkData false (entity_lookup d) (device_register d))
    /\ raised (reconnect h) = None
    /\ count is_unavailable (effects (reconnect h)) = 1%nat
    /\ (stopping h = true ->
        effects (reconnect h) = [DispatcherSend SIGNAL_AVAILABILITY (PBool false)]).
Proof.
  intros h d Hd. unfold reconnect. rewrite Hd. cbn [set_data stopping].
  destruct (stopping h); repeat split; discriminate.
Qed.

Lemma reconnect_effects_witness :
  effects (reconnect Samples2.sample_hass_stopping)
  = [DispatcherSend SIGNAL_AVAILABILITY (PBool false)].
Proof.
  pose proof (fun d => reconnect_effects Samples2.sample_hass_stopping d) as H.
  edestruct H as (_ & _ & _ & Hs); [reflexivity|]. apply Hs. reflexivity.
Defined.

Lemma fresh_lookup_empty K1 K2 K3 auto_add kt table :
  kget kt (entity_lookup (fresh_data K1 K2 K3 auto_add)) = Some table -> table = [].
Proof.
  unfold fresh_data. cbn [entity_lookup kget].
  destruct (key_eqb kt (KStr K1)); [now intros [= <-]|].
  destruct (key_eqb kt (KStr K2)); [now intros [= <-]|].
  destruct (key_eqb kt (KStr K3)); [now intros [= <-] | discriminate].
Qed.

Lemma fresh_register_no_function K1 K2 K3 auto_add kt name :
  kget kt (device_register (fresh_data K1 K2 K3 auto_add)) <> Some (Function name).
Proof.
  unfold fresh_data. cbn [device_register].
  destruct auto_add; cbn; [|discriminate].
  destruct (key_eqb kt (KStr "sensor")); [discriminate|].
  destruct (key_eqb kt (KStr "command")); [discriminate|].
  destruct (key_eqb kt (KStr "cover")); discriminate.
Qed.

(** X20: a successful [connect] replaces [hass.data[DOMAIN]] as a whole:
    the tables of consumers are empty again and no factory is
    registered, whatever was there before.  So the first event after it,
    whatever its type and id, is sent to no consumer and given to no
    factory. *)
Theorem connect_resets_registry :
  forall EVENT_KEY_PLATFORM EVENT_KEY_ID EVENT_KEY_COMMAND EVENT_KEY_SENSOR
         EVENT_KEY_COVER container_repr h commands event,
    start_commands container_repr (entry_options h) = Ok commands ->
    let o := connect EVENT_KEY_COMMAND EVENT_KEY_SENSOR EVENT_KEY_COVER
               container_repr h Opened in
    data_domain (final o)
    = Some (fresh_data EVENT_KEY_COMMAND EVENT_KEY_SENSOR EVENT_KEY_COVER
              (automatic_add h))
    /\ count is_unavailable (effects o) = 0%nat
    /\ filter is_forward
         (effects (event_callback EVENT_KEY_PLATFORM EVENT_KEY_ID (final o) event))
       = []
    /\ filter is_factory_task
         (effects (event_callback EVENT_KEY_PLATFORM EVENT_KEY_ID (final o) event))
       = [].
Proof.
  intros KP KI K1 K2 K3 cr h commands event Hc o.
  assert (Hd : data_domain (final o) = Some (fresh_data K1 K2 K3 (automatic_add h))).
  { unfold o, connect. rewrite Hc. reflexivity. }
  split; [exact Hd|]. split; [unfold o, connect; rewrite Hc; reflexivity|].
  unfold event_callback. rewrite Hd.
  destruct (hash_key (identify_event_type KP event)) as [kt|]; [|split; reflexivity].
  destruct (kget kt (entity_lookup (fresh_data K1 K2 K3 (automatic_add h))))
    as [table|] eqn:Htab; [|split; reflexivity].
  apply fresh_lookup_empty in Htab. subst table.
  destruct (hash_key (dict_get_default KI VNone event)) as [ki|]; [|split; reflexivity].
  cbn [defaultdict_getitem kget truthy set_lookup device_register].
  destruct (kget kt (device_register (fresh_data K1 K2 K3 (automatic_add h))))
    as [[name|v]|] eqn:Hreg.
  - exfalso. exact (fresh_register_no_function _ _ _ _ _ _ Hreg).
  - unfold _add_device_to_base_config.
    cbn [set_data entry_devices].
    destruct (entry_devices (final o)); split; reflexivity.
  - split; reflexivity.
Qed.

Lemma connect_resets_registry_witness :
  filter is_forward
    (effects (event_callback "platform" "id"
                (final (connect "command" "sensor" "cover" Samples.no_repr
                          Samples.sample_hass_lost Opened))
                (Samples.sample_event "sensor" "OREGON_1_t")))
  = []
  /\ filter is_forward
       (effects (event_callback "platform" "id" Samples.sample_hass_lost
                   (Samples.sample_event "sensor" "OREGON_1_t")))
     = [ DispatcherSend (SIGNAL_HANDLE_EVENT (VStr "sensor.oregon_1_t"))
           (PEvent (Samples.sample_event "sensor" "OREGON_1_t")) ].
Proof.
  split; [|reflexivity].
  eapply (connect_resets_registry "platform" "id" "command" "sensor" "cover"
            Samples.no_repr Samples.sample_hass_lost).
  reflexivity.
Defined.

(** X21: the trace command is built under the test of the repeater
    option and walks the trace option.  With a list of repeaters to
    disable and no trace option, [connect] raises [TypeError] while it
    builds its start commands, however the open attempt would end: no
    connection is made, no availability is sent, no reconnection is
    set. *)
Theorem connect_trace_option :
  forall EVENT_KEY_COMMAND EVENT_KEY_SENSOR EVENT_KEY_COVER container_repr h r
         repeaters,
    CONF_RECEIVER_DISABLE (entry_options h) = None ->
    CONF_REPEATER_DISABLE (entry_options h) = Some (VList repeaters) ->
    CONF_TRACE (entry_options h) = None ->
    start_commands container_repr (entry_options h) = Raise TypeError
    /\ connect EVENT_KEY_COMMAND EVENT_KEY_SENSOR EVENT_KEY_COVER container_repr h r
       = mkOutcome h [Log INFO "Initiating Rfplayer connection"] (Some TypeError).
Proof.
  intros K1 K2 K3 cr h r repeaters Hrec Hrep Htr.
  assert (Hs : start_commands cr (entry_options h) = Raise TypeError).
  { unfold start_commands, filter_command. rewrite Hrec, Hrep, Htr. reflexivity. }
  split; [exact Hs|]. unfold connect. now rewrite Hs.
Qed.

Lemma connect_trace_option_witness :
  connect "command" "sensor" "cover" Samples.no_repr
    (mkHass None false (Some []) 10 true Samples.sample_options_no_trace) Opened
  = mkOutcome (mkHass None false (Some []) 10 true Samples.sample_options_no_trace)
      [Log INFO "Initiating Rfplayer connection"] (Some TypeError).
Proof.
  eapply (proj2 (connect_trace_option "command" "sensor" "cover" Samples.no_repr
                   (mkHass None false (Some []) 10 true Samples.sample_options_no_trace)
                   Opened [VStr "X10"] eq_refl eq_refl eq_refl)).
Defined.

(* ===================================================================== *)
(** ** Properties of the services                                        *)
(* ===================================================================== *)

Lemma dict_of_items_last {V : Type} (items : list (string * V)) k v :
  dict_get k (dict_of_items (items ++ [(k, v)])) = Some v.
Proof.
  unfold dict_of_items. rewrite fold_left_app. cbn [fold_left fst snd].
  apply dict_get_set_same.
Qed.

(** X22: the services need the protocol object.  From the moment
    [reconnect] has run, and until a connection is made again, sending a
    command, raw or not, raises [AttributeError]: nothing is written to
    the transport, and the caller gets an exception, not the record of a
    failed command.  Before the first connection both raise
    [KeyError]. *)
Theorem services_need_protocol :
  forall CONF_DEVICE_ADDRESS CONF_ENTITY_TYPE EVENT_KEY_ID EVENT_KEY_COMMAND
         EVENT_KEY_COVER factory_raises h call command ack,
    let send h :=
      async_send_command CONF_DEVICE_ADDRESS CONF_ENTITY_TYPE EVENT_KEY_ID
        EVENT_KEY_COMMAND EVENT_KEY_COVER factory_raises h call ack in
    let send_raw h := async_send_raw_command h command ack in
    (forall d,
        data_domain h = Some d ->
        s_raised (send (final (reconnect h))) = Some AttributeError
        /\ filter is_send (s_effects (send (final (reconnect h)))) = []
        /\ s_raised (send_raw (final (reconnect h))) = Some AttributeError
        /\ filter is_send (s_effects (send_raw (final (reconnect h)))) = [])
    /\ (data_domain h = None ->
        s_raised (send h) = Some (KeyError "rfplayer")
        /\ filter is_send (s_effects (send h)) = []
        /\ s_raised (send_raw h) = Some (KeyError "rfplayer")
        /\ filter is_send (s_effects (send_raw h)) = []).
Proof.
  intros A T I C V fr h call command ack send send_raw. split.
  - intros d Hd.
    assert (Hp : protocol_object (final (reconnect h)) = Raise AttributeError).
    { unfold protocol_object, reconnect. rewrite Hd.
      cbn [set_data stopping]. now destruct (stopping h). }
    unfold send, send_raw, async_send_command, async_send_raw_command.
    rewrite Hp. repeat split.
  - intros Hd.
    assert (Hp : protocol_object h = Raise (KeyError "rfplayer"))
      by (unfold protocol_object; now rewrite Hd).
    unfold send, send_raw, async_send_command, async_send_raw_command.
    rewrite Hp. repeat split.
Qed.

Lemma services_need_protocol_witness :
  s_raised (async_send_command "device_address" "entity_type" "id" "command" "cover"
              Samples2.no_factory_raises (final (reconnect Samples2.sample_hass))
              (Samples2.sample_call false None) (Ok true))
  = Some AttributeError
  /\ s_raised (async_send_raw_command Samples.sample_hass_new "STATUS" (Ok true))
     = Some (KeyError "rfplayer").
Proof.
  pose proof (services_need_protocol "device_address" "entity_type" "id" "command"
                "cover" Samples2.no_factory_raises Samples2.sample_hass
                (Samples2.sample_call false None) "STATUS" (Ok true)) as H1.
  pose proof (services_need_protocol "device_address" "entity_type" "id" "command"
                "cover" Samples2.no_factory_raises Samples.sample_hass_new
                (Samples2.sample_call false None) "STATUS" (Ok true)) as H2.
  cbv zeta in H1, H2. split.
  - edestruct (proj1 H1) as (Hr & _); [reflexivity | exact Hr].
  - destruct (proj2 H2 eq_refl) as (_ & _ & Hr & _). exact Hr.
Defined.

(** X23: in [async_send_command] the automatic add comes after the
    command.  On a connected host, whatever the call, the command is
    given to the transport exactly once; and when the call ends with an
    exception (no entity type in the call, neither id nor address, no
    factory for the type, a factory that raises, no devices in the config
    entry), the state of the host is as it was and nothing was written to
    the config entry.  A call for an automatic add without entity type
    raises [KeyError]; one with an entity type and neither id nor address
    raises [TypeError]. *)
Theorem send_command_then_add :
  forall CONF_DEVICE_ADDRESS CONF_ENTITY_TYPE EVENT_KEY_ID EVENT_KEY_COMMAND
         EVENT_KEY_COVER factory_raises h call acked,
    protocol_object h = Ok tt ->
    let o :=
      async_send_command CONF_DEVICE_ADDRESS CONF_ENTITY_TYPE EVENT_KEY_ID
        EVENT_KEY_COMMAND EVENT_KEY_COVER factory_raises h call (Ok acked) in
    List.length (filter is_send (s_effects o)) = 1%nat
    /\ (s_raised o <> None ->
        s_final o = h /\ filter is_persist (s_effects o) = [])
    /\ (call_automatic_add call = false -> s_raised o = None /\ s_final o = h)
    /\ (call_automatic_add call = true ->
        call_entity_type call = None ->
        s_raised o = Some (KeyError CONF_ENTITY_TYPE))
    /\ (forall entity_type,
        call_automatic_add call = true ->
        call_entity_type call = Some entity_type ->
        opt_or (call_device_id call) (call_device_address call) = VNone ->
        s_raised o = Some TypeError).
Proof.
  intros A T I C V fr h call acked Hp o.
  unfold o, async_send_command. rewrite Hp.
  set (log := Core (Log DEBUG "Rfplayer send command for %s")).
  set (send := SendCommandAck (call_protocol call) (call_command call)
                 (call_device_address call) (call_device_id call)).
  set (sent := if acked then [log; send]
               else [log; send; Core (Log ERROR "Failed Rfplayer command")]).
  assert (Hsent : filter is_send sent = [send] /\ filter is_persist sent = [])
    by (unfold sent; destruct acked; split; reflexivity).
  destruct Hsent as [Hs1 Hs2].
  destruct (call_automatic_add call) eqn:Hauto.
  2:{ cbn [s_effects s_raised s_final]. rewrite Hs1.
      repeat split; try reflexivity; try discriminate; congruence. }
  unfold add_device.
  destruct (call_entity_type call) as [entity_type|] eqn:Het.
  2:{ cbn [s_effects s_raised s_final]. rewrite !filter_app, Hs1, Hs2.
      repeat split; try reflexivity; discriminate. }
  destruct (join "_" [VStr (call_protocol call);
                      opt_or (call_device_id call) (call_device_address call);
                      VStr entity_type]) as [event_id|e] eqn:Hj.
  2:{ cbn [s_effects s_raised s_final]. rewrite !filter_app, Hs1, Hs2.
      repeat split; try reflexivity; try discriminate.
      intros t _ [= <-] Hnone. rewrite Hnone in Hj. cbn in Hj. congruence. }
  assert (Hjoin : forall t, Some entity_type = Some t ->
            opt_or (call_device_id call) (call_device_address call) = VNone -> False).
  { intros t _ Hnone. rewrite Hnone in Hj. discriminate Hj. }
  cbv zeta.
  match goal with
  | |- context [await_register _ h ?k ?dev] =>
      set (device := dev); set (key := k)
  end.
  unfold await_register.
  destruct (data_domain h) as [d|];
    [|cbn [s_effects s_raised s_final]; rewrite !filter_app, Hs1, Hs2;
      repeat split; try reflexivity; try discriminate;
      intros; exfalso; eauto].
  destruct (kget (KStr key) (device_register d)) as [[name|v]|];
    try (cbn [s_effects s_raised s_final]; rewrite !filter_app, Hs1, Hs2;
         repeat split; try reflexivity; try discriminate;
         intros; exfalso; eauto).
  destruct (fr name device) as [e|];
    [cbn [s_effects s_raised s_final]; rewrite !filter_app, Hs1, Hs2;
     repeat split; try reflexivity; try discriminate;
     intros; exfalso; eauto|].
  unfold _add_device_to_base_config.
  destruct (entry_devices h) as [devices|];
    cbn [s_effects s_raised s_final final effects raised map app];
    rewrite !filter_app, Hs1, Hs2;
    repeat split; try reflexivity; try discriminate; try congruence;
    intros; exfalso; eauto.
Qed.

Lemma send_command_then_add_witness :
  s_raised (async_send_command "device_address" "entity_type" "id" "command" "cover"
              Samples2.no_factory_raises Samples2.sample_hass
              (Samples2.sample_call true None) (Ok true))
  = Some (KeyError "entity_type")
  /\ List.length
       (filter is_send
          (s_effects (async_send_command "device_address" "entity_type" "id"
                        "command" "cover" Samples2.no_factory_raises
                        Samples2.sample_hass (Samples2.sample_call true None)
                        (Ok true)))) = 1%nat
  /\ s_raised (async_send_command "device_address" "entity_type" "id" "command" "cover"
                 Samples2.no_factory_raises Samples2.sample_hass
                 (mkCall "RTS" "on" None (Some "") true (Some "cover")) (Ok true))
     = Some TypeError.
Proof.
  pose proof (send_command_then_add "device_address" "entity_type" "id" "command"
                "cover" Samples2.no_factory_raises Samples2.sample_hass
                (Samples2.sample_call true None) true eq_refl) as H1.
  pose proof (send_command_then_add "device_address" "entity_type" "id" "command"
                "cover" Samples2.no_factory_raises Samples2.sample_hass
                (mkCall "RTS" "on" None (Some "") true (Some "cover")) true eq_refl)
    as H2.
  cbv zeta in H1, H2.
  destruct H1 as (Hn & _ & _ & Hk & _). destruct H2 as (_ & _ & _ & _ & Ht).
  split; [exact (Hk eq_refl eq_refl)|]. split; [exact Hn|].
  exact (Ht "cover" eq_refl eq_refl eq_refl).
Defined.

(** X24: an automatic add that goes through.  On a connected host, for a
    call with an entity type and an id or an address, when a factory is
    registered for the type (that of the covers for the entity type
    ["cover"], that of the commands for any other) and returns, the
    factory is awaited with a device whose id is
    [protocol_target_type], the target being the device id, or the
    address when the id is missing or empty, and the device is written to
    the config entry under that id.  This is so whether the command was
    acknowledged or not. *)
Theorem send_command_adds_device :
  forall CONF_DEVICE_ADDRESS CONF_ENTITY_TYPE EVENT_KEY_ID EVENT_KEY_COMMAND
         EVENT_KEY_COVER factory_raises h d call acked entity_type target name devices,
    data_domain h = Some d ->
    rfplayer_protocol d = true ->
    call_automatic_add call = true ->
    call_entity_type call = Some entity_type ->
    opt_or (call_device_id call) (call_device_address call) = VStr target ->
    kget (KStr (if String.eqb entity_type "cover"
                then EVENT_KEY_COVER else EVENT_KEY_COMMAND))
      (device_register d) = Some (Function name) ->
    (forall device, factory_raises name device = None) ->
    entry_devices h = Some devices ->
    let o :=
      async_send_command CONF_DEVICE_ADDRESS CONF_ENTITY_TYPE EVENT_KEY_ID
        EVENT_KEY_COMMAND EVENT_KEY_COVER factory_raises h call (Ok acked) in
    let event_id := call_protocol call ++ "_" ++ target ++ "_" ++ entity_type in
    exists device,
      dict_get EVENT_KEY_ID device = Some (VStr event_id)
      /\ s_raised o = None
      /\ In (AwaitFactory name device) (s_effects o)
      /\ filter is_persist (s_effects o) = [Core (UpdateEntry (KStr event_id) device)]
      /\ entry_devices (s_final o) = Some (kset (KStr event_id) (VDict device) devices).
Proof.
  intros A T I C V fr h d call acked entity_type target name devices
         Hd Hp Hauto Het Htarget Hreg Hfr Hdev o event_id.
  unfold o, async_send_command, protocol_object. rewrite Hd, Hp, Hauto.
  set (log := Core (Log DEBUG "Rfplayer send command for %s")).
  set (send := SendCommandAck (call_protocol call) (call_command call)
                 (call_device_address call) (call_device_id call)).
  set (sent := if acked then [log; send]
               else [log; send; Core (Log ERROR "Failed Rfplayer command")]).
  assert (Hs2 : filter is_persist sent = [])
    by (unfold sent; destruct acked; reflexivity).
  unfold add_device. rewrite Het, Htarget.
  cbn [join all_str String.concat]. fold event_id. cbv zeta.
  match goal with
  | |- context [await_register _ h ?k ?dev] => set (device := dev)
  end.
  unfold await_register. rewrite Hd, Hreg, Hfr.
  unfold _add_device_to_base_config. rewrite Hdev.
  cbn [final effects raised map app s_effects s_raised s_final set_entry_devices
       entry_devices].
  exists device. split.
  - unfold device. rewrite !app_assoc. apply dict_of_items_last.
  - split; [reflexivity|]. split.
    + apply in_or_app. right. right. left. reflexivity.
    + split; [|reflexivity]. rewrite filter_app, Hs2. reflexivity.
Qed.

Lemma send_command_adds_device_witness :
  exists device,
    dict_get "id" device = Some (VStr "RTS_12_cover")
    /\ entry_devices
         (s_final (async_send_command "device_address" "entity_type" "id" "command"
                     "cover" Samples2.no_factory_raises Samples2.sample_hass
                     (Samples2.sample_call true (Some "cover")) (Ok false)))
       = Some [(KStr "RTS_12_cover", VDict device)].
Proof.
  edestruct (send_command_adds_device "device_address" "entity_type" "id" "command"
               "cover" Samples2.no_factory_raises Samples2.sample_hass)
    with (call := Samples2.sample_call true (Some "cover")) (acked := false)
         (entity_type := "cover") (target := "12") (name := "add_cover")
         (devices := @nil (key * value))
    as (device & Hid & _ & _ & _ & Hdev);
    [reflexivity | reflexivity | reflexivity | reflexivity | reflexivity
    | reflexivity | reflexivity | reflexivity |].
  exists device. split; [exact Hid | exact Hdev].
Defined.

(* ===================================================================== *)
(** ** Properties of RfplayerDevice                                      *)
(* ===================================================================== *)

(** X25: what the availability signal carries is stored and the state is
    written, and the property [available] does not read it: an entity
    with a protocol stays available when the unavailability is sent, and
    it is unavailable only when it has no protocol (or an empty one). *)
Theorem available_ignores_signal :
  forall self availability,
    available (dev_final (_availability_callback self availability)) = available self
    /\ _available (dev_final (_availability_callback self availability)) = availability
    /\ dev_effects (_availability_callback self availability) = [WriteState]
    /\ (forall protocol, _protocol self = VStr protocol -> protocol <> "" ->
                         available self = true).
Proof.
  intros self availability. repeat split.
  intros protocol Hp Hne. unfold available. rewrite Hp. cbn.
  apply String.eqb_neq in Hne. now rewrite Hne.
Qed.

Lemma available_ignores_signal_witness :
  available (dev_final (_availability_callback sample_device (VBool false))) = true.
Proof.
  destruct (available_ignores_signal sample_device (VBool false)) as (H & _ & _ & Ha).
  rewrite H. apply (Ha "RTS"); [reflexivity | discriminate].
Defined.

(** X26: when the handler of the platform returns, the state is written
    once, and the button event is fired exactly for the events of type
    command, with the value that the event holds under the command key.
    An event of type command without that key raises [KeyError] after
    the state was written; when the handler raises, as that of the base
    class does, nothing is written and nothing is fired. *)
Theorem handle_event_callback_fires :
  forall EVENT_KEY_PLATFORM EVENT_KEY_COMMAND _handle_event self event,
    let o := handle_event_callback EVENT_KEY_PLATFORM EVENT_KEY_COMMAND
               _handle_event self event in
    (forall e, _handle_event self event = Raise e ->
               o = mkDeviceOutcome self [] (Some e))
    /\ (forall self',
          _handle_event self event = Ok self' ->
          dev_final o = self'
          /\ filter (fun e => match e with WriteState => true | _ => false end)
               (dev_effects o) = [WriteState]
          /\ (identify_event_type EVENT_KEY_PLATFORM event <> VStr EVENT_KEY_COMMAND ->
              dev_effects o = [WriteState] /\ dev_raised o = None)
          /\ (identify_event_type EVENT_KEY_PLATFORM event = VStr EVENT_KEY_COMMAND ->
              (dict_get EVENT_KEY_COMMAND event = None ->
               dev_effects o = [WriteState]
               /\ dev_raised o = Some (KeyError EVENT_KEY_COMMAND))
              /\ (forall state,
                    dict_get EVENT_KEY_COMMAND event = Some state ->
                    filter is_bus_fire (dev_effects o) = [BusFire (entity_id self') state]
                    /\ dev_raised o = None))).
Proof.
  intros KP KC handler self event o. split.
  - intros e He. unfold o, handle_event_callback. now rewrite He.
  - intros self' Hs. unfold o, handle_event_callback. rewrite Hs.
    destruct (identify_event_type KP event) as [| | |t| |] eqn:Et;
      try (split; [reflexivity|]; split; [reflexivity|];
           split; [now split | discriminate]).
    destruct (String.eqb_spec t KC) as [->|Hne].
    + destruct (dict_get KC event) as [state|].
      * split; [reflexivity|]. split; [reflexivity|].
        split; [congruence|]. intros _. split; [discriminate|].
        intros state' [= <-]. now split.
      * split; [reflexivity|]. split; [reflexivity|].
        split; [congruence|]. intros _. split; [now split | discriminate].
    + split; [reflexivity|]. split; [reflexivity|].
      split; [now split | congruence].
Qed.

Lemma handle_event_callback_fires_witness :
  filter is_bus_fire
    (dev_effects (handle_event_callback "platform" "command" sample_handle_event
                    sample_device
                    [("id", VStr "RTS_12"); ("command", VStr "UP");
                     ("platform", VStr "command")]))
  = [BusFire "command.rts_12" (VStr "UP")]
  /\ dev_raised (handle_event_callback "platform" "command" sample_handle_event
                   sample_device
                   [("id", VStr "RTS_12"); ("button", VStr "UP");
                    ("platform", VStr "command")])
     = Some (KeyError "command").
Proof.
  pose proof (handle_event_callback_fires "platform" "command" sample_handle_event
                sample_device
                [("id", VStr "RTS_12"); ("command", VStr "UP");
                 ("platform", VStr "command")]) as H1.
  pose proof (handle_event_callback_fires "platform" "command" sample_handle_event
                sample_device
                [("id", VStr "RTS_12"); ("button", VStr "UP");
                 ("platform", VStr "command")]) as H2.
  cbv zeta in H1, H2.
  destruct (proj2 H1 _ eq_refl) as (_ & _ & _ & Hc1).
  destruct (proj2 H2 _ eq_refl) as (_ & _ & _ & Hc2).
  split.
  - exact (proj1 (proj2 (Hc1 eq_refl) (VStr "UP") eq_refl)).
  - exact (proj2 (proj1 (Hc2 eq_refl) eq_refl)).
Defined.
